(** * The V4L2 capture manager of drivers/video/video.c

    A shallow embedding of the dual-stream (video / still) capture manager:
    the Arbiter [estimate_next_video_state], the DMA controller
    [change_video_state], the ioctl operations of the stream manager, the
    DMA-done notification path, the frame-size negotiation, the control
    loops, the lists of supported formats, and registration and
    initialisation of the driver.

    Conventions.
    - C [int] results are [Z]; [OK], [ERROR] and the errno values are the
      constants below.
    - A C function that mutates [*vmng] and talks to the sensor / image
      pipeline becomes a function from the manager and the hardware state
      [hw_t] to a result, the new manager and the new hardware state.
    - Pointer arguments are taken to be valid: the [NULL] guards that open
      most operations ([vmng == NULL] and the like) have no counterpart.
    - [lock_state] and [lock_open_num] are mutexes taken and released around
      the bodies modelled here; one thread runs each body to its end, so they
      are not part of the manager's state.  The count of [lock_open_num] is
      kept beside the manager where open and close are followed with their
      lock ([video_dev_t]).  The rendezvous semaphore [dqbuf_wait_flg] is
      part of the state: its count is what [is_sem_waited] tests. *)

From Stdlib Require Import ZArith List Bool Lia Znumtheory.
From Equations Require Import Equations.
Import ListNotations.

Local Open Scope Z_scope.

(** ** Result codes

    [OK] and [ERROR] of the kernel headers and the errno values the driver
    returns negated. *)

Definition OK : Z := 0.
Definition ERROR : Z := -1.
Definition EPERM : Z := 1.
Definition ENOMEM : Z := 12.
Definition EBUSY : Z := 16.
Definition EINVAL : Z := 22.
Definition ECANCELED : Z := 125.

(** ** Private types *)

Inductive video_state_e : Type :=
| VIDEO_STATE_STREAMOFF   (* DMA trigger event is not received *)
| VIDEO_STATE_STREAMON    (* trigger received, DMA not operated *)
| VIDEO_STATE_DMA.        (* on DMA *)

Inductive video_state_transition_cause : Type :=
| CAUSE_VIDEO_STOP
| CAUSE_VIDEO_START
| CAUSE_VIDEO_DQBUF
| CAUSE_STILL_STOP
| CAUSE_STILL_START.

Inductive video_waitend_cause_e : Type :=
| VIDEO_WAITEND_CAUSE_DMADONE
| VIDEO_WAITEND_CAUSE_DQCANCEL
| VIDEO_WAITEND_CAUSE_STILLSTOP.

Definition video_state_eqb (a b : video_state_e) : bool :=
  match a, b with
  | VIDEO_STATE_STREAMOFF, VIDEO_STATE_STREAMOFF => true
  | VIDEO_STATE_STREAMON, VIDEO_STATE_STREAMON => true
  | VIDEO_STATE_DMA, VIDEO_STATE_DMA => true
  | _, _ => false
  end.

Definition waitend_cause_eqb (a b : video_waitend_cause_e) : bool :=
  match a, b with
  | VIDEO_WAITEND_CAUSE_DMADONE, VIDEO_WAITEND_CAUSE_DMADONE => true
  | VIDEO_WAITEND_CAUSE_DQCANCEL, VIDEO_WAITEND_CAUSE_DQCANCEL => true
  | VIDEO_WAITEND_CAUSE_STILLSTOP, VIDEO_WAITEND_CAUSE_STILLSTOP => true
  | _, _ => false
  end.

(** The buffer types of the V4L2 header.  video.c names two of them;
    [V4L2_BUF_TYPE_OTHER raw] stands for a type field that holds another
    value, [raw], which is neither of the two values below. *)
Inductive v4l2_buf_type : Type :=
| V4L2_BUF_TYPE_VIDEO_CAPTURE
| V4L2_BUF_TYPE_STILL_CAPTURE
| V4L2_BUF_TYPE_OTHER (raw : Z).

(** The values of the two enumerators in the V4L2 header. *)
Definition VIDEO_CAPTURE_value : Z := 1.
Definition STILL_CAPTURE_value : Z := 20.

Inductive v4l2_buf_mode : Type :=
| V4L2_BUF_MODE_RING
| V4L2_BUF_MODE_FIFO.

(** Modelled from the spec: [struct v4l2_buffer], the buffer descriptor the
    user hands over with QBUF and gets back with DQBUF: "stream kind,
    user-provided memory pointer, byte length, bytes-used, flags (error bit),
    and an opaque index". *)
Record v4l2_buffer : Type := mk_v4l2_buffer {
  buf_index : Z;
  buf_type : v4l2_buf_type;
  buf_bytesused : Z;
  buf_flags : Z;
  buf_userptr : Z;
  buf_length : Z
}.

(** Modelled from the spec: the error bit of a descriptor's flags, a macro
    of the V4L2 header. *)
Definition V4L2_BUF_FLAG_ERROR : Z := 1.

Definition VIDEO_REMAINING_CAPNUM_INFINITY : Z := -1.

(** ** The frame buffer queue (video_framebuff.h)

    video.c uses the queue of video_framebuff.c through the
    [video_framebuff_*] calls and through the [vbuf_dma] field.  Each
    definition of this section follows the operation contracts of the
    specification's FrameBufferQueue. *)

(** Modelled from the spec: [video_framebuff_t], one stream's queue.  Every
    slot is free, queued, dma-current or done; free slots carry no data and
    are counted, the queued and done sub-lists are FIFO, and at most one slot
    is dma-current. *)
Record video_framebuff_t : Type := mk_framebuff {
  mode : v4l2_buf_mode;
  container_size : Z;
  vbuf_free : nat;
  vbuf_queued : list v4l2_buffer;
  vbuf_dma : option v4l2_buffer;
  vbuf_done : list v4l2_buffer
}.

(** Modelled from the spec: [video_framebuff_init], the queue of a stream
    that has no slots yet.  The spec leaves the mode of a fresh queue open;
    ring is taken here. *)
Definition video_framebuff_init : video_framebuff_t :=
  mk_framebuff V4L2_BUF_MODE_RING 0 0 [] None [].

(** Modelled from the spec: [video_framebuff_change_mode], set_mode:
    "sets ring vs fifo.  No effect on existing slots." *)
Definition video_framebuff_change_mode
    (fbuf : video_framebuff_t) (m : v4l2_buf_mode) : video_framebuff_t :=
  mk_framebuff m (container_size fbuf) (vbuf_free fbuf)
               (vbuf_queued fbuf) (vbuf_dma fbuf) (vbuf_done fbuf).

(** Modelled from the spec: [video_framebuff_realloc_container], realloc:
    "resizes to n container slots.  Fails with BUSY if any slot is
    dma-current.  Free-list is rebuilt; any queued or done slots beyond n are
    dropped."  Queued slots are kept before done ones. *)
Definition video_framebuff_realloc_container
    (fbuf : video_framebuff_t) (sz : Z) : Z * video_framebuff_t :=
  match vbuf_dma fbuf with
  | Some _ => (- EBUSY, fbuf)
  | None =>
      let n := Z.to_nat sz in
      let q := firstn n (vbuf_queued fbuf) in
      let d := firstn (n - length q) (vbuf_done fbuf) in
      (OK, mk_framebuff (mode fbuf) sz (n - length q - length d) q None d)
  end.

(** Modelled from the spec: [video_framebuff_get_container], acquire_free:
    "slot or OUT_OF_MEMORY when exhausted".  The slot leaves the free count;
    [None] is the NULL result. *)
Definition video_framebuff_get_container
    (fbuf : video_framebuff_t) : option video_framebuff_t :=
  match vbuf_free fbuf with
  | O => None
  | S k => Some (mk_framebuff (mode fbuf) (container_size fbuf) k
                   (vbuf_queued fbuf) (vbuf_dma fbuf) (vbuf_done fbuf))
  end.

(** Modelled from the spec: [video_framebuff_free_container], release:
    "returns slot to free". *)
Definition video_framebuff_free_container
    (fbuf : video_framebuff_t) : video_framebuff_t :=
  mk_framebuff (mode fbuf) (container_size fbuf) (S (vbuf_free fbuf))
               (vbuf_queued fbuf) (vbuf_dma fbuf) (vbuf_done fbuf).

(** Modelled from the spec: [video_framebuff_queue_container], enqueue:
    "moves slot from free to queued, appended at tail".  [b] is the
    descriptor copied into the acquired slot. *)
Definition video_framebuff_queue_container
    (fbuf : video_framebuff_t) (b : v4l2_buffer) : video_framebuff_t :=
  mk_framebuff (mode fbuf) (container_size fbuf) (vbuf_free fbuf)
               (vbuf_queued fbuf ++ [b]) (vbuf_dma fbuf) (vbuf_done fbuf).

(** Modelled from the spec: [video_framebuff_get_dma_container],
    pop_for_dma: "slot or null: moves the head queued slot to dma-current".
    That no slot is dma-current already is the caller's obligation. *)
Definition video_framebuff_get_dma_container
    (fbuf : video_framebuff_t) : option v4l2_buffer * video_framebuff_t :=
  match vbuf_queued fbuf with
  | [] => (None, fbuf)
  | b :: q => (Some b,
               mk_framebuff (mode fbuf) (container_size fbuf) (vbuf_free fbuf)
                            q (Some b) (vbuf_done fbuf))
  end.

(** Modelled from the spec: [video_framebuff_dma_done], dma_done: "moves
    dma-current to tail of done; in ring mode, if done is at capacity, evict
    the head done first; in fifo mode, the slot remains done."  An evicted
    slot is free again. *)
Definition video_framebuff_dma_done
    (fbuf : video_framebuff_t) : video_framebuff_t :=
  match vbuf_dma fbuf with
  | None => fbuf
  | Some b =>
      let full := container_size fbuf <=? Z.of_nat (length (vbuf_done fbuf)) in
      match mode fbuf, full, vbuf_done fbuf with
      | V4L2_BUF_MODE_RING, true, _ :: d =>
          mk_framebuff (mode fbuf) (container_size fbuf) (S (vbuf_free fbuf))
                       (vbuf_queued fbuf) None (d ++ [b])
      | _, _, d =>
          mk_framebuff (mode fbuf) (container_size fbuf) (vbuf_free fbuf)
                       (vbuf_queued fbuf) None (d ++ [b])
      end
  end.

(** Modelled from the spec: [video_framebuff_dq_valid_container], pop_done:
    "removes and returns head done slot", or null. *)
Definition video_framebuff_dq_valid_container
    (fbuf : video_framebuff_t) : option v4l2_buffer * video_framebuff_t :=
  match vbuf_done fbuf with
  | [] => (None, fbuf)
  | b :: d => (Some b,
               mk_framebuff (mode fbuf) (container_size fbuf) (vbuf_free fbuf)
                            (vbuf_queued fbuf) (vbuf_dma fbuf) d)
  end.

(** Modelled from the spec: [video_framebuff_pop_curr_container], step 3 of
    the notification path: "pop the just-completed slot from done", the one
    [video_framebuff_dma_done] put at the tail. *)
Definition video_framebuff_pop_curr_container
    (fbuf : video_framebuff_t) : option v4l2_buffer * video_framebuff_t :=
  match rev (vbuf_done fbuf) with
  | [] => (None, fbuf)
  | b :: r => (Some b,
               mk_framebuff (mode fbuf) (container_size fbuf) (vbuf_free fbuf)
                            (vbuf_queued fbuf) (vbuf_dma fbuf) (rev r))
  end.

(** The write [fbuf->vbuf_dma->buf = b]. *)
Definition set_vbuf_dma
    (fbuf : video_framebuff_t) (b : v4l2_buffer) : video_framebuff_t :=
  mk_framebuff (mode fbuf) (container_size fbuf) (vbuf_free fbuf)
               (vbuf_queued fbuf) (Some b) (vbuf_done fbuf).

(** ** Streams and the manager *)

(** [struct video_wait_dma_s]; [dqbuf_wait_flg] is the semaphore's count,
    negative while a thread is suspended on it. *)
Record video_wait_dma_t : Type := mk_wait_dma {
  dqbuf_wait_flg : Z;
  done_container : option v4l2_buffer;
  waitend_cause : video_waitend_cause_e
}.

(** [struct video_type_inf_s]. *)
Record video_type_inf_t : Type := mk_type_inf {
  state : video_state_e;
  remaining_capnum : Z;
  wait_dma : video_wait_dma_t;
  bufinf : video_framebuff_t
}.

(** [struct video_mng_s], without the device path, the poll slot and the
    format lists. *)
Record video_mng_t : Type := mk_mng {
  open_num : Z;
  video_inf : video_type_inf_t;
  still_inf : video_type_inf_t
}.

Definition set_state (t : video_type_inf_t) (s : video_state_e) :=
  mk_type_inf s (remaining_capnum t) (wait_dma t) (bufinf t).
Definition set_remaining_capnum (t : video_type_inf_t) (n : Z) :=
  mk_type_inf (state t) n (wait_dma t) (bufinf t).
Definition set_wait_dma (t : video_type_inf_t) (w : video_wait_dma_t) :=
  mk_type_inf (state t) (remaining_capnum t) w (bufinf t).
Definition set_bufinf (t : video_type_inf_t) (f : video_framebuff_t) :=
  mk_type_inf (state t) (remaining_capnum t) (wait_dma t) f.

Definition set_open_num (m : video_mng_t) (n : Z) :=
  mk_mng n (video_inf m) (still_inf m).
Definition set_video_inf (m : video_mng_t) (t : video_type_inf_t) :=
  mk_mng (open_num m) t (still_inf m).
Definition set_still_inf (m : video_mng_t) (t : video_type_inf_t) :=
  mk_mng (open_num m) (video_inf m) t.

(** ** The sensor and the image pipeline

    The two operation vectors are outside the manager.  What the manager
    asks of them is recorded, newest first, in [hw_calls]; the sensor keeps
    the buffer type set last, which [get_buftype] reads back. *)

Inductive hw_call : Type :=
| SENS_OPEN
| SENS_CLOSE
| IMG_OPEN
| IMG_CLOSE
| SET_BUFTYPE (t : v4l2_buf_type)
| START_DMA (t : v4l2_buf_type) (userptr len : Z)
| SET_DMABUF (userptr len : Z)
| CANCEL_DMA.

Record hw_t : Type := mk_hw {
  hw_buftype : v4l2_buf_type;
  hw_calls : list hw_call
}.

Definition hw_call_of (h : hw_t) (c : hw_call) : hw_t :=
  mk_hw (hw_buftype h) (c :: hw_calls h).

Definition set_buftype (h : hw_t) (t : v4l2_buf_type) : hw_t :=
  mk_hw t (SET_BUFTYPE t :: hw_calls h).

Definition get_buftype (h : hw_t) : v4l2_buf_type := hw_buftype h.

(** [set_buftype], [get_format] and [start_dma] in a row, as every place
    that starts a DMA transfer does. *)
Definition start_dma (h : hw_t) (t : v4l2_buf_type) (b : v4l2_buffer) : hw_t :=
  hw_call_of (set_buftype h t) (START_DMA t (buf_userptr b) (buf_length b)).

Definition cancel_dma (h : hw_t) : hw_t := hw_call_of h CANCEL_DMA.

Definition set_dmabuf (h : hw_t) (b : v4l2_buffer) : hw_t :=
  hw_call_of h (SET_DMABUF (buf_userptr b) (buf_length b)).

(** ** Common functions *)

(** What a [video_type_inf_t *] into the manager can point at. *)
Inductive type_inf_ptr : Type :=
| PTR_VIDEO_INF
| PTR_STILL_INF.

Definition deref (vmng : video_mng_t) (p : type_inf_ptr) : video_type_inf_t :=
  match p with
  | PTR_VIDEO_INF => video_inf vmng
  | PTR_STILL_INF => still_inf vmng
  end.

Definition assign (vmng : video_mng_t) (p : type_inf_ptr)
    (t : video_type_inf_t) : video_mng_t :=
  match p with
  | PTR_VIDEO_INF => set_video_inf vmng t
  | PTR_STILL_INF => set_still_inf vmng t
  end.

(** The parameter [type] is a [uint8_t]: of the value the caller passes, the
    switch sees the low eight bits, so that a value which is neither
    enumerator takes the branch of the enumerator it agrees with in these
    bits.  [None] is the NULL of the default branch. *)
Definition get_video_type_inf (type : v4l2_buf_type) : option type_inf_ptr :=
  match type with
  | V4L2_BUF_TYPE_VIDEO_CAPTURE => Some PTR_VIDEO_INF
  | V4L2_BUF_TYPE_STILL_CAPTURE => Some PTR_STILL_INF
  | V4L2_BUF_TYPE_OTHER raw =>
      if raw mod 256 =? VIDEO_CAPTURE_value then Some PTR_VIDEO_INF
      else if raw mod 256 =? STILL_CAPTURE_value then Some PTR_STILL_INF
      else None
  end.

Definition is_video_capture (type : v4l2_buf_type) : bool :=
  match type with
  | V4L2_BUF_TYPE_VIDEO_CAPTURE => true
  | _ => false
  end.

Definition is_still_capture (type : v4l2_buf_type) : bool :=
  match type with
  | V4L2_BUF_TYPE_STILL_CAPTURE => true
  | _ => false
  end.

Definition is_taking_still_picture (vmng : video_mng_t) : bool :=
  video_state_eqb (state (still_inf vmng)) VIDEO_STATE_STREAMON
  || video_state_eqb (state (still_inf vmng)) VIDEO_STATE_DMA.

Definition estimate_next_video_state
    (vmng : video_mng_t) (cause : video_state_transition_cause)
    : video_state_e :=
  let current_state := state (video_inf vmng) in
  match cause with
  | CAUSE_VIDEO_STOP => VIDEO_STATE_STREAMOFF
  | CAUSE_VIDEO_START =>
      if is_taking_still_picture vmng
      then VIDEO_STATE_STREAMON
      else VIDEO_STATE_DMA
  | CAUSE_STILL_STOP =>
      if video_state_eqb current_state VIDEO_STATE_STREAMON
      then VIDEO_STATE_DMA
      else current_state
  | CAUSE_STILL_START =>
      if video_state_eqb current_state VIDEO_STATE_DMA
      then VIDEO_STATE_STREAMON
      else current_state
  | CAUSE_VIDEO_DQBUF =>
      if video_state_eqb current_state VIDEO_STATE_STREAMON
         && negb (is_taking_still_picture vmng)
      then VIDEO_STATE_DMA
      else current_state
  end.

Definition change_video_state
    (vmng : video_mng_t) (hw : hw_t) (next_state : video_state_e)
    : video_mng_t * hw_t :=
  let current_state := state (video_inf vmng) in
  if negb (video_state_eqb current_state VIDEO_STATE_DMA)
     && video_state_eqb next_state VIDEO_STATE_DMA
  then
    match video_framebuff_get_dma_container (bufinf (video_inf vmng)) with
    | (Some dma_container, fbuf) =>
        (set_video_inf vmng
           (set_state (set_bufinf (video_inf vmng) fbuf) next_state),
         start_dma hw V4L2_BUF_TYPE_VIDEO_CAPTURE dma_container)
    | (None, _) =>
        (set_video_inf vmng (set_state (video_inf vmng) VIDEO_STATE_STREAMON),
         hw)
    end
  else
    let hw' :=
      if video_state_eqb current_state VIDEO_STATE_DMA
         && negb (video_state_eqb next_state VIDEO_STATE_DMA)
      then cancel_dma hw
      else hw in
    (set_video_inf vmng (set_state (video_inf vmng) next_state), hw').

Definition is_bufsize_sufficient (vmng : video_mng_t) (bufsize : Z) : bool :=
  true.

(** [memset] to zero, then the infinite capture count, a semaphore count of
    zero and an empty queue. *)
Definition initialize_streamresources : video_type_inf_t :=
  mk_type_inf VIDEO_STATE_STREAMOFF VIDEO_REMAINING_CAPNUM_INFINITY
              (mk_wait_dma 0 None VIDEO_WAITEND_CAUSE_DMADONE)
              video_framebuff_init.

Definition initialize_resources (vmng : video_mng_t) : video_mng_t :=
  mk_mng (open_num vmng) initialize_streamresources initialize_streamresources.

Definition cleanup_streamresources : video_type_inf_t :=
  mk_type_inf VIDEO_STATE_STREAMOFF VIDEO_REMAINING_CAPNUM_INFINITY
              (mk_wait_dma 0 None VIDEO_WAITEND_CAUSE_DMADONE)
              video_framebuff_init.

Definition cleanup_resources (vmng : video_mng_t) (hw : hw_t)
    : video_mng_t * hw_t :=
  let hw' :=
    if video_state_eqb (state (video_inf vmng)) VIDEO_STATE_DMA
       || video_state_eqb (state (still_inf vmng)) VIDEO_STATE_DMA
    then cancel_dma hw
    else hw in
  (mk_mng (open_num vmng) cleanup_streamresources cleanup_streamresources, hw').

(** [nxsem_getvalue] gives the count of the semaphore; a negative count has
    waiters. *)
Definition is_sem_waited (sem : Z) : bool := sem <? 0.

(** Modelled from the spec: [nxsem_post] on the rendezvous flag of a stream,
    one more on its count. *)
Definition nxsem_post (w : video_wait_dma_t) : video_wait_dma_t :=
  mk_wait_dma (dqbuf_wait_flg w + 1) (done_container w) (waitend_cause w).

(** Modelled from the spec: [nxsem_wait] on the rendezvous flag, one less on
    its count; the caller is suspended when the count it found was not
    positive. *)
Definition nxsem_wait (w : video_wait_dma_t) : video_wait_dma_t :=
  mk_wait_dma (dqbuf_wait_flg w - 1) (done_container w) (waitend_cause w).

Definition set_waitend_cause (w : video_wait_dma_t)
    (c : video_waitend_cause_e) : video_wait_dma_t :=
  mk_wait_dma (dqbuf_wait_flg w) (done_container w) c.

Definition set_done_container (w : video_wait_dma_t)
    (c : option v4l2_buffer) : video_wait_dma_t :=
  mk_wait_dma (dqbuf_wait_flg w) c (waitend_cause w).

(** ** Character driver methods *)

(** [sens_ret] and [img_ret] are what the sensor's and the pipeline's [open]
    answer; the pipeline is asked only after the sensor said [OK]. *)
Definition video_open (priv : video_mng_t) (hw : hw_t) (sens_ret img_ret : Z)
    : Z * video_mng_t * hw_t :=
  let '(ret, priv1, hw1) :=
    if open_num priv =? 0 then
      let hw_s := hw_call_of hw SENS_OPEN in
      if sens_ret =? OK then
        let hw_i := hw_call_of hw_s IMG_OPEN in
        if img_ret =? OK
        then (OK, initialize_resources priv, hw_i)
        else (img_ret, priv, hw_i)
      else (sens_ret, priv, hw_s)
    else (OK, priv, hw) in
  if ret =? OK
  then (ret, set_open_num priv1 ((open_num priv1 + 1) mod 256), hw1)
  else (ret, priv1, hw1).

Definition video_close (priv : video_mng_t) (hw : hw_t)
    : Z * video_mng_t * hw_t :=
  let ret := ERROR in
  if open_num priv =? 0 then (OK, priv, hw)
  else
    let priv1 := set_open_num priv (open_num priv - 1) in
    if open_num priv1 =? 0 then
      let '(priv2, hw2) := cleanup_resources priv1 hw in
      (ret, priv2, hw_call_of (hw_call_of hw2 SENS_CLOSE) IMG_CLOSE)
    else (ret, priv1, hw).

(** ** ioctl operations *)

(** [reqbufs] carries the buffer type, the mode and the count. *)
Definition video_reqbufs (vmng : video_mng_t)
    (type : v4l2_buf_type) (req_mode : v4l2_buf_mode) (count : Z)
    : Z * video_mng_t :=
  match get_video_type_inf type with
  | None => (- EINVAL, vmng)
  | Some type_inf =>
      if video_state_eqb (state (deref vmng type_inf)) VIDEO_STATE_DMA
      then (* In DMA, REQBUFS is not permitted *)
        (- EPERM, vmng)
      else
        let fbuf := video_framebuff_change_mode
                      (bufinf (deref vmng type_inf)) req_mode in
        let '(ret, fbuf') := video_framebuff_realloc_container fbuf count in
        (ret, assign vmng type_inf (set_bufinf (deref vmng type_inf) fbuf'))
  end.

Definition video_qbuf (vmng : video_mng_t) (hw : hw_t) (buf : v4l2_buffer)
    : Z * video_mng_t * hw_t :=
  match get_video_type_inf (buf_type buf) with
  | None => (- EINVAL, vmng, hw)
  | Some type_inf =>
      if negb (is_bufsize_sufficient vmng (buf_length buf))
      then (- EINVAL, vmng, hw)
      else
        match video_framebuff_get_container (bufinf (deref vmng type_inf)) with
        | None => (- ENOMEM, vmng, hw)
        | Some fbuf =>
            let fbuf1 := video_framebuff_queue_container fbuf buf in
            let vmng1 :=
              assign vmng type_inf (set_bufinf (deref vmng type_inf) fbuf1) in
            if video_state_eqb (state (deref vmng1 type_inf))
                               VIDEO_STATE_STREAMON
            then
              if is_video_capture (buf_type buf)
              then
                let '(vmng2, hw2) :=
                  change_video_state vmng1 hw
                    (estimate_next_video_state vmng1 CAUSE_VIDEO_START) in
                (OK, vmng2, hw2)
              else
                match video_framebuff_get_dma_container
                        (bufinf (deref vmng1 type_inf)) with
                | (Some container, fbuf2) =>
                    (OK,
                     assign vmng1 type_inf
                       (set_state (set_bufinf (deref vmng1 type_inf) fbuf2)
                                  VIDEO_STATE_DMA),
                     start_dma hw (buf_type buf) container)
                | (None, _) => (OK, vmng1, hw)
                end
            else (OK, vmng1, hw)
        end
  end.

Definition video_streamon (vmng : video_mng_t) (hw : hw_t)
    (type : v4l2_buf_type) : Z * video_mng_t * hw_t :=
  match get_video_type_inf type with
  | None => (- EINVAL, vmng, hw)
  | Some type_inf =>
      if negb (is_video_capture type)
      then (* No procedure for VIDIOC_STREAMON(STILL_CAPTURE) *)
        (OK, vmng, hw)
      else if negb (video_state_eqb (state (deref vmng type_inf))
                                    VIDEO_STATE_STREAMOFF)
      then (- EPERM, vmng, hw)
      else
        let '(vmng', hw') :=
          change_video_state vmng hw
            (estimate_next_video_state vmng CAUSE_VIDEO_START) in
        (OK, vmng', hw')
  end.

Definition video_streamoff (vmng : video_mng_t) (hw : hw_t)
    (type : v4l2_buf_type) : Z * video_mng_t * hw_t :=
  match get_video_type_inf type with
  | None => (- EINVAL, vmng, hw)
  | Some type_inf =>
      if negb (is_video_capture type)
      then (* No procedure for VIDIOC_STREAMOFF(STILL_CAPTURE) *)
        (OK, vmng, hw)
      else if video_state_eqb (state (deref vmng type_inf))
                              VIDEO_STATE_STREAMOFF
      then (- EPERM, vmng, hw)
      else
        let '(vmng', hw') :=
          change_video_state vmng hw
            (estimate_next_video_state vmng CAUSE_VIDEO_STOP) in
        (OK, vmng', hw')
  end.

Definition video_takepict_start (vmng : video_mng_t) (hw : hw_t)
    (capture_num : Z) : Z * video_mng_t * hw_t :=
  if negb (video_state_eqb (state (still_inf vmng)) VIDEO_STATE_STREAMOFF)
  then (- EPERM, vmng, hw)
  else
    let vmng1 :=
      set_still_inf vmng
        (set_remaining_capnum (still_inf vmng)
           (if 0 <? capture_num
            then capture_num
            else VIDEO_REMAINING_CAPNUM_INFINITY)) in
    (* Control video stream prior to still stream *)
    let '(vmng2, hw2) :=
      change_video_state vmng1 hw
        (estimate_next_video_state vmng1 CAUSE_STILL_START) in
    match video_framebuff_get_dma_container (bufinf (still_inf vmng2)) with
    | (Some dma_container, fbuf) =>
        (OK,
         set_still_inf vmng2
           (set_state (set_bufinf (still_inf vmng2) fbuf) VIDEO_STATE_DMA),
         start_dma hw2 V4L2_BUF_TYPE_STILL_CAPTURE dma_container)
    | (None, _) =>
        (OK,
         set_still_inf vmng2 (set_state (still_inf vmng2) VIDEO_STATE_STREAMON),
         hw2)
    end.

Definition video_takepict_stop (vmng : video_mng_t) (hw : hw_t)
    (halfpush : bool) : Z * video_mng_t * hw_t :=
  if video_state_eqb (state (still_inf vmng)) VIDEO_STATE_STREAMOFF
     && (remaining_capnum (still_inf vmng)
         =? VIDEO_REMAINING_CAPNUM_INFINITY)
  then (- EPERM, vmng, hw)
  else
    let hw1 :=
      if video_state_eqb (state (still_inf vmng)) VIDEO_STATE_DMA
      then cancel_dma hw
      else hw in
    let vmng1 :=
      set_still_inf vmng
        (set_remaining_capnum
           (set_state (still_inf vmng) VIDEO_STATE_STREAMOFF)
           VIDEO_REMAINING_CAPNUM_INFINITY) in
    (* Control video stream *)
    let '(vmng2, hw2) :=
      change_video_state vmng1 hw1
        (estimate_next_video_state vmng1 CAUSE_STILL_STOP) in
    (OK, vmng2, hw2).

(** [video_cancel_dqbuf] runs outside any critical section, so the interrupt
    handler can run between its statements.  [cancel_dqbuf_mark] is the store
    to [waitend_cause] and [cancel_dqbuf_post] the [nxsem_post] after it. *)
Definition cancel_dqbuf_mark (vmng : video_mng_t) (type_inf : type_inf_ptr)
    : video_mng_t :=
  let t := deref vmng type_inf in
  assign vmng type_inf
    (set_wait_dma t (set_waitend_cause (wait_dma t)
                                       VIDEO_WAITEND_CAUSE_DQCANCEL)).

Definition cancel_dqbuf_post (vmng : video_mng_t) (type_inf : type_inf_ptr)
    : video_mng_t :=
  let t := deref vmng type_inf in
  assign vmng type_inf (set_wait_dma t (nxsem_post (wait_dma t))).

Definition video_cancel_dqbuf (vmng : video_mng_t) (type : v4l2_buf_type)
    : Z * video_mng_t :=
  match get_video_type_inf type with
  | None => (- EINVAL, vmng)
  | Some type_inf =>
      if negb (is_sem_waited
                 (dqbuf_wait_flg (wait_dma (deref vmng type_inf))))
      then (* In not waiting DQBUF case, return OK *)
        (OK, vmng)
      else
        (OK, cancel_dqbuf_post (cancel_dqbuf_mark vmng type_inf) type_inf)
  end.

(** How a call of [video_dqbuf] stands: returned with a result and, on [OK],
    the descriptor copied out; suspended in [nxsem_wait]; or past a [memcpy]
    from a NULL container, which C leaves undefined. *)
Inductive dqbuf_result : Type :=
| DQBUF_RETURN (ret : Z) (out : option v4l2_buffer)
| DQBUF_SUSPENDED
| DQBUF_NULL_DEREF.

(** [video_dqbuf] from the exit of its do-while loop on. *)
Definition video_dqbuf_finish (vmng : video_mng_t) (type_inf : type_inf_ptr)
    : dqbuf_result * video_mng_t :=
  let t := deref vmng type_inf in
  match done_container (wait_dma t) with
  | None =>
      (* Waking up without DMA data means abort. *)
      if waitend_cause_eqb (waitend_cause (wait_dma t))
                           VIDEO_WAITEND_CAUSE_DQCANCEL
      then (DQBUF_RETURN (- ECANCELED) None, vmng)
      else (DQBUF_NULL_DEREF, vmng)
  | Some container =>
      let t1 := set_wait_dma t (set_done_container (wait_dma t) None) in
      (DQBUF_RETURN OK (Some container),
       assign vmng type_inf
         (set_bufinf t1 (video_framebuff_free_container (bufinf t1))))
  end.

(** The do-while loop from the top of its body.  [n] is the count of the
    semaphore when it is positive: that many calls of [nxsem_wait] come back
    at once, the next one suspends the caller. *)
Fixpoint video_dqbuf_wait (n : nat) (vmng : video_mng_t) (hw : hw_t)
    (type : v4l2_buf_type) (type_inf : type_inf_ptr)
    : dqbuf_result * video_mng_t * hw_t :=
  let '(vmng1, hw1) :=
    if is_video_capture type
    then change_video_state vmng hw
           (estimate_next_video_state vmng CAUSE_VIDEO_DQBUF)
    else (vmng, hw) in
  let t := deref vmng1 type_inf in
  let vmng2 := assign vmng1 type_inf (set_wait_dma t (nxsem_wait (wait_dma t))) in
  match n with
  | O => (DQBUF_SUSPENDED, vmng2, hw1)
  | S n' =>
      if waitend_cause_eqb (waitend_cause (wait_dma (deref vmng2 type_inf)))
                           VIDEO_WAITEND_CAUSE_STILLSTOP
      then video_dqbuf_wait n' vmng2 hw1 type type_inf
      else let '(r, vmng3) := video_dqbuf_finish vmng2 type_inf in
           (r, vmng3, hw1)
  end.

Definition video_dqbuf (vmng : video_mng_t) (hw : hw_t) (type : v4l2_buf_type)
    : dqbuf_result * video_mng_t * hw_t :=
  match get_video_type_inf type with
  | None => (DQBUF_RETURN (- EINVAL) None, vmng, hw)
  | Some type_inf =>
      let t := deref vmng type_inf in
      match video_framebuff_dq_valid_container (bufinf t) with
      | (Some container, fbuf) =>
          (DQBUF_RETURN OK (Some container),
           assign vmng type_inf
             (set_bufinf t (video_framebuff_free_container fbuf)),
           hw)
      | (None, _) =>
          (* Not yet done DMA. Wait done *)
          video_dqbuf_wait (Z.to_nat (dqbuf_wait_flg (wait_dma t)))
                           vmng hw type type_inf
      end
  end.

(** A suspended [video_dqbuf] going on after a post released it: the loop
    condition is tested, then the loop is entered again or left. *)
Definition video_dqbuf_wake (vmng : video_mng_t) (hw : hw_t)
    (type : v4l2_buf_type) (type_inf : type_inf_ptr)
    : dqbuf_result * video_mng_t * hw_t :=
  let t := deref vmng type_inf in
  if waitend_cause_eqb (waitend_cause (wait_dma t))
                       VIDEO_WAITEND_CAUSE_STILLSTOP
  then video_dqbuf_wait (Z.to_nat (dqbuf_wait_flg (wait_dma t)))
                        vmng hw type type_inf
  else let '(r, vmng') := video_dqbuf_finish vmng type_inf in
       (r, vmng', hw).

(** The stores into [vbuf_dma->buf]: [flags] is zero on success and the
    error bit otherwise, [bytesused] is the size reported. *)
Definition stamp_dma_buffer (c : v4l2_buffer) (err_code datasize : Z)
    : v4l2_buffer :=
  mk_v4l2_buffer (buf_index c) (buf_type c) datasize
                 (if err_code =? 0 then 0 else V4L2_BUF_FLAG_ERROR)
                 (buf_userptr c) (buf_length c).

(** ** The DMA-done callback

    [None]: the callback wrote through a NULL [vbuf_dma]. *)
Definition video_common_notify_dma_done
    (err_code datasize : Z) (vmng : video_mng_t) (hw : hw_t)
    : option (Z * video_mng_t * hw_t) :=
  let type := get_buftype hw in
  match get_video_type_inf type with
  | None => Some (- EINVAL, vmng, hw)
  | Some type_inf =>
      let t := deref vmng type_inf in
      match vbuf_dma (bufinf t) with
      | None => None
      | Some c =>
          let remaining :=
            if (err_code =? 0) && (0 <? remaining_capnum t)
            then remaining_capnum t - 1
            else remaining_capnum t in
          let c' := stamp_dma_buffer c err_code datasize in
          let t1 :=
            set_bufinf (set_remaining_capnum t remaining)
              (video_framebuff_dma_done (set_vbuf_dma (bufinf t) c')) in
          let t2 :=
            if is_sem_waited (dqbuf_wait_flg (wait_dma t1))
            then
              (* If waiting DMA done in DQBUF,
                 get/save container and unlock wait *)
              let '(popped, fbuf) :=
                video_framebuff_pop_curr_container (bufinf t1) in
              set_wait_dma (set_bufinf t1 fbuf)
                (nxsem_post
                   (set_waitend_cause
                      (set_done_container (wait_dma t1) popped)
                      VIDEO_WAITEND_CAUSE_DMADONE))
            else t1 in
          if remaining_capnum t2 =? 0
          then
            let vmng3 := assign vmng type_inf
                           (set_state t2 VIDEO_STATE_STREAMOFF) in
            (* If stop still stream, notify it to video stream *)
            let v := video_inf vmng3 in
            let vmng4 :=
              if is_still_capture type
                 && is_sem_waited (dqbuf_wait_flg (wait_dma v))
              then set_video_inf vmng3
                     (set_wait_dma v
                        (nxsem_post
                           (set_waitend_cause (wait_dma v)
                              VIDEO_WAITEND_CAUSE_STILLSTOP)))
              else vmng3 in
            Some (OK, vmng4, cancel_dma hw)
          else
            match video_framebuff_get_dma_container (bufinf t2) with
            | (None, _) =>
                Some (OK,
                      assign vmng type_inf (set_state t2 VIDEO_STATE_STREAMON),
                      cancel_dma hw)
            | (Some container, fbuf) =>
                Some (OK,
                      assign vmng type_inf (set_bufinf t2 fbuf),
                      set_dmabuf hw container)
            end
      end
  end.

(** ** Frame sizes *)

(** The macros [MIN] and [MAX]. *)
Definition MIN (a b : Z) : Z := if a <? b then a else b.
Definition MAX (a b : Z) : Z := if a >? b then a else b.

(** Greatest common divisor, [uint16_t] operands.  [a % b] with [b] zero is
    a division by zero in C; [lcm] never asks for it, and the model answers
    [b] there. *)
Equations? gcd (a b : Z) : Z by wf (Z.to_nat b) lt :=
  gcd a b with Z_le_gt_dec b 0 := {
    | left _ := b;
    | right Hb with Z.eq_dec (a mod b) 0 := {
        | left _ := b;
        | right Hr := gcd b (a mod b) } }.
Proof.
  pose proof (Z.mod_pos_bound a b ltac:(lia)); lia.
Qed.

(** Least common multiple.  The product is formed in [int] and cut to the
    [uint16_t] result: its low 16 bits. *)
Definition lcm (a b : Z) : Z :=
  if b =? 0 then 0 else ((a / gcd a b) * b) mod 65536.

(** The frame size types and records of the V4L2 header, with the fields
    [video_enum_framesizes] reads and writes. *)
Inductive v4l2_frmsizetypes : Type :=
| V4L2_FRMSIZE_TYPE_DISCRETE
| V4L2_FRMSIZE_TYPE_CONTINUOUS
| V4L2_FRMSIZE_TYPE_STEPWISE.

Record v4l2_frmsize_discrete : Type := mk_discrete {
  width : Z;
  height : Z
}.

Record v4l2_frmsize_stepwise : Type := mk_stepwise {
  min_width : Z;
  max_width : Z;
  step_width : Z;
  min_height : Z;
  max_height : Z;
  step_height : Z
}.

(** [struct v4l2_frmsizeenum].  The main image and the sub-image each have a
    [discrete] and a [stepwise] member; C overlays the two in a union, here
    they are kept apart. *)
Record v4l2_frmsizeenum : Type := mk_frmsizeenum {
  frm_index : Z;
  frm_buf_type : v4l2_buf_type;
  pixel_format : Z;
  subimg_pixel_format : Z;
  frm_type : v4l2_frmsizetypes;
  discrete : v4l2_frmsize_discrete;
  stepwise : v4l2_frmsize_stepwise;
  subimg_type : v4l2_frmsizetypes;
  subimg_discrete : v4l2_frmsize_discrete;
  subimg_stepwise : v4l2_frmsize_stepwise
}.

(** The part of the two operation vectors that frame-size enumeration uses.
    The sensor's [get_range_of_framesize] is asked with index 0, 1, 2, ...;
    its answers for one request are the list it gives here, and it answers
    with an error past the end of the list.  The pipeline's
    [get_range_of_framesize] gives its result code and capability, and its
    [try_format] the result code for a discrete size. *)
Record video_sensctrl_ops_s : Type := mk_sensctrl_ops {
  sens_get_range_of_framesize :
    v4l2_buf_type -> Z -> Z -> list v4l2_frmsizeenum
}.

Record video_imgdata_ops_s : Type := mk_imgdata_ops {
  img_get_range_of_framesize :
    v4l2_buf_type -> Z -> Z -> Z * v4l2_frmsizeenum;
  img_try_format :
    v4l2_buf_type -> Z -> Z ->
    v4l2_frmsize_discrete -> v4l2_frmsize_discrete -> Z
}.

Definition is_discrete (t : v4l2_frmsizetypes) : bool :=
  match t with
  | V4L2_FRMSIZE_TYPE_DISCRETE => true
  | _ => false
  end.

(** The stepwise branch: merge the pipeline's capability and the sensor's. *)
Definition merge_stepwise (capa_imgdata capa_sensctrl : v4l2_frmsize_stepwise)
    : v4l2_frmsize_stepwise :=
  mk_stepwise
    (MAX (min_width capa_sensctrl) (min_width capa_imgdata))
    (MIN (max_width capa_sensctrl) (max_width capa_imgdata))
    (lcm (step_width capa_imgdata) (step_width capa_sensctrl))
    (MAX (min_height capa_sensctrl) (min_height capa_imgdata))
    (MIN (max_height capa_sensctrl) (max_height capa_imgdata))
    (lcm (step_height capa_imgdata) (step_height capa_sensctrl)).

(** The do-while loop of [video_enum_framesizes]; [answers] are the sensor's
    answers from the current [capa_sensctrl.index] on, each of them the whole
    of [capa_sensctrl] as the sensor leaves it.  The format handed to
    [try_format] is built from that: buffer type and pixel formats are the
    ones in the sensor's answer, not the ones of the request. *)
Fixpoint enum_framesizes_loop (g_video_imgdata_ops : video_imgdata_ops_s)
    (capa_imgdata : v4l2_frmsizeenum) (answers : list v4l2_frmsizeenum)
    (supported_num : Z) (frmsize : v4l2_frmsizeenum) : v4l2_frmsizeenum :=
  match answers with
  | [] => frmsize
  | capa_sensctrl :: answers' =>
      if is_discrete (frm_type capa_sensctrl) then
        if img_try_format g_video_imgdata_ops
             (frm_buf_type capa_sensctrl) (pixel_format capa_sensctrl)
             (subimg_pixel_format capa_sensctrl)
             (discrete capa_sensctrl) (subimg_discrete capa_sensctrl) =? OK
        then
          if frm_index frmsize =? supported_num then
            (* Return this discrete value *)
            mk_frmsizeenum
              (frm_index frmsize) (frm_buf_type frmsize)
              (pixel_format frmsize) (subimg_pixel_format frmsize)
              V4L2_FRMSIZE_TYPE_DISCRETE
              (discrete capa_sensctrl) (stepwise frmsize)
              V4L2_FRMSIZE_TYPE_DISCRETE
              (subimg_discrete capa_sensctrl) (subimg_stepwise frmsize)
          else
            enum_framesizes_loop g_video_imgdata_ops capa_imgdata answers'
                                 (supported_num + 1) frmsize
        else
          enum_framesizes_loop g_video_imgdata_ops capa_imgdata answers'
                               supported_num frmsize
      else
        mk_frmsizeenum
          (frm_index frmsize) (frm_buf_type frmsize)
          (pixel_format frmsize) (subimg_pixel_format frmsize)
          V4L2_FRMSIZE_TYPE_STEPWISE
          (discrete frmsize)
          (merge_stepwise (stepwise capa_imgdata) (stepwise capa_sensctrl))
          V4L2_FRMSIZE_TYPE_STEPWISE
          (subimg_discrete frmsize)
          (merge_stepwise (subimg_stepwise capa_imgdata)
                          (subimg_stepwise capa_sensctrl))
  end.

Definition video_enum_framesizes
    (g_video_sensctrl_ops : video_sensctrl_ops_s)
    (g_video_imgdata_ops : video_imgdata_ops_s)
    (frmsize : v4l2_frmsizeenum) : Z * v4l2_frmsizeenum :=
  let '(ret, capa_imgdata) :=
    img_get_range_of_framesize g_video_imgdata_ops
      (frm_buf_type frmsize) (pixel_format frmsize)
      (subimg_pixel_format frmsize) in
  if negb (ret =? OK) then (ret, frmsize)
  else
    (OK,
     enum_framesizes_loop g_video_imgdata_ops capa_imgdata
       (sens_get_range_of_framesize g_video_sensctrl_ops
          (frm_buf_type frmsize) (pixel_format frmsize)
          (subimg_pixel_format frmsize))
       0 frmsize).

(** ** A dequeue, a cancel and the interrupt handler side by side

    One thread is inside [video_dqbuf], one inside [video_cancel_dqbuf], both
    on the buffer type [type]; the interrupt handler may call
    [video_common_notify_dma_done] between any two statements of either.
    [cancel_pc] is the statement the cancelling thread executes next,
    [dqbuf_pc] says whether the dequeuing thread is suspended in
    [nxsem_wait], released by a post and not resumed yet, or finished. *)

Inductive cancel_pc : Type :=
| CANCEL_AT_TEST
| CANCEL_AT_MARK
| CANCEL_AT_POST
| CANCEL_RETURNED (ret : Z).

Inductive dqbuf_pc : Type :=
| DQBUF_WAITING
| DQBUF_RELEASED
| DQBUF_FINISHED (r : dqbuf_result).

Record system : Type := mk_system {
  sys_vmng : video_mng_t;
  sys_hw : hw_t;
  sys_cancel : cancel_pc;
  sys_dqbuf : dqbuf_pc
}.

Inductive event : Type :=
| RUN_CANCEL                            (* next statement of the cancel *)
| RUN_DQBUF                             (* the released dequeue goes on *)
| IRQ_DMA_DONE (err_code datasize : Z). (* the DMA-done interrupt *)

(** Modelled from the spec: a post on a rendezvous flag with a negative
    count releases the thread that is suspended on it. *)
Definition release (before after : Z) (d : dqbuf_pc) : dqbuf_pc :=
  match d with
  | DQBUF_WAITING =>
      if (before <? 0) && (before <? after) then DQBUF_RELEASED
      else DQBUF_WAITING
  | _ => d
  end.

Definition sem_count (vmng : video_mng_t) (type_inf : type_inf_ptr) : Z :=
  dqbuf_wait_flg (wait_dma (deref vmng type_inf)).

Definition step (type : v4l2_buf_type) (e : event) (s : system)
    : option system :=
  match get_video_type_inf type with
  | None => None
  | Some type_inf =>
      let vmng := sys_vmng s in
      match e with
      | RUN_CANCEL =>
          match sys_cancel s with
          | CANCEL_AT_TEST =>
              if negb (is_sem_waited (sem_count vmng type_inf))
              then Some (mk_system vmng (sys_hw s)
                                   (CANCEL_RETURNED OK) (sys_dqbuf s))
              else Some (mk_system vmng (sys_hw s)
                                   CANCEL_AT_MARK (sys_dqbuf s))
          | CANCEL_AT_MARK =>
              Some (mk_system (cancel_dqbuf_mark vmng type_inf) (sys_hw s)
                              CANCEL_AT_POST (sys_dqbuf s))
          | CANCEL_AT_POST =>
              let vmng' := cancel_dqbuf_post vmng type_inf in
              Some (mk_system vmng' (sys_hw s) (CANCEL_RETURNED OK)
                              (release (sem_count vmng type_inf)
                                       (sem_count vmng' type_inf)
                                       (sys_dqbuf s)))
          | CANCEL_RETURNED _ => None
          end
      | RUN_DQBUF =>
          match sys_dqbuf s with
          | DQBUF_RELEASED =>
              let '(r, vmng', hw') :=
                video_dqbuf_wake vmng (sys_hw s) type type_inf in
              Some (mk_system vmng' hw' (sys_cancel s)
                              match r with
                              | DQBUF_SUSPENDED => DQBUF_WAITING
                              | _ => DQBUF_FINISHED r
                              end)
          | _ => None
          end
      | IRQ_DMA_DONE err_code datasize =>
          match video_common_notify_dma_done err_code datasize
                                             vmng (sys_hw s) with
          | None => None
          | Some (_, vmng', hw') =>
              Some (mk_system vmng' hw' (sys_cancel s)
                              (release (sem_count vmng type_inf)
                                       (sem_count vmng' type_inf)
                                       (sys_dqbuf s)))
          end
      end
  end.

Fixpoint run (type : v4l2_buf_type) (schedule : list event) (s : system)
    : option system :=
  match schedule with
  | [] => Some s
  | e :: schedule' =>
      match step type e s with
      | None => None
      | Some s' => run type schedule' s'
      end
  end.

(** The cancel alone: test, mark, post, then the dequeue goes on. *)
Definition cancel_schedule : list event :=
  [RUN_CANCEL; RUN_CANCEL; RUN_CANCEL; RUN_DQBUF].

(** Every schedule in which one DMA-done interrupt falls between the test
    and the post of the cancel, and the dequeue goes on at some point after
    the interrupt released it. *)
Definition race_schedules (err_code datasize : Z) : list (list event) :=
  let irq := IRQ_DMA_DONE err_code datasize in
  [ [RUN_CANCEL; irq; RUN_DQBUF; RUN_CANCEL; RUN_CANCEL];
    [RUN_CANCEL; irq; RUN_CANCEL; RUN_DQBUF; RUN_CANCEL];
    [RUN_CANCEL; irq; RUN_CANCEL; RUN_CANCEL; RUN_DQBUF];
    [RUN_CANCEL; RUN_CANCEL; irq; RUN_DQBUF; RUN_CANCEL];
    [RUN_CANCEL; RUN_CANCEL; irq; RUN_CANCEL; RUN_DQBUF] ].

(** ** The Arbiter table of the specification *)

(** The transition table of the specification: the next state of the video
    stream from the two current states and the cause. *)
Definition next_video_state
    (cur_video cur_still : video_state_e)
    (cause : video_state_transition_cause) : video_state_e :=
  let still_is_capturing :=
    match cur_still with
    | VIDEO_STATE_STREAMON | VIDEO_STATE_DMA => true
    | VIDEO_STATE_STREAMOFF => false
    end in
  match cause with
  | CAUSE_VIDEO_STOP => VIDEO_STATE_STREAMOFF
  | CAUSE_VIDEO_START =>
      if still_is_capturing then VIDEO_STATE_STREAMON else VIDEO_STATE_DMA
  | CAUSE_STILL_START =>
      match cur_video with
      | VIDEO_STATE_DMA => VIDEO_STATE_STREAMON
      | _ => cur_video
      end
  | CAUSE_STILL_STOP =>
      match cur_video with
      | VIDEO_STATE_STREAMON => VIDEO_STATE_DMA
      | _ => cur_video
      end
  | CAUSE_VIDEO_DQBUF =>
      match cur_video, still_is_capturing with
      | VIDEO_STATE_STREAMON, false => VIDEO_STATE_DMA
      | _, _ => cur_video
      end
  end.

(** ** Concrete managers *)

(** The manager right after the first successful open. *)
Definition opened_once : video_mng_t :=
  mk_mng 1 initialize_streamresources initialize_streamresources.

Definition hw_idle : hw_t := mk_hw V4L2_BUF_TYPE_VIDEO_CAPTURE [].

(** ** Frame sizes: the intersection of the specification *)




(** Whether the pipeline's [try_format] takes the discrete size the sensor
    answered with, in the buffer type and the pixel formats of that answer,
    and how many of the sensor's answers it takes. *)
Definition accepts (g_video_imgdata_ops : video_imgdata_ops_s)
    (capa_sensctrl : v4l2_frmsizeenum) : bool :=
  img_try_format g_video_imgdata_ops
    (frm_buf_type capa_sensctrl) (pixel_format capa_sensctrl)
    (subimg_pixel_format capa_sensctrl)
    (discrete capa_sensctrl) (subimg_discrete capa_sensctrl) =? OK.

Definition accepted_count (g_video_imgdata_ops : video_imgdata_ops_s)
    (answers : list v4l2_frmsizeenum) : Z :=
  Z.of_nat (length (filter (accepts g_video_imgdata_ops) answers)).

(** ** Concrete sensors and pipelines *)

Definition no_size : v4l2_frmsize_discrete := mk_discrete 0 0.
Definition no_range : v4l2_frmsize_stepwise := mk_stepwise 0 0 0 0 0 0.

(** A request for the frame size number [idx] of pixel format [fmt]. *)
Definition frmsize_request (idx fmt : Z) : v4l2_frmsizeenum :=
  mk_frmsizeenum idx V4L2_BUF_TYPE_VIDEO_CAPTURE fmt 0
                 V4L2_FRMSIZE_TYPE_DISCRETE no_size no_range
                 V4L2_FRMSIZE_TYPE_DISCRETE no_size no_range.

Definition discrete_answer (w h : Z) : v4l2_frmsizeenum :=
  mk_frmsizeenum 0 V4L2_BUF_TYPE_VIDEO_CAPTURE 0 0
                 V4L2_FRMSIZE_TYPE_DISCRETE (mk_discrete w h) no_range
                 V4L2_FRMSIZE_TYPE_DISCRETE no_size no_range.

Definition stepwise_answer (main sub : v4l2_frmsize_stepwise)
    : v4l2_frmsizeenum :=
  mk_frmsizeenum 0 V4L2_BUF_TYPE_VIDEO_CAPTURE 0 0
                 V4L2_FRMSIZE_TYPE_STEPWISE no_size main
                 V4L2_FRMSIZE_TYPE_STEPWISE no_size sub.

(** A pipeline that takes widths up to 640 and answers [- EINVAL] to wider
    ones; its own range is 96..640 by 2 and 64..480 by 2. *)
Definition pipeline_640 : video_imgdata_ops_s :=
  mk_imgdata_ops
    (fun _ _ _ =>
       (OK, stepwise_answer (mk_stepwise 96 640 2 64 480 2)
                            (mk_stepwise 96 320 2 64 240 2)))
    (fun _ _ _ main _ => if width main <=? 640 then OK else - EINVAL).

(** A sensor with no frame size at all for the format. *)
Definition sensor_nothing : video_sensctrl_ops_s :=
  mk_sensctrl_ops (fun _ _ _ => []).

(** A sensor with two discrete sizes; [pipeline_640] takes the first. *)
Definition sensor_two_sizes : video_sensctrl_ops_s :=
  mk_sensctrl_ops
    (fun _ _ _ => [discrete_answer 320 240; discrete_answer 1280 960]).

(** A sensor with the range 160..1280 by 8 and 120..960 by 6. *)
Definition sensor_range : video_sensctrl_ops_s :=
  mk_sensctrl_ops
    (fun _ _ _ =>
       [stepwise_answer (mk_stepwise 160 1280 8 120 960 6)
                        (mk_stepwise 160 640 8 120 480 6)]).

(** ** Concrete runs *)

Definition still_buffer : v4l2_buffer :=
  mk_v4l2_buffer 0 V4L2_BUF_TYPE_STILL_CAPTURE 0 0 4096 65536.

Definition video_buffer (idx : Z) : v4l2_buffer :=
  mk_v4l2_buffer idx V4L2_BUF_TYPE_VIDEO_CAPTURE 0 0 (8192 + 1024 * idx) 1024.

(** REQBUFS(still, fifo, 1); QBUF(still); STREAMON(video) with no video
    buffer queued; TAKEPICT_START(1): the manager and the hardware after
    these calls on a freshly opened device. *)
Definition still_over_idle_video : video_mng_t * hw_t :=
  let '(_, m1) :=
    video_reqbufs opened_once V4L2_BUF_TYPE_STILL_CAPTURE
                  V4L2_BUF_MODE_FIFO 1 in
  let '(_, m2, h2) := video_qbuf m1 hw_idle still_buffer in
  let '(_, m3, h3) := video_streamon m2 h2 V4L2_BUF_TYPE_VIDEO_CAPTURE in
  let '(_, m4, h4) := video_takepict_start m3 h3 1 in
  (m4, h4).

(** REQBUFS(still, fifo, 1); QBUF(still); TAKEPICT_START(2): a still capture
    of two frames with its first transfer under way. *)
Definition still_two_frames : video_mng_t * hw_t :=
  let '(_, m1) :=
    video_reqbufs opened_once V4L2_BUF_TYPE_STILL_CAPTURE
                  V4L2_BUF_MODE_FIFO 1 in
  let '(_, m2, h2) := video_qbuf m1 hw_idle still_buffer in
  let '(_, m3, h3) := video_takepict_start m2 h2 2 in
  (m3, h3).

(** REQBUFS(video, fifo, 2); STREAMON(video) with no video buffer queued;
    REQBUFS(still, fifo, 1); QBUF(still); TAKEPICT_START(1): the still
    capture has its transfer under way and the video stream waits in
    STREAMON with two free slots. *)
Definition still_over_waiting_video : video_mng_t * hw_t :=
  let '(_, m1) :=
    video_reqbufs opened_once V4L2_BUF_TYPE_VIDEO_CAPTURE
                  V4L2_BUF_MODE_FIFO 2 in
  let '(_, m2, h2) := video_streamon m1 hw_idle V4L2_BUF_TYPE_VIDEO_CAPTURE in
  let '(_, m3) :=
    video_reqbufs m2 V4L2_BUF_TYPE_STILL_CAPTURE V4L2_BUF_MODE_FIFO 1 in
  let '(_, m4, h4) := video_qbuf m3 h2 still_buffer in
  let '(_, m5, h5) := video_takepict_start m4 h4 1 in
  (m5, h5).

(** REQBUFS(video, fifo, 1); QBUF(video); STREAMON(video); STREAMOFF(video):
    the manager and the hardware after these calls on a freshly opened
    device. *)
Definition streamed_on_and_off : video_mng_t * hw_t :=
  let '(_, m1) :=
    video_reqbufs opened_once V4L2_BUF_TYPE_VIDEO_CAPTURE
                  V4L2_BUF_MODE_FIFO 1 in
  let '(_, m2, h2) := video_qbuf m1 hw_idle (video_buffer 0) in
  let '(_, m3, h3) := video_streamon m2 h2 V4L2_BUF_TYPE_VIDEO_CAPTURE in
  let '(_, m4, h4) := video_streamoff m3 h3 V4L2_BUF_TYPE_VIDEO_CAPTURE in
  (m4, h4).

(** REQBUFS(video, fifo, 1); QBUF(video); STREAMON(video); DQBUF(video): the
    first transfer is under way and the dequeue is suspended. *)
Definition video_dqbuf_suspended : dqbuf_result * video_mng_t * hw_t :=
  let '(_, m1) :=
    video_reqbufs opened_once V4L2_BUF_TYPE_VIDEO_CAPTURE
                  V4L2_BUF_MODE_FIFO 1 in
  let '(_, m2, h2) := video_qbuf m1 hw_idle (video_buffer 0) in
  let '(_, m3, h3) := video_streamon m2 h2 V4L2_BUF_TYPE_VIDEO_CAPTURE in
  video_dqbuf m3 h3 V4L2_BUF_TYPE_VIDEO_CAPTURE.

(** Scenario S1 of the specification, simple video: REQBUFS(video, fifo, 2);
    QBUF(A); QBUF(B); STREAMON; a completion of 1000 bytes; DQBUF; a
    completion of 1200 bytes; DQBUF; STREAMOFF.  The two dequeue results, the
    result of STREAMOFF and the manager at the end. *)
Definition scenario_simple_video
    : option (dqbuf_result * dqbuf_result * Z * video_mng_t) :=
  let '(_, m1) :=
    video_reqbufs opened_once V4L2_BUF_TYPE_VIDEO_CAPTURE
                  V4L2_BUF_MODE_FIFO 2 in
  let '(_, m2, h2) := video_qbuf m1 hw_idle (video_buffer 0) in
  let '(_, m3, h3) := video_qbuf m2 h2 (video_buffer 1) in
  let '(_, m4, h4) := video_streamon m3 h3 V4L2_BUF_TYPE_VIDEO_CAPTURE in
  match video_common_notify_dma_done 0 1000 m4 h4 with
  | None => None
  | Some (_, m5, h5) =>
      let '(first, m6, h6) := video_dqbuf m5 h5 V4L2_BUF_TYPE_VIDEO_CAPTURE in
      match video_common_notify_dma_done 0 1200 m6 h6 with
      | None => None
      | Some (_, m7, h7) =>
          let '(second, m8, h8) :=
            video_dqbuf m7 h7 V4L2_BUF_TYPE_VIDEO_CAPTURE in
          let '(ret, m9, _) :=
            video_streamoff m8 h8 V4L2_BUF_TYPE_VIDEO_CAPTURE in
          Some (first, second, ret, m9)
      end
  end.

(** Scenario S4 of the specification, still count: REQBUFS(still, fifo, 3);
    three QBUF; TAKEPICT_START(2); two completions. *)
Definition scenario_still_count : option video_mng_t :=
  let buffer i :=
    mk_v4l2_buffer i V4L2_BUF_TYPE_STILL_CAPTURE 0 0 (4096 * (i + 1)) 4096 in
  let '(_, m1) :=
    video_reqbufs opened_once V4L2_BUF_TYPE_STILL_CAPTURE
                  V4L2_BUF_MODE_FIFO 3 in
  let '(_, m2, h2) := video_qbuf m1 hw_idle (buffer 0) in
  let '(_, m3, h3) := video_qbuf m2 h2 (buffer 1) in
  let '(_, m4, h4) := video_qbuf m3 h3 (buffer 2) in
  let '(_, m5, h5) := video_takepict_start m4 h4 2 in
  match video_common_notify_dma_done 0 4096 m5 h5 with
  | None => None
  | Some (_, m6, h6) =>
      match video_common_notify_dma_done 0 4096 m6 h6 with
      | None => None
      | Some (_, m7, _) => Some m7
      end
  end.

(** * The rest of the driver *)

(** ** Sequences of calls

    What can happen to an open device: the two character driver methods, the
    ioctl commands on the streams that [video_ioctl] dispatches, and the
    DMA-done callback.  A dequeue that was suspended goes on with
    [CALL_DQBUF_WAKE]; nothing here says when, so the sequences cover every
    moment at which a post could have released it. *)

Inductive video_call : Type :=
| CALL_OPEN (sens_ret img_ret : Z)
| CALL_CLOSE
| CALL_REQBUFS (type : v4l2_buf_type) (req_mode : v4l2_buf_mode) (count : Z)
| CALL_QBUF (buf : v4l2_buffer)
| CALL_DQBUF (type : v4l2_buf_type)
| CALL_DQBUF_WAKE (type : v4l2_buf_type)
| CALL_CANCEL_DQBUF (type : v4l2_buf_type)
| CALL_STREAMON (type : v4l2_buf_type)
| CALL_STREAMOFF (type : v4l2_buf_type)
| CALL_TAKEPICT_START (capture_num : Z)
| CALL_TAKEPICT_STOP (halfpush : bool)
| CALL_NOTIFY_DMA_DONE (err_code datasize : Z).

(** The manager and the hardware after a call; [None] when the callback wrote
    through a NULL [vbuf_dma]. *)
Definition exec (c : video_call) (s : video_mng_t * hw_t)
    : option (video_mng_t * hw_t) :=
  let '(vmng, hw) := s in
  match c with
  | CALL_OPEN sens_ret img_ret =>
      let '(_, vmng', hw') := video_open vmng hw sens_ret img_ret in
      Some (vmng', hw')
  | CALL_CLOSE =>
      let '(_, vmng', hw') := video_close vmng hw in Some (vmng', hw')
  | CALL_REQBUFS type req_mode count =>
      Some (snd (video_reqbufs vmng type req_mode count), hw)
  | CALL_QBUF buf =>
      let '(_, vmng', hw') := video_qbuf vmng hw buf in Some (vmng', hw')
  | CALL_DQBUF type =>
      let '(_, vmng', hw') := video_dqbuf vmng hw type in Some (vmng', hw')
  | CALL_DQBUF_WAKE type =>
      match get_video_type_inf type with
      | None => Some (vmng, hw)
      | Some type_inf =>
          let '(_, vmng', hw') := video_dqbuf_wake vmng hw type type_inf in
          Some (vmng', hw')
      end
  | CALL_CANCEL_DQBUF type => Some (snd (video_cancel_dqbuf vmng type), hw)
  | CALL_STREAMON type =>
      let '(_, vmng', hw') := video_streamon vmng hw type in Some (vmng', hw')
  | CALL_STREAMOFF type =>
      let '(_, vmng', hw') := video_streamoff vmng hw type in Some (vmng', hw')
  | CALL_TAKEPICT_START capture_num =>
      let '(_, vmng', hw') := video_takepict_start vmng hw capture_num in
      Some (vmng', hw')
  | CALL_TAKEPICT_STOP halfpush =>
      let '(_, vmng', hw') := video_takepict_stop vmng hw halfpush in
      Some (vmng', hw')
  | CALL_NOTIFY_DMA_DONE err_code datasize =>
      match video_common_notify_dma_done err_code datasize vmng hw with
      | None => None
      | Some (_, vmng', hw') => Some (vmng', hw')
      end
  end.

Fixpoint exec_all (calls : list video_call) (s : video_mng_t * hw_t)
    : option (video_mng_t * hw_t) :=
  match calls with
  | [] => Some s
  | c :: calls' =>
      match exec c s with
      | None => None
      | Some s' => exec_all calls' s'
      end
  end.

(** A type field aliases a stream when its value is neither enumerator and
    [get_video_type_inf] resolves it all the same, through the low eight
    bits. *)
Definition aliases (type : v4l2_buf_type) : bool :=
  match type with
  | V4L2_BUF_TYPE_OTHER _ =>
      match get_video_type_inf type with
      | Some _ => true
      | None => false
      end
  | _ => false
  end.

(** Every call but a QBUF whose buffer's type aliases a stream. *)
Definition no_aliased_qbuf (c : video_call) : bool :=
  match c with
  | CALL_QBUF buf => negb (aliases (buf_type buf))
  | _ => true
  end.

(** A device nobody has opened: [video_register] zeroed the manager. *)
Definition zeroed_type_inf : video_type_inf_t :=
  mk_type_inf VIDEO_STATE_STREAMOFF 0
              (mk_wait_dma 0 None VIDEO_WAITEND_CAUSE_DMADONE)
              video_framebuff_init.

Definition registered : video_mng_t :=
  mk_mng 0 zeroed_type_inf zeroed_type_inf.

(** Who owns the DMA engine: a stream in DMA has its buffer type set in the
    sensor and a dma-current container, and the video stream is in DMA only
    while the still stream is off. *)
Definition dma_owner (s : video_mng_t * hw_t) : Prop :=
  let '(vmng, hw) := s in
  (state (video_inf vmng) = VIDEO_STATE_DMA ->
   state (still_inf vmng) = VIDEO_STATE_STREAMOFF
   /\ hw_buftype hw = V4L2_BUF_TYPE_VIDEO_CAPTURE
   /\ vbuf_dma (bufinf (video_inf vmng)) <> None)
  /\ (state (still_inf vmng) = VIDEO_STATE_DMA ->
      hw_buftype hw = V4L2_BUF_TYPE_STILL_CAPTURE
      /\ vbuf_dma (bufinf (still_inf vmng)) <> None).

(** S2 of the specification up to the pre-emption: a video stream with a
    transfer under way, then a still capture of one frame. *)
Definition preempting_calls : list video_call :=
  [ CALL_OPEN OK OK;
    CALL_REQBUFS V4L2_BUF_TYPE_VIDEO_CAPTURE V4L2_BUF_MODE_FIFO 2;
    CALL_QBUF (video_buffer 0);
    CALL_QBUF (video_buffer 1);
    CALL_STREAMON V4L2_BUF_TYPE_VIDEO_CAPTURE;
    CALL_REQBUFS V4L2_BUF_TYPE_STILL_CAPTURE V4L2_BUF_MODE_FIFO 1;
    CALL_QBUF still_buffer;
    CALL_TAKEPICT_START 1 ].

(** REQBUFS(video, fifo, 2); STREAMON(video) on a freshly opened device: the
    video stream waits in STREAMON for its first buffer. *)
Definition video_waiting_for_buffer : video_mng_t * hw_t :=
  let '(_, m1) :=
    video_reqbufs opened_once V4L2_BUF_TYPE_VIDEO_CAPTURE
                  V4L2_BUF_MODE_FIFO 2 in
  let '(_, m2, h2) := video_streamon m1 hw_idle V4L2_BUF_TYPE_VIDEO_CAPTURE in
  (m2, h2).

(** The pre-emption of [preempting_calls], then DQBUF(video): the still
    capture is on its only frame and a video dequeue is suspended. *)
Definition video_waits_for_still : video_mng_t * hw_t :=
  match exec_all (preempting_calls ++ [CALL_DQBUF V4L2_BUF_TYPE_VIDEO_CAPTURE])
                 (registered, hw_idle) with
  | Some s => s
  | None => (registered, hw_idle)
  end.


Definition still_frame (idx : Z) : v4l2_buffer :=
  mk_v4l2_buffer idx V4L2_BUF_TYPE_STILL_CAPTURE 0 0
                 (4096 + 65536 * idx) 65536.

(** REQBUFS(still, fifo, 3); three QBUF(still); TAKEPICT_START(3) on a
    freshly opened device: a still capture of three frames with its first
    transfer under way and two buffers queued behind it. *)
Definition still_burst : video_mng_t * hw_t :=
  match exec_all [ CALL_OPEN OK OK;
                   CALL_REQBUFS V4L2_BUF_TYPE_STILL_CAPTURE
                                V4L2_BUF_MODE_FIFO 3;
                   CALL_QBUF (still_frame 0);
                   CALL_QBUF (still_frame 1);
                   CALL_QBUF (still_frame 2);
                   CALL_TAKEPICT_START 3 ]
                 (registered, hw_idle) with
  | Some s => s
  | None => (registered, hw_idle)
  end.

(** The state [preempting_calls] lead to from a registered device: the still
    capture has taken the DMA engine from the video stream. *)
Definition preempted : video_mng_t * hw_t :=
  match exec_all preempting_calls (registered, hw_idle) with
  | Some s => s
  | None => (registered, hw_idle)
  end.

(** ** The file operations with their lock *)

(** What a file operation comes to: it returns, or it waits on a semaphore
    that is not free. *)
Inductive fop_result : Type :=
| FOP_RETURN (ret : Z)
| FOP_BLOCKED.

(** The manager together with the count of [lock_open_num], which
    [video_register] initialises to 1. *)
Record video_dev_t : Type := mk_dev {
  lock_open_num : Z;
  dev_mng : video_mng_t
}.

(** [nxsem_wait_uninterruptible] on a non-NULL semaphore: it takes the
    semaphore when the count is positive, and waits otherwise. *)
Definition video_lock (sem : Z) : option Z :=
  if 0 <? sem then Some (sem - 1) else None.

Definition video_unlock (sem : Z) : Z := sem + 1.

Definition video_open_fop (dev : video_dev_t) (hw : hw_t)
    (sens_ret img_ret : Z) : fop_result * video_dev_t * hw_t :=
  match video_lock (lock_open_num dev) with
  | None => (FOP_BLOCKED, dev, hw)
  | Some sem =>
      let '(ret, priv, hw') := video_open (dev_mng dev) hw sens_ret img_ret in
      (FOP_RETURN ret, mk_dev (video_unlock sem) priv, hw')
  end.

(** The early [return OK] of [video_close] on a count of zero leaves the
    function without [video_unlock]. *)
Definition video_close_fop (dev : video_dev_t) (hw : hw_t)
    : fop_result * video_dev_t * hw_t :=
  match video_lock (lock_open_num dev) with
  | None => (FOP_BLOCKED, dev, hw)
  | Some sem =>
      let '(ret, priv, hw') := video_close (dev_mng dev) hw in
      if open_num (dev_mng dev) =? 0
      then (FOP_RETURN ret, mk_dev sem priv, hw')
      else (FOP_RETURN ret, mk_dev (video_unlock sem) priv, hw')
  end.

(** A call of [open] or [close] on the device node. *)
Inductive fop_call : Type :=
| FOP_OPEN (sens_ret img_ret : Z)
| FOP_CLOSE.

Definition fop (c : fop_call) (s : video_dev_t * hw_t)
    : fop_result * video_dev_t * hw_t :=
  match c with
  | FOP_OPEN sens_ret img_ret => video_open_fop (fst s) (snd s) sens_ret img_ret
  | FOP_CLOSE => video_close_fop (fst s) (snd s)
  end.

(** The calls one after the other, with the result of each. *)
Fixpoint fops (calls : list fop_call) (s : video_dev_t * hw_t)
    : list fop_result * (video_dev_t * hw_t) :=
  match calls with
  | [] => ([], s)
  | c :: calls' =>
      let '(r, dev, hw) := fop c s in
      let '(rs, s') := fops calls' (dev, hw) in
      (r :: rs, s')
  end.

(** ** Controls

    [VIDIOC_G_EXT_CTRLS], [VIDIOC_S_EXT_CTRLS] and their scene variants walk
    over the array [controls] of the request and hand each entry to the
    sensor.  The sensor is a state of type [S] and its operations are
    functions on that state; an operation gets the control class and the
    entry and gives its result code, the entry as it leaves it and the new
    state.  A [NULL] operations vector, and a [NULL] entry of it, are [None];
    a call through either has no defined result. *)

Record v4l2_ext_control : Type := mk_ext_control {
  control_id : Z;
  control_value : Z
}.

Record v4l2_ext_controls : Type := mk_ext_controls {
  ctrls_class : Z;
  ctrls_count : Z;
  ctrls_error_idx : Z;
  ctrls_controls : list v4l2_ext_control
}.

Definition set_error_idx (ctrls : v4l2_ext_controls) (idx : Z)
    : v4l2_ext_controls :=
  mk_ext_controls (ctrls_class ctrls) (ctrls_count ctrls) idx
                  (ctrls_controls ctrls).

(** The store through [control] into the entry [cnt] of the array. *)
Definition set_control (ctrls : v4l2_ext_controls) (cnt : nat)
    (control : v4l2_ext_control) : v4l2_ext_controls :=
  mk_ext_controls (ctrls_class ctrls) (ctrls_count ctrls)
                  (ctrls_error_idx ctrls)
                  (firstn cnt (ctrls_controls ctrls)
                   ++ control :: skipn (S cnt) (ctrls_controls ctrls)).

Section Controls.

Variable S : Type.

Definition ctrl_op : Type :=
  Z -> v4l2_ext_control -> S -> Z * v4l2_ext_control * S.

(** The control part of [struct video_sensctrl_ops_s]; the scene operations
    take the scene mode first. *)
Record video_ctrl_ops_s : Type := mk_ctrl_ops {
  get_ctrlvalue : option ctrl_op;
  set_ctrlvalue : option ctrl_op;
  get_sceneparam : option (Z -> ctrl_op);
  set_sceneparam : option (Z -> ctrl_op)
}.

(** The [for] loop the four functions share, from the test of its condition
    with [n] entries to go: [cnt] is the index of the next entry and [ret]
    the result so far.  An entry beyond the array the caller passed is read
    out of bounds. *)
Fixpoint ext_ctrls_loop (op : option ctrl_op) (n : nat) (cnt : nat) (ret : Z)
    (ctrls : v4l2_ext_controls) (sens : S)
    : option (Z * v4l2_ext_controls * S) :=
  match n with
  | O => Some (ret, ctrls, sens)
  | Datatypes.S n' =>
      match op, nth_error (ctrls_controls ctrls) cnt with
      | Some f, Some control =>
          let '(ret', control', sens') := f (ctrls_class ctrls) control sens in
          let ctrls' := set_control ctrls cnt control' in
          if ret' <? 0
          then (* Set cnt in that error occured *)
            Some (ret', set_error_idx ctrls' (Z.of_nat cnt), sens')
          else ext_ctrls_loop op n' (Datatypes.S cnt) ret' ctrls' sens'
      | _, _ => None
      end
  end.

(** [g_video_sensctrl_ops->get_ctrlvalue]: the entry of the vector, with no
    test of the vector or of the entry. *)
Definition video_g_ext_ctrls (g_video_sensctrl_ops : option video_ctrl_ops_s)
    (ctrls : v4l2_ext_controls) (sens : S)
    : option (Z * v4l2_ext_controls * S) :=
  ext_ctrls_loop
    (match g_video_sensctrl_ops with
     | Some ops => get_ctrlvalue ops
     | None => None
     end)
    (Z.to_nat (ctrls_count ctrls)) 0 OK ctrls sens.

Definition video_s_ext_ctrls (g_video_sensctrl_ops : option video_ctrl_ops_s)
    (ctrls : v4l2_ext_controls) (sens : S)
    : option (Z * v4l2_ext_controls * S) :=
  ext_ctrls_loop
    (match g_video_sensctrl_ops with
     | Some ops => set_ctrlvalue ops
     | None => None
     end)
    (Z.to_nat (ctrls_count ctrls)) 0 OK ctrls sens.

(** The scene variants test the vector and its entry first. *)
Definition video_g_ext_ctrls_scene
    (g_video_sensctrl_ops : option video_ctrl_ops_s)
    (mode : Z) (ctrls : v4l2_ext_controls) (sens : S)
    : option (Z * v4l2_ext_controls * S) :=
  match g_video_sensctrl_ops with
  | None => Some (- EINVAL, ctrls, sens)
  | Some ops =>
      match get_sceneparam ops with
      | None => Some (- EINVAL, ctrls, sens)
      | Some f =>
          ext_ctrls_loop (Some (f mode)) (Z.to_nat (ctrls_count ctrls))
                         0 OK ctrls sens
      end
  end.

Definition video_s_ext_ctrls_scene
    (g_video_sensctrl_ops : option video_ctrl_ops_s)
    (mode : Z) (ctrls : v4l2_ext_controls) (sens : S)
    : option (Z * v4l2_ext_controls * S) :=
  match g_video_sensctrl_ops with
  | None => Some (- EINVAL, ctrls, sens)
  | Some ops =>
      match set_sceneparam ops with
      | None => Some (- EINVAL, ctrls, sens)
      | Some f =>
          ext_ctrls_loop (Some (f mode)) (Z.to_nat (ctrls_count ctrls))
                         0 OK ctrls sens
      end
  end.

(** The entries [cs] handed to [op] one after the other from the state
    [sens], none of them refused: [cs'] are the entries as [op] leaves them,
    [sens'] is the state after the last and [ret'] its result ([ret] when
    there is no entry). *)
Inductive applied (op : ctrl_op) (class : Z)
    : list v4l2_ext_control -> S -> Z ->
      list v4l2_ext_control -> S -> Z -> Prop :=
| applied_nil (sens : S) (ret : Z) : applied op class [] sens ret [] sens ret
| applied_cons (c c' : v4l2_ext_control) (cs cs' : list v4l2_ext_control)
    (sens sens1 sens' : S) (ret ret1 ret' : Z) :
    op class c sens = (ret1, c', sens1) ->
    0 <= ret1 ->
    applied op class cs sens1 ret1 cs' sens' ret' ->
    applied op class (c :: cs) sens ret (c' :: cs') sens' ret'.

End Controls.

Arguments get_ctrlvalue {S} _.
Arguments set_ctrlvalue {S} _.
Arguments get_sceneparam {S} _.
Arguments set_sceneparam {S} _.
Arguments mk_ctrl_ops {S} _ _ _ _.
Arguments ext_ctrls_loop {S} _ _ _ _ _ _.
Arguments video_g_ext_ctrls {S} _ _ _.
Arguments video_s_ext_ctrls {S} _ _ _.
Arguments video_g_ext_ctrls_scene {S} _ _ _ _.
Arguments video_s_ext_ctrls_scene {S} _ _ _ _.
Arguments applied {S} _ _ _ _ _ _ _ _.
Arguments applied_nil {S} _ _ _ _.
Arguments applied_cons {S} _ _ _ _ _ _ _ _ _ _ _ _ _ _ _.

(** A sensor for the concrete runs: its state is the list of the controls
    set so far, newest first.  It knows the ids 1 to 9, reads 100 + id for
    every control and refuses every other id with [- EINVAL]. *)
Definition toy_get : ctrl_op (list v4l2_ext_control) :=
  fun _ control sens =>
    if (1 <=? control_id control) && (control_id control <=? 9)
    then (OK, mk_ext_control (control_id control) (100 + control_id control),
          sens)
    else (- EINVAL, control, sens).

Definition toy_set : ctrl_op (list v4l2_ext_control) :=
  fun _ control sens =>
    if (1 <=? control_id control) && (control_id control <=? 9)
    then (OK, control, control :: sens)
    else (- EINVAL, control, sens).

Definition toy_ctrl_ops : video_ctrl_ops_s (list v4l2_ext_control) :=
  mk_ctrl_ops (Some toy_get) (Some toy_set) None None.

(** What the four functions have in common, said of one of them, [run], and
    the operation [op] it hands the entries to.  When [op] takes all the
    entries, [run] returns the result of the last and leaves [error_idx]
    alone.  When [op] takes the entries [pre] and then refuses [c], [run]
    returns that result with [error_idx] at the index of [c]: the entries
    before it stay as [op] left them and the sensor keeps what they did to
    it, the entries after it are not handed over. *)
Definition stops_at_first_error {S : Type} (op : ctrl_op S)
    (run : v4l2_ext_controls -> S -> option (Z * v4l2_ext_controls * S))
    : Prop :=
  forall (class idx : Z) (pre pre' : list v4l2_ext_control)
         (sens sens1 : S) (ret1 : Z),
    applied op class pre sens OK pre' sens1 ret1 ->
    run (mk_ext_controls class (Z.of_nat (length pre)) idx pre) sens
    = Some (ret1,
            mk_ext_controls class (Z.of_nat (length pre)) idx pre', sens1)
    /\ forall (c c' : v4l2_ext_control) (post : list v4l2_ext_control)
              (ret : Z) (sens2 : S),
         op class c sens1 = (ret, c', sens2) ->
         ret < 0 ->
         let count := Z.of_nat (length (pre ++ c :: post)) in
         run (mk_ext_controls class count idx (pre ++ c :: post)) sens
         = Some (ret,
                 mk_ext_controls class count (Z.of_nat (length pre))
                                 (pre' ++ c' :: post),
                 sens2).

(** ** The lists of supported formats

    [struct v4l2_fmtdesc] with its description held as the characters before
    the terminator: [description] is an array of [V4L2_FMT_DSC_MAX] bytes in
    the sensor's answer and in the list, so that the [strncpy] of that many
    bytes between the two keeps these characters. *)

Record v4l2_fmtdesc : Type := mk_fmtdesc {
  fmt_index : Z;
  fmt_type : v4l2_buf_type;
  fmt_flags : Z;
  fmt_pixelformat : Z;
  fmt_subimg_pixelformat : Z;
  fmt_description : list Z
}.

(** [num] is a [uint16_t]; [fmt] is [None] for a NULL pointer and the array
    it points to otherwise. *)
Record video_fmtlist_t : Type := mk_fmtlist {
  fmtlist_num : Z;
  fmtlist_fmt : option (list v4l2_fmtdesc)
}.

(** The list as the [memset] of [video_register] leaves it. *)
Definition zeroed_fmtlist : video_fmtlist_t := mk_fmtlist 0 None.

(** [realloc] of the array to [n] descriptors: what was there stays, what is
    new holds [junk].  [realloc] of NULL is [malloc]. *)
Definition realloc_fmt (junk : v4l2_fmtdesc) (fmt : option (list v4l2_fmtdesc))
    (n : nat) : list v4l2_fmtdesc :=
  let old := match fmt with Some a => a | None => [] end in
  firstn n old ++ repeat junk (n - length old).

(** The do-while loop of [create_supported_fmtlist] from the top of its body.
    [heap n] says whether the allocator has room for [n] descriptors.
    [get_range_of_fmt] gets the descriptor the loop keeps and gives its
    result and the descriptor as it leaves it.  The loop ends when the sensor
    ends it; [fuel] bounds the number of times the body runs. *)
Fixpoint create_supported_fmtlist_loop
    (heap : nat -> bool) (junk : v4l2_fmtdesc)
    (get_range_of_fmt : v4l2_fmtdesc -> Z * v4l2_fmtdesc)
    (chk_pixelformat : Z -> Z -> Z)
    (fuel : nat) (type : v4l2_buf_type)
    (capa_sensctrl : v4l2_fmtdesc) (ret : Z) (list : video_fmtlist_t)
    : option (Z * video_fmtlist_t) :=
  match fuel with
  | O => None
  | S fuel' =>
      let '(r, capa) := get_range_of_fmt capa_sensctrl in
      if negb (r =? OK) then Some (ret, list)
      else
        let next :=
          mk_fmtdesc (fmt_index capa + 1) (fmt_type capa) (fmt_flags capa)
                     (fmt_pixelformat capa) (fmt_subimg_pixelformat capa)
                     (fmt_description capa) in
        if chk_pixelformat (fmt_pixelformat capa)
                           (fmt_subimg_pixelformat capa) =? OK
        then
          let n := Z.to_nat (fmtlist_num list) in
          if heap (S n)
          then
            let array :=
              if fmtlist_num list =? 0 then [junk]
              else realloc_fmt junk (fmtlist_fmt list) (S n) in
            let supported_fmt :=
              mk_fmtdesc (fmtlist_num list) type (fmt_flags capa)
                         (fmt_pixelformat capa) (fmt_subimg_pixelformat capa)
                         (fmt_description capa) in
            create_supported_fmtlist_loop heap junk get_range_of_fmt
              chk_pixelformat fuel' type next OK
              (mk_fmtlist ((fmtlist_num list + 1) mod 65536)
                          (Some (firstn n array ++ supported_fmt
                                 :: skipn (S n) array)))
          else Some (- ENOMEM, mk_fmtlist (fmtlist_num list) None)
        else
          create_supported_fmtlist_loop heap junk get_range_of_fmt
            chk_pixelformat fuel' type next ret list
  end.

(** [get_range_of_fmt] and [chk_pixelformat] are [None] when the operations
    vector they belong to, or their entry in it, is NULL. *)
Definition create_supported_fmtlist
    (heap : nat -> bool) (junk : v4l2_fmtdesc)
    (get_range_of_fmt : option (v4l2_fmtdesc -> Z * v4l2_fmtdesc))
    (chk_pixelformat : option (Z -> Z -> Z))
    (fuel : nat) (type : v4l2_buf_type) (list : video_fmtlist_t)
    : option (Z * video_fmtlist_t) :=
  match get_range_of_fmt, chk_pixelformat with
  | Some get, Some chk =>
      create_supported_fmtlist_loop heap junk get chk fuel type
        (mk_fmtdesc 0 type 0 0 0 []) (- EINVAL) list
  | _, _ => Some (- EINVAL, list)
  end.

Definition destroy_supported_fmtlist (list : video_fmtlist_t)
    : video_fmtlist_t :=
  mk_fmtlist (fmtlist_num list) None.

(** [video_enum_fmt] on the two lists of the manager.  Its switch is on
    [fmt->type] itself.  The copy out of a list whose array is NULL, or from
    beyond its array, has no defined result. *)
Definition video_enum_fmt (video_fmtlist still_fmtlist : video_fmtlist_t)
    (fmt : v4l2_fmtdesc) : option (Z * v4l2_fmtdesc) :=
  match match fmt_type fmt with
        | V4L2_BUF_TYPE_VIDEO_CAPTURE => Some video_fmtlist
        | V4L2_BUF_TYPE_STILL_CAPTURE => Some still_fmtlist
        | V4L2_BUF_TYPE_OTHER _ => None
        end with
  | None => Some (- EINVAL, fmt)
  | Some list =>
      if fmtlist_num list <=? fmt_index fmt then Some (- EINVAL, fmt)
      else
        match fmtlist_fmt list with
        | None => None
        | Some array =>
            match nth_error array (Z.to_nat (fmt_index fmt)) with
            | None => None
            | Some supported_fmt => Some (OK, supported_fmt)
            end
        end
  end.

(** A sensor that enumerates the formats [fmts]: asked for the index [i], it
    fills in the [i]-th and answers OK, and it answers [- EINVAL] from the
    end of the list on. *)
Definition sensor_of_fmts (fmts : list v4l2_fmtdesc)
    : v4l2_fmtdesc -> Z * v4l2_fmtdesc :=
  fun capa =>
    if fmt_index capa <? 0 then (- EINVAL, capa)
    else
      match nth_error fmts (Z.to_nat (fmt_index capa)) with
      | None => (- EINVAL, capa)
      | Some f =>
          (OK, mk_fmtdesc (fmt_index capa) (fmt_type capa) (fmt_flags f)
                          (fmt_pixelformat f) (fmt_subimg_pixelformat f)
                          (fmt_description f))
      end.

(** The formats [fmts] numbered from [k] on, with the type [type]. *)
Fixpoint renumber (type : v4l2_buf_type) (k : Z) (fmts : list v4l2_fmtdesc)
    : list v4l2_fmtdesc :=
  match fmts with
  | [] => []
  | f :: fmts' =>
      mk_fmtdesc k type (fmt_flags f) (fmt_pixelformat f)
                 (fmt_subimg_pixelformat f) (fmt_description f)
      :: renumber type (k + 1) fmts'
  end.

(** The formats of [fmts] the pipeline takes. *)
Definition supported (chk_pixelformat : Z -> Z -> Z)
    (fmts : list v4l2_fmtdesc) : list v4l2_fmtdesc :=
  filter (fun f => chk_pixelformat (fmt_pixelformat f)
                                   (fmt_subimg_pixelformat f) =? OK) fmts.

(** The result of [create_supported_fmtlist] and the list it leaves when the
    formats [acc] are the ones taken, numbered. *)
Definition fmtlist_of (acc : list v4l2_fmtdesc) : Z * video_fmtlist_t :=
  match acc with
  | [] => (- EINVAL, zeroed_fmtlist)
  | _ :: _ => (OK, mk_fmtlist (Z.of_nat (length acc)) (Some acc))
  end.

(** Formats for the concrete runs: the sensor lists four, the pipeline takes
    the even pixel formats. *)
Definition toy_fmts : list v4l2_fmtdesc :=
  [ mk_fmtdesc 0 V4L2_BUF_TYPE_VIDEO_CAPTURE 0 11 0 [];
    mk_fmtdesc 1 V4L2_BUF_TYPE_VIDEO_CAPTURE 0 20 0 [];
    mk_fmtdesc 2 V4L2_BUF_TYPE_VIDEO_CAPTURE 1 31 0 [];
    mk_fmtdesc 3 V4L2_BUF_TYPE_VIDEO_CAPTURE 1 40 0 [] ].

Definition toy_chk_pixelformat (pixelformat subimg_pixelformat : Z) : Z :=
  if Z.even pixelformat then OK else - EINVAL.

(** ** Registration

    A [const char *] argument is the bytes of the object it points into,
    from the pointer on; a read beyond them has no defined result. *)

Definition MAX_VIDEO_FILE_PATH : nat := 32.

(** The character ['/']. *)
Definition slash : Z := 47.

(** [strnlen]: the number of bytes before the first NUL among the first
    [maxlen]. *)
Fixpoint strnlen (s : list Z) (maxlen : nat) : option nat :=
  match maxlen with
  | O => Some O
  | S maxlen' =>
      match s with
      | [] => None
      | c :: s' =>
          if c =? 0 then Some O else option_map S (strnlen s' maxlen')
      end
  end.

(** What [video_register] returns a pointer to: the path it saved, the
    manager with its lock, and the two lists of formats. *)
Record video_handle_t : Type := mk_handle {
  handle_devpath : list Z;
  handle_dev : video_dev_t;
  handle_video_fmtlist : video_fmtlist_t;
  handle_still_fmtlist : video_fmtlist_t
}.

Section Registration.

(** Whether [kmm_malloc] has room for the manager and for the path, and what
    [register_driver] answers for a path. *)
Variables (kmm_malloc_priv kmm_malloc_devpath : bool).
Variable register_driver : list Z -> Z.

(** The result is [None] for a read outside the argument, [Some None] for
    the NULL pointer and the registered manager otherwise.  Every path that
    returns NULL has freed what it allocated. *)
Definition video_register (devpath : option (list Z))
    : option (option video_handle_t) :=
  match devpath with
  | None => Some None
  | Some mem =>
      match strnlen mem (MAX_VIDEO_FILE_PATH - 1) with
      | None => None
      | Some allocsize =>
          let checked : option bool :=
            if (allocsize <? 2)%nat then Some false
            else
              match nth_error mem 0 with
              | None => None
              | Some c =>
                  if negb (c =? slash) then Some false
                  else if (allocsize =? MAX_VIDEO_FILE_PATH - 1)%nat
                  then
                    match nth_error mem MAX_VIDEO_FILE_PATH with
                    | None => None
                    | Some c' => Some (c' =? 0)
                    end
                  else Some true
              end in
          match checked with
          | None => None
          | Some false => Some None
          | Some true =>
              if negb kmm_malloc_priv then Some None
              else if negb kmm_malloc_devpath then Some None
              else
                let path := firstn allocsize mem in
                if register_driver path <? 0 then Some None
                else
                  Some (Some (mk_handle path (mk_dev 1 registered)
                                        zeroed_fmtlist zeroed_fmtlist))
          end
      end
  end.

End Registration.

(** ** Initialisation

    What [video_initialize] finds around it: the allocators, the driver
    registry, the two operation vectors and the bound on the enumeration. *)

Record init_env : Type := mk_init_env {
  env_kmm_malloc_priv : bool;
  env_kmm_malloc_devpath : bool;
  env_register_driver : list Z -> Z;
  env_heap : nat -> bool;
  env_junk : v4l2_fmtdesc;
  env_get_range_of_fmt : option (v4l2_fmtdesc -> Z * v4l2_fmtdesc);
  env_chk_pixelformat : option (Z -> Z -> Z);
  env_fuel : nat
}.

(** The pointer [video_handler]: NULL, the registered manager, or the
    address of a manager that has been freed. *)
Inductive handler_t : Type :=
| HANDLER_NULL
| HANDLER_LIVE (h : video_handle_t)
| HANDLER_FREED.

(** [is_initialized] and [video_handler]. *)
Record video_driver_t : Type := mk_driver {
  is_initialized : bool;
  video_handler : handler_t
}.

Definition driver_at_boot : video_driver_t := mk_driver false HANDLER_NULL.

(** [create_supported_fmtlist] on [&handler->video_fmtlist].  With a NULL
    handler that address is not NULL, so the guard of the function lets it
    pass, and it is not the address of a list either: the function reads
    through it when the pipeline takes the first format.  Up to there the
    loop does not look at the list, and a run that takes no format returns
    the [- EINVAL] it started with. *)
Definition create_supported_fmtlist_at (env : init_env)
    (type : v4l2_buf_type) (list : option video_fmtlist_t)
    : option (Z * option video_fmtlist_t) :=
  let create :=
    create_supported_fmtlist (env_heap env) (env_junk env)
      (env_get_range_of_fmt env) (env_chk_pixelformat env)
      (env_fuel env) type in
  match list with
  | Some l =>
      match create l with
      | Some (ret, l') => Some (ret, Some l')
      | None => None
      end
  | None =>
      match create zeroed_fmtlist with
      | Some (ret, _) => if ret =? - EINVAL then Some (ret, None) else None
      | None => None
      end
  end.

(** The results of [video_register] and of the two calls of
    [create_supported_fmtlist] are not looked at. *)
Definition video_initialize (env : init_env) (devpath : option (list Z))
    (d : video_driver_t) : option (Z * video_driver_t) :=
  if is_initialized d then Some (OK, d)
  else
    match video_register (env_kmm_malloc_priv env)
                         (env_kmm_malloc_devpath env)
                         (env_register_driver env) devpath with
    | None => None
    | Some handler =>
        match create_supported_fmtlist_at env V4L2_BUF_TYPE_VIDEO_CAPTURE
                (option_map handle_video_fmtlist handler) with
        | None => None
        | Some (_, video_fmtlist) =>
            match create_supported_fmtlist_at env V4L2_BUF_TYPE_STILL_CAPTURE
                    (option_map handle_still_fmtlist handler) with
            | None => None
            | Some (_, still_fmtlist) =>
                Some (OK,
                      mk_driver true
                        match handler, video_fmtlist, still_fmtlist with
                        | Some h, Some v, Some s =>
                            HANDLER_LIVE
                              (mk_handle (handle_devpath h) (handle_dev h) v s)
                        | _, _, _ => HANDLER_NULL
                        end)
            end
        end
    end.

(** [video_uninitialize] leaves at once when the driver {e is} initialised.
    Past that test it reads the two lists through [video_handler], then
    unregisters and frees the manager; the pointer keeps its value. *)
Definition video_uninitialize (d : video_driver_t)
    : option (Z * video_driver_t) :=
  if is_initialized d then Some (OK, d)
  else
    match video_handler d with
    | HANDLER_LIVE _ => Some (OK, mk_driver false HANDLER_FREED)
    | HANDLER_NULL | HANDLER_FREED => None
    end.

Inductive driver_call : Type :=
| DRV_INITIALIZE (env : init_env) (devpath : option (list Z))
| DRV_UNINITIALIZE.

(** The calls one after the other, as long as each has a defined result. *)
Fixpoint driver_calls (calls : list driver_call) (d : video_driver_t)
    : option video_driver_t :=
  match calls with
  | [] => Some d
  | c :: calls' =>
      match match c with
            | DRV_INITIALIZE env devpath => video_initialize env devpath d
            | DRV_UNINITIALIZE => video_uninitialize d
            end with
      | None => None
      | Some (_, d') => driver_calls calls' d'
      end
  end.

(** A board with room in its allocators and no operation vectors
    registered. *)
Definition bare_env : init_env :=
  mk_init_env true true (fun _ => OK) (fun _ => true)
              (mk_fmtdesc 0 (V4L2_BUF_TYPE_OTHER 0) 0 0 0 []) None None 0.

(** The path "/v". *)
Definition dev_v : list Z := [slash; 118; 0].
(** * Properties *)

(** ** The Arbiter *)

Lemma video_state_eqb_eq (a b : video_state_e) :
  video_state_eqb a b = true <-> a = b.
Proof. destruct a, b; simpl; split; congruence. Qed.

Lemma video_state_eqb_neq (a b : video_state_e) :
  video_state_eqb a b = false <-> a <> b.
Proof. destruct a, b; simpl; split; congruence. Qed.

(** C1.  [estimate_next_video_state] looks at nothing but the state of the
    video stream, the state of the still stream and the cause, and for every
    combination of the three it gives the entry of the Arbiter table:
    VIDEO_STOP gives STREAMOFF; VIDEO_START gives STREAMON when the still
    stream is in STREAMON or DMA, else DMA; STILL_START turns DMA into
    STREAMON; STILL_STOP turns STREAMON into DMA; VIDEO_DQBUF turns STREAMON
    into DMA when the still stream is in neither STREAMON nor DMA; every
    other combination leaves the video state as it is. *)
Theorem estimate_next_video_state_table :
  forall (vmng : video_mng_t) (cause : video_state_transition_cause),
    estimate_next_video_state vmng cause
    = next_video_state (state (video_inf vmng)) (state (still_inf vmng)) cause.
Proof.
  intros vmng cause.
  unfold estimate_next_video_state, is_taking_still_picture, next_video_state.
  destruct cause, (state (video_inf vmng)), (state (still_inf vmng));
    reflexivity.
Qed.

(** ** STREAMON / STREAMOFF on the still stream *)

(** C10.  [video_streamon] and [video_streamoff] called with the still-capture
    buffer type return OK and leave the manager (both streams: state, queue,
    remaining captures) and the hardware (no DMA started or cancelled) as
    they were. *)
Theorem streamon_streamoff_still_is_noop :
  forall (vmng : video_mng_t) (hw : hw_t),
    video_streamon vmng hw V4L2_BUF_TYPE_STILL_CAPTURE = (OK, vmng, hw)
    /\ video_streamoff vmng hw V4L2_BUF_TYPE_STILL_CAPTURE = (OK, vmng, hw).
Proof.
  intros vmng hw; split; reflexivity.
Qed.

(** ** Close *)

Lemma video_open_first :
  video_open (mk_mng 0 initialize_streamresources initialize_streamresources)
             hw_idle OK OK
  = (OK, opened_once, mk_hw V4L2_BUF_TYPE_VIDEO_CAPTURE [IMG_OPEN; SENS_OPEN]).
Proof. reflexivity. Qed.

(** Whenever the open count is positive, [video_close] decrements it and
    returns [ERROR]. *)
Lemma video_close_returns_error (priv : video_mng_t) (hw : hw_t) :
  0 < open_num priv ->
  fst (fst (video_close priv hw)) = ERROR
  /\ open_num (snd (fst (video_close priv hw))) = open_num priv - 1.
Proof.
  intros Hpos. unfold video_close.
  destruct (Z.eqb_spec (open_num priv) 0) as [E | _]; [lia |].
  destruct (open_num (set_open_num priv (open_num priv - 1)) =? 0) eqn:Hlast.
  - unfold cleanup_resources; simpl in *.
    apply Z.eqb_eq in Hlast. split; [reflexivity | lia].
  - split; reflexivity.
Qed.

(** C9.  A clean close - the open count is 1, it goes down to 0, the
    last-close cleanup runs and both devices are closed - comes back with
    [ERROR], not with [OK]. *)
Theorem video_close_clean_close_is_error :
  video_close opened_once hw_idle
  = (ERROR,
     mk_mng 0 cleanup_streamresources cleanup_streamresources,
     mk_hw V4L2_BUF_TYPE_VIDEO_CAPTURE [IMG_CLOSE; SENS_CLOSE])
  /\ ERROR <> OK.
Proof.
  split; [reflexivity | discriminate].
Qed.

(** ** Frame sizes *)



(** The loop of [gcd] is Euclid's algorithm. *)
Lemma gcd_is_Zgcd (a b : Z) : 0 < b -> gcd a b = Z.gcd a b.
Proof.
  funelim (gcd a b); intros Hpos.
  - lia.
  - (* a mod b = 0 *)
    symmetry. rewrite Z.gcd_comm. apply Z.divide_gcd_iff; [lia |].
    apply Z.mod_divide; [lia | assumption].
  - pose proof (Z.mod_pos_bound a b ltac:(lia)) as Hbound.
    rewrite H by lia.
    rewrite (Z.gcd_comm b (a mod b)), Z.gcd_mod by lia.
    apply Z.gcd_comm.
Qed.

Lemma gcd_pos (a b : Z) : 0 < b -> 0 < gcd a b.
Proof.
  intros Hb. rewrite gcd_is_Zgcd by assumption.
  pose proof (Z.gcd_nonneg a b).
  destruct (Z.eq_dec (Z.gcd a b) 0) as [E | NE]; [| lia].
  apply Z.gcd_eq_0_r in E. lia.
Qed.

(** [lcm] is the least common multiple, cut to 16 bits. *)
Lemma lcm_is_Zlcm_u16 (a b : Z) :
  0 <= a -> 0 <= b -> lcm a b = Z.lcm a b mod 65536.
Proof.
  intros Ha Hb. unfold lcm.
  destruct (Z.eqb_spec b 0) as [-> | Hnz].
  - now rewrite Z.lcm_0_r.
  - rewrite gcd_is_Zgcd by lia.
    f_equal. unfold Z.lcm.
    destruct (Z.gcd_divide_l a b) as [x Hx].
    destruct (Z.gcd_divide_r a b) as [y Hy].
    pose proof (Z.gcd_nonneg a b) as Hg.
    assert (Hgpos : 0 < Z.gcd a b).
    { destruct (Z.eq_dec (Z.gcd a b) 0) as [E | NE]; [| lia].
      apply Z.gcd_eq_0_r in E. lia. }
    set (g := Z.gcd a b) in *.
    rewrite Hx at 1. rewrite Z.div_mul by lia.
    rewrite Hy at 2. rewrite Z.div_mul by lia.
    assert (0 <= x) by nia. assert (0 <= y) by nia.
    rewrite Z.abs_eq by nia.
    rewrite Hx at 1. rewrite Hy at 1. ring.
Qed.

Lemma lcm_exact_when_it_fits (a b : Z) :
  0 <= a -> 0 <= b -> Z.lcm a b < 65536 -> lcm a b = Z.lcm a b.
Proof.
  intros Ha Hb Hfit. rewrite lcm_is_Zlcm_u16 by assumption.
  apply Z.mod_small. pose proof (Z.lcm_nonneg a b). lia.
Qed.

(** Steps 256 and 257 have the least common multiple 65792, which 16 bits
    do not hold: [lcm] gives 256. *)
Example lcm_256_257 : lcm 256 257 = 256 /\ Z.lcm 256 257 = 65792.
Proof. split; reflexivity. Qed.




(** The loop passes over discrete answers as long as the requested index is
    not among the sizes the pipeline takes. *)
Lemma enum_framesizes_loop_skips
    (g_video_imgdata_ops : video_imgdata_ops_s)
    (capa_imgdata frmsize : v4l2_frmsizeenum)
    (passed rest : list v4l2_frmsizeenum) :
  forall supported_num : Z,
    forallb (fun capa => is_discrete (frm_type capa)) passed = true ->
    frm_index frmsize < supported_num
    \/ supported_num + accepted_count g_video_imgdata_ops passed
       <= frm_index frmsize ->
    enum_framesizes_loop g_video_imgdata_ops capa_imgdata (passed ++ rest)
                         supported_num frmsize
    = enum_framesizes_loop g_video_imgdata_ops capa_imgdata rest
        (supported_num + accepted_count g_video_imgdata_ops passed)
        frmsize.
Proof.
  unfold accepted_count.
  induction passed as [| capa passed IH]; intros n Hall Hmiss.
  - simpl. now rewrite Z.add_0_r.
  - simpl in Hall. apply andb_true_iff in Hall as [Hd Hall].
    cbn [app enum_framesizes_loop filter]. rewrite Hd.
    fold (accepts g_video_imgdata_ops capa).
    cbn [filter] in Hmiss.
    destruct (accepts g_video_imgdata_ops capa).
    + cbn [length] in *.
      destruct (Z.eqb_spec (frm_index frmsize) n) as [E | NE]; [lia |].
      rewrite IH by (assumption || lia). f_equal. lia.
    + apply IH; assumption.
Qed.

(** A request whose index is beyond the discrete sizes that both sides take
    comes back untouched. *)
Lemma enum_framesizes_loop_misses
    (g_video_imgdata_ops : video_imgdata_ops_s)
    (capa_imgdata frmsize : v4l2_frmsizeenum)
    (answers : list v4l2_frmsizeenum) :
  forallb (fun capa => is_discrete (frm_type capa)) answers = true ->
  accepted_count g_video_imgdata_ops answers <= frm_index frmsize ->
  enum_framesizes_loop g_video_imgdata_ops capa_imgdata answers 0 frmsize
  = frmsize.
Proof.
  intros Hall Hmiss.
  rewrite <- (app_nil_r answers).
  rewrite enum_framesizes_loop_skips by (assumption || (right; lia)).
  reflexivity.
Qed.

(** For every request with an index beyond the sizes both sides take,
    [video_enum_framesizes] returns OK and fills nothing in. *)
Lemma video_enum_framesizes_index_beyond
    (g_video_sensctrl_ops : video_sensctrl_ops_s)
    (g_video_imgdata_ops : video_imgdata_ops_s)
    (frmsize : v4l2_frmsizeenum) :
  let answers :=
    sens_get_range_of_framesize g_video_sensctrl_ops
      (frm_buf_type frmsize) (pixel_format frmsize)
      (subimg_pixel_format frmsize) in
  fst (img_get_range_of_framesize g_video_imgdata_ops
         (frm_buf_type frmsize) (pixel_format frmsize)
         (subimg_pixel_format frmsize)) = OK ->
  forallb (fun capa => is_discrete (frm_type capa)) answers = true ->
  accepted_count g_video_imgdata_ops answers <= frm_index frmsize ->
  video_enum_framesizes g_video_sensctrl_ops g_video_imgdata_ops frmsize
  = (OK, frmsize).
Proof.
  intros answers Himg Hall Hmiss. unfold video_enum_framesizes.
  destruct (img_get_range_of_framesize _ _ _ _) as [ret capa].
  simpl in Himg. subst ret. simpl.
  fold answers. now rewrite enum_framesizes_loop_misses.
Qed.



Example video_enum_framesizes_range :
  stepwise (snd (video_enum_framesizes sensor_range pipeline_640
                                       (frmsize_request 0 0)))
  = mk_stepwise 160 640 8 120 480 6.
Proof. reflexivity. Qed.

(** Once the pipeline has given its capability, [video_enum_framesizes]
    returns OK, whatever the loop found. *)
Lemma video_enum_framesizes_returns_ok
    (g_video_sensctrl_ops : video_sensctrl_ops_s)
    (g_video_imgdata_ops : video_imgdata_ops_s)
    (frmsize : v4l2_frmsizeenum) :
  fst (img_get_range_of_framesize g_video_imgdata_ops
         (frm_buf_type frmsize) (pixel_format frmsize)
         (subimg_pixel_format frmsize)) = OK ->
  fst (video_enum_framesizes g_video_sensctrl_ops g_video_imgdata_ops frmsize)
  = OK.
Proof.
  unfold video_enum_framesizes.
  destruct (img_get_range_of_framesize _ _ _ _) as [ret capa]; simpl.
  intros ->. reflexivity.
Qed.

(** C6.  Two requests with an empty intersection: a sensor that has no frame
    size for the format, and the index 1 when the pipeline takes only one of
    the sensor's two discrete sizes.  [video_enum_framesizes] returns OK for
    both and hands the request back as it came, where an invalid-argument
    error is due. *)
Theorem video_enum_framesizes_empty_intersection_is_ok :
  video_enum_framesizes sensor_nothing pipeline_640 (frmsize_request 0 0)
  = (OK, frmsize_request 0 0)
  /\ video_enum_framesizes sensor_two_sizes pipeline_640 (frmsize_request 1 0)
     = (OK, frmsize_request 1 0)
  /\ OK <> - EINVAL.
Proof.
  repeat split; try reflexivity; discriminate.
Qed.

Example video_enum_framesizes_index_0 :
  video_enum_framesizes sensor_two_sizes pipeline_640 (frmsize_request 0 0)
  = (OK,
     mk_frmsizeenum 0 V4L2_BUF_TYPE_VIDEO_CAPTURE 0 0
                    V4L2_FRMSIZE_TYPE_DISCRETE (mk_discrete 320 240) no_range
                    V4L2_FRMSIZE_TYPE_DISCRETE no_size no_range).
Proof. reflexivity. Qed.

(** ** Frame lemmas for the manager *)

(** A type that resolves to the video stream is not the still capture type,
    and one that resolves to the still stream is not the video capture
    type. *)
Lemma resolves_to_video_not_still (type : v4l2_buf_type) :
  get_video_type_inf type = Some PTR_VIDEO_INF ->
  is_still_capture type = false.
Proof. destruct type; [reflexivity | discriminate | reflexivity]. Qed.

Lemma resolves_to_still_not_video (type : v4l2_buf_type) :
  get_video_type_inf type = Some PTR_STILL_INF ->
  is_video_capture type = false.
Proof. destruct type; [discriminate | reflexivity | reflexivity]. Qed.

Lemma deref_assign_same (vmng : video_mng_t) (p : type_inf_ptr)
    (t : video_type_inf_t) : deref (assign vmng p t) p = t.
Proof. now destruct p. Qed.

Lemma change_video_state_still_inf (vmng : video_mng_t) (hw : hw_t)
    (next_state : video_state_e) :
  still_inf (fst (change_video_state vmng hw next_state)) = still_inf vmng.
Proof.
  unfold change_video_state.
  destruct (negb _ && _).
  - destruct (video_framebuff_get_dma_container _) as [[c |] fbuf]; reflexivity.
  - reflexivity.
Qed.

Lemma get_dma_container_queued (fbuf : video_framebuff_t) :
  match vbuf_queued fbuf with
  | [] => video_framebuff_get_dma_container fbuf = (None, fbuf)
  | b :: q =>
      exists fbuf', video_framebuff_get_dma_container fbuf = (Some b, fbuf')
                    /\ vbuf_dma fbuf' = Some b /\ vbuf_queued fbuf' = q
  end.
Proof.
  unfold video_framebuff_get_dma_container.
  destruct (vbuf_queued fbuf) as [| b q]; [reflexivity |].
  eexists; repeat split.
Qed.

(** ** TAKEPICT_START *)

(** C3.  While the still stream is not in STREAMOFF, [video_takepict_start]
    returns NOT_PERMITTED and changes nothing.  In STREAMOFF it returns OK,
    sets the still stream's remaining captures to [n] when [n] is positive
    and to the infinite sentinel otherwise, and leaves the still stream in
    DMA - started on the head of its queue - when a slot was queued, in
    STREAMON when none was. *)
Theorem video_takepict_start_spec :
  forall (vmng : video_mng_t) (hw : hw_t) (n : Z),
    let '(ret, vmng', hw') := video_takepict_start vmng hw n in
    match state (still_inf vmng) with
    | VIDEO_STATE_STREAMOFF =>
        ret = OK
        /\ remaining_capnum (still_inf vmng')
           = (if 0 <? n then n else VIDEO_REMAINING_CAPNUM_INFINITY)
        /\ match vbuf_queued (bufinf (still_inf vmng)) with
           | [] => state (still_inf vmng') = VIDEO_STATE_STREAMON
           | b :: _ =>
               state (still_inf vmng') = VIDEO_STATE_DMA
               /\ vbuf_dma (bufinf (still_inf vmng')) = Some b
               /\ hd_error (hw_calls hw')
                  = Some (START_DMA V4L2_BUF_TYPE_STILL_CAPTURE
                                    (buf_userptr b) (buf_length b))
           end
    | _ => ret = - EPERM /\ vmng' = vmng /\ hw' = hw
    end.
Proof.
  intros vmng hw n. unfold video_takepict_start.
  destruct (state (still_inf vmng)) eqn:Hst; simpl;
    try (repeat split; reflexivity).
  set (vmng1 := set_still_inf vmng _).
  pose proof (change_video_state_still_inf vmng1 hw
                (estimate_next_video_state vmng1 CAUSE_STILL_START)) as Hkeep.
  destruct (change_video_state vmng1 hw _) as [vmng2 hw2]; simpl in Hkeep.
  rewrite Hkeep. subst vmng1; simpl.
  pose proof (get_dma_container_queued (bufinf (still_inf vmng))) as Hq.
  destruct (vbuf_queued (bufinf (still_inf vmng))) as [| b q].
  - rewrite Hq; simpl. repeat split; reflexivity.
  - destruct Hq as (fbuf' & -> & Hdma & _); simpl.
    repeat split; try reflexivity; assumption.
Qed.

(** ** TAKEPICT_STOP *)

(** What [change_video_state] does with the Arbiter's answer to STILL_STOP:
    a video stream in STREAMON goes to DMA on the head of its queue, and
    stays in STREAMON when nothing is queued; any other state stays. *)
Lemma change_video_state_still_stop (vmng : video_mng_t) (hw : hw_t) :
  let '(vmng', hw') :=
    change_video_state vmng hw
      (estimate_next_video_state vmng CAUSE_STILL_STOP) in
  still_inf vmng' = still_inf vmng
  /\ state (video_inf vmng')
     = match state (video_inf vmng), vbuf_queued (bufinf (video_inf vmng)) with
       | VIDEO_STATE_STREAMON, _ :: _ => VIDEO_STATE_DMA
       | s, _ => s
       end
  /\ hw_calls hw'
     = match state (video_inf vmng), vbuf_queued (bufinf (video_inf vmng)) with
       | VIDEO_STATE_STREAMON, b :: _ =>
           [START_DMA V4L2_BUF_TYPE_VIDEO_CAPTURE (buf_userptr b) (buf_length b);
            SET_BUFTYPE V4L2_BUF_TYPE_VIDEO_CAPTURE]
       | _, _ => []
       end ++ hw_calls hw.
Proof.
  unfold change_video_state, estimate_next_video_state,
    video_framebuff_get_dma_container.
  destruct (state (video_inf vmng)) eqn:Hv; simpl;
    try (repeat split; reflexivity).
  destruct (vbuf_queued (bufinf (video_inf vmng))) as [| b q]; simpl;
    repeat split; reflexivity.
Qed.

(** C4, as the code has it.  [video_takepict_stop] returns NOT_PERMITTED if
    and only if the still stream is in STREAMOFF with the infinite sentinel
    as its remaining captures, and changes nothing then.  Otherwise it
    returns OK, cancels DMA when the still stream is in DMA, puts the still
    stream in STREAMOFF with infinite remaining captures, and applies the
    Arbiter's answer to STILL_STOP: a video stream in STREAMON resumes to DMA
    when a video slot is queued and stays in STREAMON when none is. *)
Theorem video_takepict_stop_spec :
  forall (vmng : video_mng_t) (hw : hw_t) (halfpush : bool),
    let never_started :=
      video_state_eqb (state (still_inf vmng)) VIDEO_STATE_STREAMOFF
      && (remaining_capnum (still_inf vmng)
          =? VIDEO_REMAINING_CAPNUM_INFINITY) in
    let '(ret, vmng', hw') := video_takepict_stop vmng hw halfpush in
    (ret = - EPERM <-> never_started = true)
    /\ if never_started
       then vmng' = vmng /\ hw' = hw
       else
         ret = OK
         /\ state (still_inf vmng') = VIDEO_STATE_STREAMOFF
         /\ remaining_capnum (still_inf vmng') = VIDEO_REMAINING_CAPNUM_INFINITY
         /\ state (video_inf vmng')
            = match state (video_inf vmng),
                    vbuf_queued (bufinf (video_inf vmng)) with
              | VIDEO_STATE_STREAMON, _ :: _ => VIDEO_STATE_DMA
              | s, _ => s
              end
         /\ hw_calls hw'
            = match state (video_inf vmng),
                    vbuf_queued (bufinf (video_inf vmng)) with
              | VIDEO_STATE_STREAMON, b :: _ =>
                  [START_DMA V4L2_BUF_TYPE_VIDEO_CAPTURE
                             (buf_userptr b) (buf_length b);
                   SET_BUFTYPE V4L2_BUF_TYPE_VIDEO_CAPTURE]
              | _, _ => []
              end
              ++ (if video_state_eqb (state (still_inf vmng)) VIDEO_STATE_DMA
                  then [CANCEL_DMA] else [])
              ++ hw_calls hw.
Proof.
  intros vmng hw halfpush. unfold video_takepict_stop. cbv zeta.
  destruct (video_state_eqb (state (still_inf vmng)) VIDEO_STATE_STREAMOFF
            && (remaining_capnum (still_inf vmng)
                =? VIDEO_REMAINING_CAPNUM_INFINITY)) eqn:Hnever.
  - repeat split; reflexivity.
  - set (hw1 := if video_state_eqb _ VIDEO_STATE_DMA then _ else _).
    set (vmng1 := set_still_inf vmng _).
    pose proof (change_video_state_still_stop vmng1 hw1) as Hch.
    destruct (change_video_state vmng1 hw1 _) as [vmng2 hw2].
    destruct Hch as (Hstill & Hvideo & Hcalls).
    split; [split; [discriminate | discriminate] |].
    rewrite Hstill, Hvideo, Hcalls. subst vmng1 hw1; simpl.
    repeat split.
    destruct (video_state_eqb (state (still_inf vmng)) VIDEO_STATE_DMA);
      reflexivity.
Qed.

(** C4, as it is worded, fails.  A still capture is under way (still stream
    in DMA) and the video stream is in STREAMON with no buffer queued.
    [video_takepict_stop] returns OK, and the video stream is still in
    STREAMON afterwards: it has not resumed to DMA. *)
Lemma video_takepict_stop_video_stays_streamon :
  state (still_inf (fst still_over_idle_video)) = VIDEO_STATE_DMA
  /\ state (video_inf (fst still_over_idle_video)) = VIDEO_STATE_STREAMON
  /\ fst (fst (video_takepict_stop (fst still_over_idle_video)
                                   (snd still_over_idle_video) false)) = OK
  /\ state (video_inf
              (snd (fst (video_takepict_stop (fst still_over_idle_video)
                                             (snd still_over_idle_video)
                                             false))))
     = VIDEO_STATE_STREAMON
  /\ VIDEO_STATE_STREAMON <> VIDEO_STATE_DMA.
Proof.
  repeat split; try reflexivity; discriminate.
Qed.

(** ** REQBUFS *)

(** Outside DMA, [video_reqbufs] sets the mode and hands the count to the
    queue; its result is the queue's. *)
Lemma video_reqbufs_delegates (vmng : video_mng_t) (type : v4l2_buf_type)
    (req_mode : v4l2_buf_mode) (count : Z) (type_inf : type_inf_ptr) :
  get_video_type_inf type = Some type_inf ->
  state (deref vmng type_inf) <> VIDEO_STATE_DMA ->
  let r := video_framebuff_realloc_container
             (video_framebuff_change_mode (bufinf (deref vmng type_inf))
                                          req_mode) count in
  video_reqbufs vmng type req_mode count
  = (fst r, assign vmng type_inf (set_bufinf (deref vmng type_inf) (snd r))).
Proof.
  intros Hptr Hstate. unfold video_reqbufs. rewrite Hptr.
  apply video_state_eqb_neq in Hstate. rewrite Hstate. cbv zeta.
  destruct (video_framebuff_realloc_container _ count); reflexivity.
Qed.

(** C8, as the code has it.  [video_reqbufs] on a stream in DMA returns
    NOT_PERMITTED and leaves the manager - the queue's mode and capacity with
    it - as it was.  On a stream that is not in DMA it touches nothing but
    the queue of that stream, and sets the requested mode there.  When no
    slot of the queue is dma-current it returns OK and the queue is rebuilt
    with the requested count as its capacity: of the queued buffers, and
    then of the done ones, as many stay as the count has room for, in their
    order, and the rest of the slots are free.  When a slot is still
    dma-current - the transfer it was given to was cancelled and no
    completion came - it returns BUSY, and capacity and slots stay as they
    were. *)
Theorem video_reqbufs_spec :
  forall (vmng : video_mng_t) (type : v4l2_buf_type)
         (req_mode : v4l2_buf_mode) (count : Z) (type_inf : type_inf_ptr),
    get_video_type_inf type = Some type_inf ->
    let t := deref vmng type_inf in
    let '(ret, vmng') := video_reqbufs vmng type req_mode count in
    let fbuf' := bufinf (deref vmng' type_inf) in
    match state t with
    | VIDEO_STATE_DMA => ret = - EPERM /\ vmng' = vmng
    | _ =>
        vmng' = assign vmng type_inf (set_bufinf t fbuf')
        /\ mode fbuf' = req_mode
        /\ match vbuf_dma (bufinf t) with
           | None =>
               ret = OK
               /\ container_size fbuf' = count
               /\ vbuf_dma fbuf' = None
               /\ vbuf_queued fbuf'
                  = firstn (Z.to_nat count) (vbuf_queued (bufinf t))
               /\ vbuf_done fbuf'
                  = firstn (Z.to_nat count - length (vbuf_queued fbuf'))
                           (vbuf_done (bufinf t))
               /\ (vbuf_free fbuf' + length (vbuf_queued fbuf')
                   + length (vbuf_done fbuf'))%nat
                  = Z.to_nat count
           | Some c =>
               ret = - EBUSY
               /\ fbuf' = video_framebuff_change_mode (bufinf t) req_mode
           end
    end.
Proof.
  intros vmng type req_mode count type_inf Hptr. cbv zeta.
  destruct (state (deref vmng type_inf)) eqn:Hstate.
  1, 2: rewrite (video_reqbufs_delegates vmng type req_mode count type_inf Hptr)
          by congruence;
        unfold video_framebuff_realloc_container, video_framebuff_change_mode;
        cbn [vbuf_dma vbuf_queued vbuf_done mode];
        rewrite deref_assign_same;
        destruct (vbuf_dma (bufinf (deref vmng type_inf))) as [c |];
        cbn [fst snd bufinf set_bufinf mode container_size vbuf_free
             vbuf_queued vbuf_dma vbuf_done];
        repeat split; try reflexivity;
        pose proof (firstn_le_length (Z.to_nat count)
                      (vbuf_queued (bufinf (deref vmng type_inf)))) as Hq;
        pose proof (firstn_le_length
                      (Z.to_nat count
                       - length (firstn (Z.to_nat count)
                                   (vbuf_queued
                                      (bufinf (deref vmng type_inf)))))
                      (vbuf_done (bufinf (deref vmng type_inf)))) as Hd;
        lia.
  unfold video_reqbufs. rewrite Hptr, Hstate. split; reflexivity.
Qed.

Lemma video_reqbufs_spec_witness :
  let '(ret, vmng') :=
    video_reqbufs opened_once V4L2_BUF_TYPE_VIDEO_CAPTURE
                  V4L2_BUF_MODE_FIFO 2 in
  ret = OK
  /\ mode (bufinf (deref vmng' PTR_VIDEO_INF)) = V4L2_BUF_MODE_FIFO
  /\ container_size (bufinf (deref vmng' PTR_VIDEO_INF)) = 2
  /\ vbuf_dma (bufinf (deref vmng' PTR_VIDEO_INF)) = None.
Proof.
  pose proof (video_reqbufs_spec opened_once V4L2_BUF_TYPE_VIDEO_CAPTURE
                V4L2_BUF_MODE_FIFO 2 PTR_VIDEO_INF eq_refl) as W.
  cbv zeta in W.
  destruct (video_reqbufs opened_once V4L2_BUF_TYPE_VIDEO_CAPTURE
                          V4L2_BUF_MODE_FIFO 2) as [ret vmng'] eqn:Hrun.
  cbn in W. destruct W as (_ & Hmode & Hret & Hsize & Hdma & _).
  repeat split; assumption.
Defined.

(** STREAMON with a buffer queued starts a transfer; STREAMOFF cancels it
    and leaves its slot dma-current.  The video stream is then in STREAMOFF,
    and REQBUFS for four slots in ring mode comes back with BUSY: the mode
    is switched, the capacity is still 1. *)
Example video_reqbufs_after_streamoff_is_busy :
  state (video_inf (fst streamed_on_and_off)) = VIDEO_STATE_STREAMOFF
  /\ vbuf_dma (bufinf (video_inf (fst streamed_on_and_off)))
     = Some (video_buffer 0)
  /\ fst (video_reqbufs (fst streamed_on_and_off) V4L2_BUF_TYPE_VIDEO_CAPTURE
                        V4L2_BUF_MODE_RING 4) = - EBUSY
  /\ container_size
       (bufinf (video_inf
                  (snd (video_reqbufs (fst streamed_on_and_off)
                                      V4L2_BUF_TYPE_VIDEO_CAPTURE
                                      V4L2_BUF_MODE_RING 4)))) = 1
  /\ mode
       (bufinf (video_inf
                  (snd (video_reqbufs (fst streamed_on_and_off)
                                      V4L2_BUF_TYPE_VIDEO_CAPTURE
                                      V4L2_BUF_MODE_RING 4))))
     = V4L2_BUF_MODE_RING
  /\ - EBUSY <> OK /\ 1 <> 4.
Proof.
  repeat split; try reflexivity; discriminate.
Qed.

Example video_reqbufs_in_dma :
  video_reqbufs (fst still_over_idle_video) V4L2_BUF_TYPE_STILL_CAPTURE
                V4L2_BUF_MODE_RING 4
  = (- EPERM, fst still_over_idle_video).
Proof. reflexivity. Qed.

(** ** The DMA-done callback *)

(** C2, as the code has it.  A notification for a resolved stream that has a
    dma-current slot returns OK.  With error code 0 it takes one off a
    positive count of remaining captures; with any other error code, and for
    a count that is not positive, it leaves the count as it is. *)
Theorem video_common_notify_dma_done_remaining :
  forall (err_code datasize : Z) (vmng : video_mng_t) (hw : hw_t)
         (type_inf : type_inf_ptr) (c : v4l2_buffer),
    get_video_type_inf (get_buftype hw) = Some type_inf ->
    vbuf_dma (bufinf (deref vmng type_inf)) = Some c ->
    exists (vmng' : video_mng_t) (hw' : hw_t),
      video_common_notify_dma_done err_code datasize vmng hw
      = Some (OK, vmng', hw')
      /\ remaining_capnum (deref vmng' type_inf)
         = if err_code =? 0
           then if 0 <? remaining_capnum (deref vmng type_inf)
                then remaining_capnum (deref vmng type_inf) - 1
                else remaining_capnum (deref vmng type_inf)
           else remaining_capnum (deref vmng type_inf).
Proof.
  intros err_code datasize vmng hw type_inf c Hptr Hdma.
  unfold video_common_notify_dma_done.
  rewrite Hptr, Hdma. cbv zeta.
  set (t := deref vmng type_inf).
  set (remaining := if (err_code =? 0) && (0 <? remaining_capnum t)
                    then remaining_capnum t - 1 else remaining_capnum t).
  set (t1 := set_bufinf (set_remaining_capnum t remaining) _).
  set (t2 := if is_sem_waited (dqbuf_wait_flg (wait_dma t1)) then _ else t1).
  assert (Ht2 : remaining_capnum t2 = remaining).
  { subst t2. destruct (is_sem_waited _); [| reflexivity].
    destruct (video_framebuff_pop_curr_container _); reflexivity. }
  assert (Hrem : remaining
                 = if err_code =? 0
                   then if 0 <? remaining_capnum t
                        then remaining_capnum t - 1 else remaining_capnum t
                   else remaining_capnum t).
  { subst remaining. destruct (err_code =? 0); reflexivity. }
  rewrite <- Hrem, <- Ht2. clearbody t2. clear.
  destruct (remaining_capnum t2 =? 0).
  - eexists _, _; split; [reflexivity |].
    destruct type_inf, (is_still_capture _ && is_sem_waited _); reflexivity.
  - destruct (video_framebuff_get_dma_container (bufinf t2)) as [[b |] fbuf];
      eexists _, _; (split; [reflexivity |]);
      rewrite deref_assign_same; reflexivity.
Qed.

Lemma video_common_notify_dma_done_remaining_witness :
  exists (vmng' : video_mng_t) (hw' : hw_t),
    video_common_notify_dma_done 0 4096 (fst still_two_frames)
                                 (snd still_two_frames)
    = Some (OK, vmng', hw')
    /\ remaining_capnum (deref vmng' PTR_STILL_INF) = 1.
Proof.
  apply (video_common_notify_dma_done_remaining
           0 4096 (fst still_two_frames) (snd still_two_frames)
           PTR_STILL_INF still_buffer);
    reflexivity.
Defined.

(** C2, as it is worded, fails.  The still stream has two captures left and
    a transfer under way; the notification reports error code 1.  It returns
    OK and two captures are still left. *)
Lemma video_common_notify_dma_done_error_keeps_count :
  get_video_type_inf (get_buftype (snd still_two_frames)) = Some PTR_STILL_INF
  /\ remaining_capnum (still_inf (fst still_two_frames)) = 2
  /\ option_map
       (fun r => (fst (fst r), remaining_capnum (still_inf (snd (fst r)))))
       (video_common_notify_dma_done 1 4096 (fst still_two_frames)
                                     (snd still_two_frames))
     = Some (OK, 2)
  /\ 2 <> 2 - 1.
Proof.
  repeat split; try reflexivity; discriminate.
Qed.

(** ** DQBUF against CANCEL_DQBUF *)


Lemma wait_dma_mark (vmng : video_mng_t) (p : type_inf_ptr) :
  wait_dma (deref (cancel_dqbuf_mark vmng p) p)
  = set_waitend_cause (wait_dma (deref vmng p)) VIDEO_WAITEND_CAUSE_DQCANCEL.
Proof. unfold cancel_dqbuf_mark. now rewrite deref_assign_same. Qed.

Lemma bufinf_mark (vmng : video_mng_t) (p : type_inf_ptr) :
  bufinf (deref (cancel_dqbuf_mark vmng p) p) = bufinf (deref vmng p).
Proof. unfold cancel_dqbuf_mark. now rewrite deref_assign_same. Qed.

Lemma wait_dma_post (vmng : video_mng_t) (p : type_inf_ptr) :
  wait_dma (deref (cancel_dqbuf_post vmng p) p)
  = nxsem_post (wait_dma (deref vmng p)).
Proof. unfold cancel_dqbuf_post. now rewrite deref_assign_same. Qed.

Lemma release_by_post (count : Z) :
  count < 0 -> release count (count + 1) DQBUF_WAITING = DQBUF_RELEASED.
Proof.
  intros Hneg. unfold release.
  destruct (Z.ltb_spec count 0); [| lia].
  destruct (Z.ltb_spec count (count + 1)); [reflexivity | lia].
Qed.




(** The three statements of the cancel in a row are [video_cancel_dqbuf]. *)
Lemma cancel_steps_are_video_cancel_dqbuf
    (type : v4l2_buf_type) (p : type_inf_ptr)
    (vmng : video_mng_t) (hw : hw_t) (d : dqbuf_pc) :
  get_video_type_inf type = Some p ->
  sem_count vmng p < 0 ->
  run type [RUN_CANCEL; RUN_CANCEL; RUN_CANCEL]
      (mk_system vmng hw CANCEL_AT_TEST d)
  = Some (mk_system (snd (video_cancel_dqbuf vmng type)) hw
                    (CANCEL_RETURNED (fst (video_cancel_dqbuf vmng type)))
                    (release (sem_count vmng p) (sem_count vmng p + 1) d)).
Proof.
  intros Hptr Hneg. unfold video_cancel_dqbuf, run, step.
  rewrite Hptr. cbn [sys_cancel sys_vmng sys_hw sys_dqbuf].
  unfold sem_count in *. unfold is_sem_waited.
  destruct (Z.ltb_spec (dqbuf_wait_flg (wait_dma (deref vmng p))) 0);
    [| lia].
  cbn [negb sys_cancel sys_vmng sys_hw sys_dqbuf fst snd].
  rewrite wait_dma_post, wait_dma_mark. reflexivity.
Qed.

Section Steps.

Variables (type : v4l2_buf_type) (p : type_inf_ptr).
Hypothesis resolved : get_video_type_inf type = Some p.

Lemma step_cancel_test (vmng : video_mng_t) (hw : hw_t) (d : dqbuf_pc) :
  sem_count vmng p < 0 ->
  step type RUN_CANCEL (mk_system vmng hw CANCEL_AT_TEST d)
  = Some (mk_system vmng hw CANCEL_AT_MARK d).
Proof.
  intros Hneg. unfold step. rewrite resolved. simpl.
  unfold is_sem_waited. destruct (Z.ltb_spec (sem_count vmng p) 0); [| lia].
  reflexivity.
Qed.

Lemma step_cancel_mark (vmng : video_mng_t) (hw : hw_t) (d : dqbuf_pc) :
  step type RUN_CANCEL (mk_system vmng hw CANCEL_AT_MARK d)
  = Some (mk_system (cancel_dqbuf_mark vmng p) hw CANCEL_AT_POST d).
Proof. unfold step. now rewrite resolved. Qed.

Lemma step_cancel_post (vmng : video_mng_t) (hw : hw_t) (d : dqbuf_pc) :
  step type RUN_CANCEL (mk_system vmng hw CANCEL_AT_POST d)
  = Some (mk_system (cancel_dqbuf_post vmng p) hw (CANCEL_RETURNED OK)
                    (release (sem_count vmng p) (sem_count vmng p + 1) d)).
Proof.
  unfold step. rewrite resolved. simpl.
  unfold sem_count at 2. rewrite wait_dma_post. reflexivity.
Qed.

Lemma step_irq_dma_done (err_code datasize ret : Z)
    (vmng vmng' : video_mng_t) (hw hw' : hw_t)
    (c : cancel_pc) (d : dqbuf_pc) :
  video_common_notify_dma_done err_code datasize vmng hw
  = Some (ret, vmng', hw') ->
  step type (IRQ_DMA_DONE err_code datasize) (mk_system vmng hw c d)
  = Some (mk_system vmng' hw' c
                    (release (sem_count vmng p) (sem_count vmng' p) d)).
Proof.
  intros Hirq. unfold step. rewrite resolved. simpl. now rewrite Hirq.
Qed.

Lemma step_dqbuf_returns (ret : Z) (out : option v4l2_buffer)
    (vmng vmng' : video_mng_t) (hw hw' : hw_t) (c : cancel_pc) :
  video_dqbuf_wake vmng hw type p = (DQBUF_RETURN ret out, vmng', hw') ->
  step type RUN_DQBUF (mk_system vmng hw c DQBUF_RELEASED)
  = Some (mk_system vmng' hw' c (DQBUF_FINISHED (DQBUF_RETURN ret out))).
Proof.
  intros Hwake. unfold step. rewrite resolved. simpl. now rewrite Hwake.
Qed.





End Steps.



(** ** Scenarios of the specification *)

(** S1: the two dequeues return A with 1000 bytes and B with 1200 bytes, in
    the order of queueing, and STREAMOFF leaves the video stream off. *)
Example scenario_simple_video_runs :
  option_map (fun r => (fst (fst (fst r)), snd (fst (fst r)), snd (fst r),
                        state (video_inf (snd r))))
             scenario_simple_video
  = Some (DQBUF_RETURN OK
            (Some (stamp_dma_buffer (video_buffer 0) 0 1000)),
          DQBUF_RETURN OK
            (Some (stamp_dma_buffer (video_buffer 1) 0 1200)),
          OK, VIDEO_STATE_STREAMOFF).
Proof. reflexivity. Qed.

(** S4: after the second completion the still stream is off, no capture is
    left, and the third buffer is still queued. *)
Example scenario_still_count_runs :
  option_map (fun m => (state (still_inf m), remaining_capnum (still_inf m),
                        map buf_index (vbuf_queued (bufinf (still_inf m)))))
             scenario_still_count
  = Some (VIDEO_STATE_STREAMOFF, 0, [2]).
Proof. reflexivity. Qed.

(** S3: the cancel of a suspended dequeue. *)
Example scenario_cancel_dqbuf_runs :
  option_map (fun s => (sys_cancel s, sys_dqbuf s))
    (run V4L2_BUF_TYPE_VIDEO_CAPTURE cancel_schedule
         (mk_system (snd (fst video_dqbuf_suspended))
                    (snd video_dqbuf_suspended)
                    CANCEL_AT_TEST DQBUF_WAITING))
  = Some (CANCEL_RETURNED OK,
          DQBUF_FINISHED (DQBUF_RETURN (- ECANCELED) None)).
Proof. reflexivity. Qed.

(** * The rest of the driver *)

(** ** Who owns the DMA engine *)

(** The Arbiter sends the video stream into DMA only past a still stream
    that is off. *)
Lemma estimate_next_video_state_dma
    (vmng : video_mng_t) (cause : video_state_transition_cause) :
  (cause = CAUSE_STILL_STOP ->
   state (still_inf vmng) = VIDEO_STATE_STREAMOFF) ->
  estimate_next_video_state vmng cause = VIDEO_STATE_DMA ->
  state (video_inf vmng) <> VIDEO_STATE_DMA ->
  state (still_inf vmng) = VIDEO_STATE_STREAMOFF.
Proof.
  intros Hstop.
  unfold estimate_next_video_state, is_taking_still_picture.
  destruct cause, (state (video_inf vmng)) eqn:Hv,
    (state (still_inf vmng)) eqn:Hs; simpl;
    try congruence; intros; auto.
Qed.

Lemma change_video_state_owner
    (vmng : video_mng_t) (hw : hw_t) (next_state : video_state_e) :
  dma_owner (vmng, hw) ->
  (next_state = VIDEO_STATE_DMA ->
   state (video_inf vmng) <> VIDEO_STATE_DMA ->
   state (still_inf vmng) = VIDEO_STATE_STREAMOFF) ->
  dma_owner (change_video_state vmng hw next_state).
Proof.
  intros [Hvideo Hstill] Hnext.
  unfold change_video_state, video_framebuff_get_dma_container.
  destruct (state (video_inf vmng)) eqn:Hv, next_state; simpl.
  all: try (destruct (vbuf_queued (bufinf (video_inf vmng))) as [| b q];
            simpl).
  all: split; simpl.
  all: try discriminate.
  all: try exact Hstill.
  all: try (intros _; repeat split;
            [apply Hnext; congruence | discriminate]).
  all: try (intros Hs; rewrite Hnext in Hs by congruence; discriminate).
  all: try (intros _; exact (Hvideo eq_refl)).
Qed.

Lemma change_video_state_owner_cause
    (vmng : video_mng_t) (hw : hw_t) (cause : video_state_transition_cause) :
  dma_owner (vmng, hw) ->
  (cause = CAUSE_STILL_STOP ->
   state (still_inf vmng) = VIDEO_STATE_STREAMOFF) ->
  dma_owner
    (change_video_state vmng hw (estimate_next_video_state vmng cause)).
Proof.
  intros Hown Hstop. apply change_video_state_owner; [exact Hown |].
  now apply estimate_next_video_state_dma.
Qed.

(** A store into one stream that keeps its state, and its dma-current
    container while in DMA, keeps the owner. *)
Lemma dma_owner_assign_keep (vmng : video_mng_t) (hw : hw_t)
    (p : type_inf_ptr) (t : video_type_inf_t) :
  dma_owner (vmng, hw) ->
  state t = state (deref vmng p) ->
  (state t = VIDEO_STATE_DMA -> vbuf_dma (bufinf t) <> None) ->
  dma_owner (assign vmng p t, hw).
Proof.
  intros [Hvideo Hstill] Hstate Hdma.
  destruct p; simpl in *; split; simpl.
  - intros Hv. rewrite Hstate in Hv. destruct (Hvideo Hv) as (? & ? & _).
    repeat split; try assumption. apply Hdma. congruence.
  - exact Hstill.
  - intros Hv. destruct (Hvideo Hv) as (Hs & ? & ?).
    repeat split; try assumption. congruence.
  - intros Hs. rewrite Hstate in Hs. destruct (Hstill Hs) as (? & _).
    split; [assumption |]. apply Hdma. congruence.
Qed.

(** A store into the video stream that takes it out of DMA. *)
Lemma dma_owner_video_leaves (vmng : video_mng_t) (hw : hw_t)
    (t : video_type_inf_t) :
  dma_owner (vmng, hw) ->
  state t <> VIDEO_STATE_DMA ->
  dma_owner (set_video_inf vmng t, hw).
Proof.
  intros [_ Hstill] Hstate. split; simpl; [congruence | exact Hstill].
Qed.

(** A store into the still stream while the video stream is out of DMA. *)
Lemma dma_owner_still_store (vmng : video_mng_t) (hw : hw_t)
    (t : video_type_inf_t) :
  state (video_inf vmng) <> VIDEO_STATE_DMA ->
  (state t = VIDEO_STATE_DMA ->
   hw_buftype hw = V4L2_BUF_TYPE_STILL_CAPTURE
   /\ vbuf_dma (bufinf t) <> None) ->
  dma_owner (set_still_inf vmng t, hw).
Proof.
  intros Hvideo Hdma. split; simpl; [congruence | exact Hdma].
Qed.

(** The hardware may change as long as the buffer type set in the sensor
    stays. *)
Lemma dma_owner_hw (vmng : video_mng_t) (hw hw' : hw_t) :
  hw_buftype hw' = hw_buftype hw ->
  dma_owner (vmng, hw) -> dma_owner (vmng, hw').
Proof.
  intros Hsame [Hvideo Hstill]. split; rewrite Hsame; assumption.
Qed.

Lemma dma_owner_video_off_of_still (vmng : video_mng_t) (hw : hw_t) :
  dma_owner (vmng, hw) ->
  state (still_inf vmng) <> VIDEO_STATE_STREAMOFF ->
  state (video_inf vmng) <> VIDEO_STATE_DMA.
Proof.
  intros [Hvideo _] Hs Hv. destruct (Hvideo Hv) as (Hoff & _). congruence.
Qed.

Lemma video_reqbufs_owner (vmng : video_mng_t) (hw : hw_t)
    (type : v4l2_buf_type) (req_mode : v4l2_buf_mode) (count : Z) :
  dma_owner (vmng, hw) ->
  dma_owner (snd (video_reqbufs vmng type req_mode count), hw).
Proof.
  intros Hown. unfold video_reqbufs.
  destruct (get_video_type_inf type) as [p |]; [| exact Hown].
  destruct (video_state_eqb (state (deref vmng p)) VIDEO_STATE_DMA) eqn:Hdma;
    [exact Hown |].
  apply video_state_eqb_neq in Hdma.
  destruct (video_framebuff_realloc_container _ count) as [ret fbuf].
  simpl. apply dma_owner_assign_keep;
    [exact Hown | reflexivity | simpl; intros Hs; congruence].
Qed.

Lemma video_qbuf_owner (vmng : video_mng_t) (hw : hw_t) (buf : v4l2_buffer) :
  aliases (buf_type buf) = false ->
  dma_owner (vmng, hw) ->
  dma_owner (snd (fst (video_qbuf vmng hw buf)), snd (video_qbuf vmng hw buf)).
Proof.
  intros Hplain Hown. unfold video_qbuf.
  destruct (get_video_type_inf (buf_type buf)) as [p |] eqn:Hptr;
    [| exact Hown].
  simpl negb. cbv iota.
  unfold video_framebuff_get_container.
  destruct (vbuf_free (bufinf (deref vmng p))) as [| k] eqn:Hfree;
    [exact Hown |].
  set (fbuf1 := video_framebuff_queue_container _ buf).
  set (vmng1 := assign vmng p (set_bufinf (deref vmng p) fbuf1)).
  assert (Hown1 : dma_owner (vmng1, hw)).
  { apply dma_owner_assign_keep; [exact Hown | reflexivity |].
    simpl. intros Hs. destruct Hown as [Hv Hst].
    destruct p; simpl in *; [apply Hv | apply Hst]; exact Hs. }
  assert (Hstate1 : state (deref vmng1 p) = state (deref vmng p))
    by (subst vmng1; now rewrite deref_assign_same).
  destruct (video_state_eqb (state (deref vmng1 p)) VIDEO_STATE_STREAMON)
    eqn:Hon; [| exact Hown1].
  apply video_state_eqb_eq in Hon.
  destruct (is_video_capture (buf_type buf)) eqn:Hvid.
  - pose proof (change_video_state_owner_cause vmng1 hw CAUSE_VIDEO_START
                  Hown1 ltac:(discriminate)) as Hch.
    destruct (change_video_state vmng1 hw _) as [vmng2 hw2]. exact Hch.
  - unfold aliases in Hplain.
    destruct (buf_type buf); [discriminate | | rewrite Hptr in Hplain;
                                               discriminate].
    simpl in Hptr. injection Hptr as <-. cbn [deref assign] in *.
    unfold video_framebuff_get_dma_container.
    destruct (vbuf_queued (bufinf (still_inf vmng1))) as [| b q] eqn:Hq;
      [exact Hown1 |].
    cbn [fst snd assign]. apply dma_owner_still_store.
    + apply (dma_owner_video_off_of_still vmng1 hw Hown1). congruence.
    + intros _. split; [reflexivity | discriminate].
Qed.

Lemma video_streamon_owner (vmng : video_mng_t) (hw : hw_t)
    (type : v4l2_buf_type) :
  dma_owner (vmng, hw) ->
  dma_owner (snd (fst (video_streamon vmng hw type)),
             snd (video_streamon vmng hw type)).
Proof.
  intros Hown. unfold video_streamon.
  destruct (get_video_type_inf type) as [p |]; [| exact Hown].
  destruct (negb (is_video_capture type)); [exact Hown |].
  destruct (negb (video_state_eqb _ VIDEO_STATE_STREAMOFF)); [exact Hown |].
  pose proof (change_video_state_owner_cause vmng hw CAUSE_VIDEO_START
                Hown ltac:(discriminate)) as Hch.
  destruct (change_video_state vmng hw _) as [vmng' hw']. exact Hch.
Qed.

Lemma video_streamoff_owner (vmng : video_mng_t) (hw : hw_t)
    (type : v4l2_buf_type) :
  dma_owner (vmng, hw) ->
  dma_owner (snd (fst (video_streamoff vmng hw type)),
             snd (video_streamoff vmng hw type)).
Proof.
  intros Hown. unfold video_streamoff.
  destruct (get_video_type_inf type) as [p |]; [| exact Hown].
  destruct (negb (is_video_capture type)); [exact Hown |].
  destruct (video_state_eqb _ VIDEO_STATE_STREAMOFF); [exact Hown |].
  pose proof (change_video_state_owner_cause vmng hw CAUSE_VIDEO_STOP
                Hown ltac:(discriminate)) as Hch.
  destruct (change_video_state vmng hw _) as [vmng' hw']. exact Hch.
Qed.

(** After the Arbiter's answer to STILL_START the video stream is out of
    DMA. *)
Lemma change_video_state_still_start (vmng : video_mng_t) (hw : hw_t) :
  state (video_inf
           (fst (change_video_state vmng hw
                   (estimate_next_video_state vmng CAUSE_STILL_START))))
  <> VIDEO_STATE_DMA.
Proof.
  unfold change_video_state, estimate_next_video_state.
  destruct (state (video_inf vmng)); simpl; discriminate.
Qed.

Lemma video_takepict_start_owner (vmng : video_mng_t) (hw : hw_t) (n : Z) :
  dma_owner (vmng, hw) ->
  dma_owner (snd (fst (video_takepict_start vmng hw n)),
             snd (video_takepict_start vmng hw n)).
Proof.
  intros Hown. unfold video_takepict_start.
  destruct (negb (video_state_eqb _ VIDEO_STATE_STREAMOFF)); [exact Hown |].
  set (vmng1 := set_still_inf vmng _).
  pose proof (change_video_state_still_start vmng1 hw) as Hvideo.
  destruct (change_video_state vmng1 hw _) as [vmng2 hw2].
  cbn [fst] in Hvideo.
  unfold video_framebuff_get_dma_container.
  destruct (vbuf_queued (bufinf (still_inf vmng2))) as [| b q];
    cbn [fst snd]; apply dma_owner_still_store; try assumption.
  - discriminate.
  - intros _. split; [reflexivity | discriminate].
Qed.

Lemma video_takepict_stop_owner (vmng : video_mng_t) (hw : hw_t)
    (halfpush : bool) :
  dma_owner (vmng, hw) ->
  dma_owner (snd (fst (video_takepict_stop vmng hw halfpush)),
             snd (video_takepict_stop vmng hw halfpush)).
Proof.
  intros Hown. unfold video_takepict_stop.
  destruct (video_state_eqb _ VIDEO_STATE_STREAMOFF && _); [exact Hown |].
  set (hw1 := if video_state_eqb _ VIDEO_STATE_DMA then _ else _).
  set (vmng1 := set_still_inf vmng _).
  assert (Hown1 : dma_owner (vmng1, hw1)).
  { apply (dma_owner_hw vmng1 hw hw1).
    - subst hw1. now destruct (video_state_eqb _ _).
    - destruct Hown as [Hv _]. split; subst vmng1; simpl.
      + intros Hs. destruct (Hv Hs) as (_ & ? & ?). now repeat split.
      + discriminate. }
  pose proof (change_video_state_owner_cause vmng1 hw1 CAUSE_STILL_STOP
                Hown1 ltac:(reflexivity)) as Hch.
  destruct (change_video_state vmng1 hw1 _) as [vmng2 hw2]. exact Hch.
Qed.

Lemma video_cancel_dqbuf_owner (vmng : video_mng_t) (hw : hw_t)
    (type : v4l2_buf_type) :
  dma_owner (vmng, hw) ->
  dma_owner (snd (video_cancel_dqbuf vmng type), hw).
Proof.
  intros Hown. unfold video_cancel_dqbuf.
  destruct (get_video_type_inf type) as [p |]; [| exact Hown].
  destruct (negb (is_sem_waited _)); [exact Hown |].
  cbn [snd]. unfold cancel_dqbuf_post.
  assert (Hmark : dma_owner (cancel_dqbuf_mark vmng p, hw)).
  { unfold cancel_dqbuf_mark.
    apply dma_owner_assign_keep; [exact Hown | reflexivity |].
    simpl. intros Hs. destruct Hown as [Hv Hst].
    destruct p; [apply Hv | apply Hst]; exact Hs. }
  apply dma_owner_assign_keep; [exact Hmark | reflexivity |].
  simpl. intros Hs. destruct Hmark as [Hv Hst].
  destruct p; [apply Hv | apply Hst]; exact Hs.
Qed.

(** A store into one stream that touches neither its state nor its
    dma-current container. *)
Lemma dma_owner_assign_same_dma (vmng : video_mng_t) (hw : hw_t)
    (p : type_inf_ptr) (t : video_type_inf_t) :
  dma_owner (vmng, hw) ->
  state t = state (deref vmng p) ->
  vbuf_dma (bufinf t) = vbuf_dma (bufinf (deref vmng p)) ->
  dma_owner (assign vmng p t, hw).
Proof.
  intros Hown Hstate Hdma.
  apply dma_owner_assign_keep; [exact Hown | exact Hstate |].
  intros Hs. rewrite Hdma. rewrite Hstate in Hs.
  destruct Hown as [Hv Hst].
  destruct p; [apply Hv | apply Hst]; exact Hs.
Qed.

Lemma video_dqbuf_finish_owner (vmng : video_mng_t) (hw : hw_t)
    (p : type_inf_ptr) :
  dma_owner (vmng, hw) ->
  dma_owner (snd (video_dqbuf_finish vmng p), hw).
Proof.
  intros Hown. unfold video_dqbuf_finish.
  destruct (done_container (wait_dma (deref vmng p))) as [c |].
  - cbn [snd]. now apply dma_owner_assign_same_dma.
  - now destruct (waitend_cause_eqb _ _).
Qed.

Lemma video_dqbuf_wait_owner (n : nat) (type : v4l2_buf_type)
    (p : type_inf_ptr) :
  forall (vmng : video_mng_t) (hw : hw_t),
    dma_owner (vmng, hw) ->
    dma_owner (snd (fst (video_dqbuf_wait n vmng hw type p)),
               snd (video_dqbuf_wait n vmng hw type p)).
Proof.
  induction n as [| n IH]; intros vmng hw Hown; cbn [video_dqbuf_wait].
  all: assert (Hown1 :
         dma_owner (if is_video_capture type
                    then change_video_state vmng hw
                           (estimate_next_video_state vmng CAUSE_VIDEO_DQBUF)
                    else (vmng, hw)))
         by (destruct (is_video_capture type);
             [now apply change_video_state_owner_cause | exact Hown]).
  all: destruct (if is_video_capture type then _ else _) as [vmng1 hw1].
  all: set (vmng2 := assign vmng1 p _).
  all: assert (Hown2 : dma_owner (vmng2, hw1))
         by (subst vmng2; now apply dma_owner_assign_same_dma).
  - exact Hown2.
  - destruct (waitend_cause_eqb _ _).
    + now apply IH.
    + pose proof (video_dqbuf_finish_owner vmng2 hw1 p Hown2) as Hfin.
      destruct (video_dqbuf_finish vmng2 p) as [r vmng3]. exact Hfin.
Qed.

Lemma video_dqbuf_owner (vmng : video_mng_t) (hw : hw_t)
    (type : v4l2_buf_type) :
  dma_owner (vmng, hw) ->
  dma_owner (snd (fst (video_dqbuf vmng hw type)),
             snd (video_dqbuf vmng hw type)).
Proof.
  intros Hown. unfold video_dqbuf.
  destruct (get_video_type_inf type) as [p |]; [| exact Hown].
  unfold video_framebuff_dq_valid_container.
  destruct (vbuf_done (bufinf (deref vmng p))) as [| b d].
  - now apply video_dqbuf_wait_owner.
  - cbn [fst snd]. now apply dma_owner_assign_same_dma.
Qed.

Lemma video_dqbuf_wake_owner (vmng : video_mng_t) (hw : hw_t)
    (type : v4l2_buf_type) (p : type_inf_ptr) :
  dma_owner (vmng, hw) ->
  dma_owner (snd (fst (video_dqbuf_wake vmng hw type p)),
             snd (video_dqbuf_wake vmng hw type p)).
Proof.
  intros Hown. unfold video_dqbuf_wake.
  destruct (waitend_cause_eqb _ _).
  - now apply video_dqbuf_wait_owner.
  - pose proof (video_dqbuf_finish_owner vmng hw p Hown) as Hfin.
    destruct (video_dqbuf_finish vmng p) as [r vmng']. exact Hfin.
Qed.

Lemma video_open_owner (vmng : video_mng_t) (hw : hw_t)
    (sens_ret img_ret : Z) :
  dma_owner (vmng, hw) ->
  dma_owner (snd (fst (video_open vmng hw sens_ret img_ret)),
             snd (video_open vmng hw sens_ret img_ret)).
Proof.
  intros [Hv Hs]. unfold video_open.
  destruct (open_num vmng =? 0), (sens_ret =? OK) eqn:Hsr,
    (img_ret =? OK) eqn:Hir; simpl; try rewrite Hsr; try rewrite Hir;
    simpl; split; simpl; try discriminate; assumption.
Qed.

Lemma video_close_owner (vmng : video_mng_t) (hw : hw_t) :
  dma_owner (vmng, hw) ->
  dma_owner (snd (fst (video_close vmng hw)), snd (video_close vmng hw)).
Proof.
  intros [Hv Hs]. unfold video_close.
  destruct (open_num vmng =? 0); [split; assumption |].
  destruct (open_num (set_open_num vmng (open_num vmng - 1)) =? 0);
    simpl; split; simpl; try discriminate; assumption.
Qed.

(** ** What the DMA-done callback does to the streams and the hardware *)

Lemma dma_done_vbuf_dma (fbuf : video_framebuff_t) :
  vbuf_dma fbuf <> None -> vbuf_dma (video_framebuff_dma_done fbuf) = None.
Proof.
  unfold video_framebuff_dma_done.
  destruct (vbuf_dma fbuf) as [b |]; [intros _ | congruence].
  destruct (mode fbuf),
    (container_size fbuf <=? Z.of_nat (length (vbuf_done fbuf))),
    (vbuf_done fbuf); reflexivity.
Qed.

Lemma dma_done_vbuf_queued (fbuf : video_framebuff_t) :
  vbuf_queued (video_framebuff_dma_done fbuf) = vbuf_queued fbuf.
Proof.
  unfold video_framebuff_dma_done.
  destruct (vbuf_dma fbuf) as [b |]; [| reflexivity].
  destruct (mode fbuf),
    (container_size fbuf <=? Z.of_nat (length (vbuf_done fbuf))),
    (vbuf_done fbuf); reflexivity.
Qed.

Lemma pop_curr_vbuf_dma (fbuf : video_framebuff_t) :
  vbuf_dma (snd (video_framebuff_pop_curr_container fbuf)) = vbuf_dma fbuf.
Proof.
  unfold video_framebuff_pop_curr_container.
  now destruct (rev (vbuf_done fbuf)).
Qed.

Lemma pop_curr_vbuf_queued (fbuf : video_framebuff_t) :
  vbuf_queued (snd (video_framebuff_pop_curr_container fbuf))
  = vbuf_queued fbuf.
Proof.
  unfold video_framebuff_pop_curr_container.
  now destruct (rev (vbuf_done fbuf)).
Qed.

(** The callback on a resolved stream with a dma-current container, spelled
    out.  [remaining] is the count of captures it leaves and [queued] the
    queue it found.  With no capture left the stream is switched off and the
    transfer cancelled; else the head of the queue is programmed as the next
    buffer, and a stream with an empty queue falls back to STREAMON with the
    transfer cancelled.  Of the other stream only the rendezvous can
    change. *)
Lemma notify_dma_done_effect
    (err_code datasize : Z) (vmng : video_mng_t) (hw : hw_t)
    (p : type_inf_ptr) (c : v4l2_buffer) :
  get_video_type_inf (get_buftype hw) = Some p ->
  vbuf_dma (bufinf (deref vmng p)) = Some c ->
  let t := deref vmng p in
  let remaining :=
    if (err_code =? 0) && (0 <? remaining_capnum t)
    then remaining_capnum t - 1 else remaining_capnum t in
  let queued := vbuf_queued (bufinf t) in
  exists (vmng' : video_mng_t) (hw' : hw_t),
    video_common_notify_dma_done err_code datasize vmng hw
    = Some (OK, vmng', hw')
    /\ remaining_capnum (deref vmng' p) = remaining
    /\ state (deref vmng' p)
       = (if remaining =? 0 then VIDEO_STATE_STREAMOFF
          else match queued with
               | [] => VIDEO_STATE_STREAMON
               | _ :: _ => state t
               end)
    /\ vbuf_dma (bufinf (deref vmng' p))
       = (if remaining =? 0 then None else hd_error queued)
    /\ vbuf_queued (bufinf (deref vmng' p))
       = (if remaining =? 0 then queued else tl queued)
    /\ hw'
       = (if remaining =? 0 then cancel_dma hw
          else match queued with
               | [] => cancel_dma hw
               | b :: _ => set_dmabuf hw b
               end)
    /\ forall q : type_inf_ptr,
         q <> p ->
         state (deref vmng' q) = state (deref vmng q)
         /\ remaining_capnum (deref vmng' q) = remaining_capnum (deref vmng q)
         /\ bufinf (deref vmng' q) = bufinf (deref vmng q).
Proof.
  intros Hptr Hdma. cbv zeta.
  unfold video_common_notify_dma_done. rewrite Hptr, Hdma. cbv zeta.
  set (t := deref vmng p).
  set (remaining := if (err_code =? 0) && (0 <? remaining_capnum t)
                    then remaining_capnum t - 1 else remaining_capnum t).
  set (c' := stamp_dma_buffer c err_code datasize).
  set (t1 := set_bufinf (set_remaining_capnum t remaining) _).
  set (t2 := if is_sem_waited (dqbuf_wait_flg (wait_dma t1)) then _ else t1).
  assert (Ht2 : remaining_capnum t2 = remaining /\ state t2 = state t
                /\ vbuf_dma (bufinf t2) = None
                /\ vbuf_queued (bufinf t2) = vbuf_queued (bufinf t)).
  { assert (H1 : vbuf_dma (bufinf t1) = None)
      by (subst t1; simpl; now apply dma_done_vbuf_dma).
    assert (H2 : vbuf_queued (bufinf t1) = vbuf_queued (bufinf t))
      by (subst t1; simpl; now rewrite dma_done_vbuf_queued).
    subst t2. destruct (is_sem_waited _); [| now repeat split].
    pose proof (pop_curr_vbuf_dma (bufinf t1)) as H3.
    pose proof (pop_curr_vbuf_queued (bufinf t1)) as H4.
    destruct (video_framebuff_pop_curr_container (bufinf t1)) as [popped f].
    simpl in *. repeat split; congruence. }
  destruct Ht2 as (Hrem & Hstate & Hnone & Hqueued).
  clearbody t2. rewrite Hrem.
  destruct (remaining =? 0) eqn:Hzero.
  - eexists _, _. split; [reflexivity |].
    destruct p.
    + rewrite (resolves_to_video_not_still _ Hptr). simpl.
      repeat split; try assumption.
      all: destruct q; [congruence | reflexivity].
    + destruct (is_still_capture _ && is_sem_waited _); simpl;
        repeat split; try assumption.
      all: destruct q; [reflexivity | congruence].
  - unfold video_framebuff_get_dma_container. rewrite Hqueued.
    destruct (vbuf_queued (bufinf t)) as [| b queued'];
      eexists _, _; (split; [reflexivity |]);
      rewrite deref_assign_same; simpl;
      repeat split; try assumption.
    all: destruct p, q; try congruence; reflexivity.
Qed.

Lemma hw_buftype_after_notify (hw : hw_t) (b : option v4l2_buffer)
    (cancel : bool) :
  hw_buftype (if cancel then cancel_dma hw
              else match b with
                   | None => cancel_dma hw
                   | Some b' => set_dmabuf hw b'
                   end)
  = hw_buftype hw.
Proof. destruct cancel, b; reflexivity. Qed.

Lemma video_common_notify_dma_done_owner
    (err_code datasize ret : Z) (vmng vmng' : video_mng_t) (hw hw' : hw_t) :
  dma_owner (vmng, hw) ->
  video_common_notify_dma_done err_code datasize vmng hw
  = Some (ret, vmng', hw') ->
  dma_owner (vmng', hw').
Proof.
  intros Hown Hirq.
  destruct (get_video_type_inf (get_buftype hw)) as [p |] eqn:Hptr.
  2:{ unfold video_common_notify_dma_done in Hirq. rewrite Hptr in Hirq.
      injection Hirq as _ <- <-. exact Hown. }
  destruct (vbuf_dma (bufinf (deref vmng p))) as [c |] eqn:Hdma.
  2:{ unfold video_common_notify_dma_done in Hirq.
      rewrite Hptr, Hdma in Hirq. discriminate. }
  destruct (notify_dma_done_effect err_code datasize vmng hw p c Hptr Hdma)
    as (m & h & Heq & _ & Hstate & Hvbuf & _ & Hhw & Hother).
  rewrite Heq in Hirq. injection Hirq as _ <- <-.
  assert (Htype : hw_buftype h = hw_buftype hw).
  { rewrite Hhw.
    destruct (_ =? 0), (vbuf_queued (bufinf (deref vmng p))); reflexivity. }
  destruct Hown as [Hv Hs]. unfold dma_owner. rewrite Htype.
  destruct p.
  - destruct (Hother PTR_STILL_INF ltac:(discriminate)) as (Hs1 & _ & Hs3).
    cbn [deref] in *. split.
    + intros Hnow. rewrite Hnow in Hstate. rewrite Hvbuf.
      destruct (_ =? 0); [discriminate |].
      destruct (vbuf_queued (bufinf (video_inf vmng))) as [| b q];
        [discriminate |].
      destruct (Hv (eq_sym Hstate)) as (? & ? & _).
      repeat split; try congruence. simpl. discriminate.
    + intros Hnow. rewrite Hs1 in Hnow. rewrite Hs3. now apply Hs.
  - destruct (Hother PTR_VIDEO_INF ltac:(discriminate)) as (Hv1 & _ & Hv3).
    unfold get_buftype in Hptr.
    cbn [deref] in *. split.
    + intros Hnow. rewrite Hv1 in Hnow.
      destruct (Hv Hnow) as (_ & Hvideo & _).
      rewrite Hvideo in Hptr. discriminate.
    + intros Hnow. rewrite Hnow in Hstate. rewrite Hvbuf.
      destruct (_ =? 0); [discriminate |].
      destruct (vbuf_queued (bufinf (still_inf vmng))) as [| b q];
        [discriminate |].
      destruct (Hs (eq_sym Hstate)) as (Hstill & _).
      split; [assumption | simpl; discriminate].
Qed.

Lemma exec_owner (c : video_call) (s s' : video_mng_t * hw_t) :
  no_aliased_qbuf c = true ->
  dma_owner s -> exec c s = Some s' -> dma_owner s'.
Proof.
  destruct s as [vmng hw]. intros Hplain Hown Hexec.
  destruct c; cbn [exec] in Hexec.
  - pose proof (video_open_owner vmng hw sens_ret img_ret Hown) as H.
    destruct (video_open vmng hw sens_ret img_ret) as [[r m] h].
    now injection Hexec as <-.
  - pose proof (video_close_owner vmng hw Hown) as H.
    destruct (video_close vmng hw) as [[r m] h]. now injection Hexec as <-.
  - injection Hexec as <-. now apply video_reqbufs_owner.
  - cbn [no_aliased_qbuf] in Hplain. apply negb_true_iff in Hplain.
    pose proof (video_qbuf_owner vmng hw buf Hplain Hown) as H.
    destruct (video_qbuf vmng hw buf) as [[r m] h]. now injection Hexec as <-.
  - pose proof (video_dqbuf_owner vmng hw type Hown) as H.
    destruct (video_dqbuf vmng hw type) as [[r m] h].
    now injection Hexec as <-.
  - destruct (get_video_type_inf type) as [p |];
      [| now injection Hexec as <-].
    pose proof (video_dqbuf_wake_owner vmng hw type p Hown) as H.
    destruct (video_dqbuf_wake vmng hw type p) as [[r m] h].
    now injection Hexec as <-.
  - injection Hexec as <-. now apply video_cancel_dqbuf_owner.
  - pose proof (video_streamon_owner vmng hw type Hown) as H.
    destruct (video_streamon vmng hw type) as [[r m] h].
    now injection Hexec as <-.
  - pose proof (video_streamoff_owner vmng hw type Hown) as H.
    destruct (video_streamoff vmng hw type) as [[r m] h].
    now injection Hexec as <-.
  - pose proof (video_takepict_start_owner vmng hw capture_num Hown) as H.
    destruct (video_takepict_start vmng hw capture_num) as [[r m] h].
    now injection Hexec as <-.
  - pose proof (video_takepict_stop_owner vmng hw halfpush Hown) as H.
    destruct (video_takepict_stop vmng hw halfpush) as [[r m] h].
    now injection Hexec as <-.
  - destruct (video_common_notify_dma_done err_code datasize vmng hw)
      as [[[r m] h] |] eqn:Hirq; [| discriminate].
    injection Hexec as <-.
    exact (video_common_notify_dma_done_owner _ _ _ _ _ _ _ Hown Hirq).
Qed.

Lemma exec_all_owner (calls : list video_call) :
  forall s s' : video_mng_t * hw_t,
    forallb no_aliased_qbuf calls = true ->
    dma_owner s -> exec_all calls s = Some s' -> dma_owner s'.
Proof.
  induction calls as [| c calls IH]; intros s s' Hplain Hown Hrun;
    cbn [exec_all forallb] in *.
  - now injection Hrun as <-.
  - apply andb_true_iff in Hplain as [Hc Hcalls].
    destruct (exec c s) as [s1 |] eqn:Hexec; [| discriminate].
    exact (IH s1 s' Hcalls (exec_owner c s s1 Hc Hown Hexec) Hrun).
Qed.

Lemma dma_owner_idle (vmng : video_mng_t) (hw : hw_t) :
  state (video_inf vmng) <> VIDEO_STATE_DMA ->
  state (still_inf vmng) <> VIDEO_STATE_DMA ->
  dma_owner (vmng, hw).
Proof. intros Hv Hs. split; intros H; congruence. Qed.

(** X1.  Start with neither stream in DMA and let any sequence of opens,
    closes, ioctl calls and DMA completions run in which no QBUF carries a
    buffer type that aliases a stream.  Then the video stream is never in
    DMA while the still stream is in STREAMON or DMA; the two streams are
    never in DMA together. *)
Theorem dma_is_never_shared :
  forall (calls : list video_call)
         (vmng vmng' : video_mng_t) (hw hw' : hw_t),
    forallb no_aliased_qbuf calls = true ->
    state (video_inf vmng) <> VIDEO_STATE_DMA ->
    state (still_inf vmng) <> VIDEO_STATE_DMA ->
    exec_all calls (vmng, hw) = Some (vmng', hw') ->
    (state (still_inf vmng') <> VIDEO_STATE_STREAMOFF ->
     state (video_inf vmng') <> VIDEO_STATE_DMA)
    /\ ~ (state (video_inf vmng') = VIDEO_STATE_DMA
          /\ state (still_inf vmng') = VIDEO_STATE_DMA).
Proof.
  intros calls vmng vmng' hw hw' Hplain Hv Hs Hrun.
  pose proof (exec_all_owner calls _ _ Hplain (dma_owner_idle vmng hw Hv Hs)
                Hrun) as Hown.
  split.
  - now apply (dma_owner_video_off_of_still vmng' hw').
  - intros [Hvideo Hstill]. destruct Hown as [Hown _].
    destruct (Hown Hvideo) as (Hoff & _). congruence.
Qed.

(** X2.  In every state reached that way, a stream in DMA is the one the
    sensor's buffer type names and has a dma-current container: the DMA-done
    callback resolves to it and returns OK, whatever error code and size it
    reports; it never writes through a NULL container. *)
Theorem notify_dma_done_finds_its_stream :
  forall (calls : list video_call)
         (vmng vmng' : video_mng_t) (hw hw' : hw_t)
         (p : type_inf_ptr) (err_code datasize : Z),
    forallb no_aliased_qbuf calls = true ->
    state (video_inf vmng) <> VIDEO_STATE_DMA ->
    state (still_inf vmng) <> VIDEO_STATE_DMA ->
    exec_all calls (vmng, hw) = Some (vmng', hw') ->
    state (deref vmng' p) = VIDEO_STATE_DMA ->
    get_buftype hw' = match p with
                      | PTR_VIDEO_INF => V4L2_BUF_TYPE_VIDEO_CAPTURE
                      | PTR_STILL_INF => V4L2_BUF_TYPE_STILL_CAPTURE
                      end
    /\ get_video_type_inf (get_buftype hw') = Some p
    /\ vbuf_dma (bufinf (deref vmng' p)) <> None
    /\ exists (vmng'' : video_mng_t) (hw'' : hw_t),
         video_common_notify_dma_done err_code datasize vmng' hw'
         = Some (OK, vmng'', hw'').
Proof.
  intros calls vmng vmng' hw hw' p err_code datasize Hplain Hv Hs Hrun Hdma.
  pose proof (exec_all_owner calls _ _ Hplain (dma_owner_idle vmng hw Hv Hs)
                Hrun) as [Hvideo Hstill].
  assert (Hfind : get_buftype hw'
                  = match p with
                    | PTR_VIDEO_INF => V4L2_BUF_TYPE_VIDEO_CAPTURE
                    | PTR_STILL_INF => V4L2_BUF_TYPE_STILL_CAPTURE
                    end
                  /\ vbuf_dma (bufinf (deref vmng' p)) <> None).
  { unfold get_buftype. destruct p; cbn [deref] in *.
    - destruct (Hvideo Hdma) as (_ & -> & ?). now split.
    - destruct (Hstill Hdma) as (-> & ?). now split. }
  destruct Hfind as [Htype Hsome].
  assert (Hptr : get_video_type_inf (get_buftype hw') = Some p)
    by (rewrite Htype; now destruct p).
  repeat split; try assumption.
  destruct (vbuf_dma (bufinf (deref vmng' p))) as [c |] eqn:Hc;
    [| congruence].
  destruct (notify_dma_done_effect err_code datasize vmng' hw' p c Hptr Hc)
    as (m & h & Heq & _).
  now exists m, h.
Qed.

Lemma dma_is_never_shared_witness :
  exec_all preempting_calls (registered, hw_idle) = Some preempted
  /\ state (still_inf (fst preempted)) = VIDEO_STATE_DMA
  /\ state (video_inf (fst preempted)) = VIDEO_STATE_STREAMON
  /\ (state (still_inf (fst preempted)) <> VIDEO_STATE_STREAMOFF ->
      state (video_inf (fst preempted)) <> VIDEO_STATE_DMA)
  /\ ~ (state (video_inf (fst preempted)) = VIDEO_STATE_DMA
        /\ state (still_inf (fst preempted)) = VIDEO_STATE_DMA).
Proof.
  split; [reflexivity |].
  split; [reflexivity |]. split; [reflexivity |].
  apply (dma_is_never_shared preempting_calls registered (fst preempted)
                             hw_idle (snd preempted));
    [reflexivity | discriminate | discriminate | reflexivity].
Defined.

Lemma notify_dma_done_finds_its_stream_witness :
  exec_all preempting_calls (registered, hw_idle) = Some preempted
  /\ get_buftype (snd preempted) = V4L2_BUF_TYPE_STILL_CAPTURE
  /\ get_video_type_inf (get_buftype (snd preempted)) = Some PTR_STILL_INF
  /\ vbuf_dma (bufinf (deref (fst preempted) PTR_STILL_INF)) <> None
  /\ exists (vmng'' : video_mng_t) (hw'' : hw_t),
       video_common_notify_dma_done 1 0 (fst preempted) (snd preempted)
       = Some (OK, vmng'', hw'').
Proof.
  split; [reflexivity |].
  apply (notify_dma_done_finds_its_stream
           preempting_calls registered (fst preempted) hw_idle (snd preempted)
           PTR_STILL_INF 1 0);
    [reflexivity | discriminate | discriminate | reflexivity | reflexivity].
Defined.

(** ** STREAMON and STREAMOFF on the video stream *)

(** X3.  [video_streamon] on the video stream returns NOT_PERMITTED and
    changes nothing unless the stream is in STREAMOFF.  From STREAMOFF it
    returns OK and never touches the still stream; it starts DMA on the head
    of the video queue when the still stream is off and a buffer is queued,
    and otherwise parks the stream in STREAMON without a call to the
    hardware. *)
Theorem video_streamon_spec :
  forall (vmng : video_mng_t) (hw : hw_t),
    let '(ret, vmng', hw') :=
      video_streamon vmng hw V4L2_BUF_TYPE_VIDEO_CAPTURE in
    match state (video_inf vmng) with
    | VIDEO_STATE_STREAMOFF =>
        ret = OK
        /\ still_inf vmng' = still_inf vmng
        /\ open_num vmng' = open_num vmng
        /\ match state (still_inf vmng),
                 vbuf_queued (bufinf (video_inf vmng)) with
           | VIDEO_STATE_STREAMOFF, b :: q =>
               state (video_inf vmng') = VIDEO_STATE_DMA
               /\ vbuf_dma (bufinf (video_inf vmng')) = Some b
               /\ vbuf_queued (bufinf (video_inf vmng')) = q
               /\ hw' = start_dma hw V4L2_BUF_TYPE_VIDEO_CAPTURE b
           | _, _ =>
               state (video_inf vmng') = VIDEO_STATE_STREAMON
               /\ bufinf (video_inf vmng') = bufinf (video_inf vmng)
               /\ hw' = hw
           end
    | _ => ret = - EPERM /\ vmng' = vmng /\ hw' = hw
    end.
Proof.
  intros vmng hw.
  unfold video_streamon, change_video_state, estimate_next_video_state,
    is_taking_still_picture, video_framebuff_get_dma_container.
  cbn [get_video_type_inf is_video_capture negb deref].
  destruct (state (video_inf vmng)) eqn:Hv; cbn;
    try (repeat split; reflexivity).
  destruct (state (still_inf vmng)) eqn:Hs; cbn; rewrite ?Hv; cbn;
    try (repeat split; reflexivity).
  destruct (vbuf_queued (bufinf (video_inf vmng))) as [| b q]; cbn;
    repeat split; reflexivity.
Qed.

(** X4.  [video_streamoff] on the video stream returns NOT_PERMITTED and
    changes nothing when the stream is in STREAMOFF already.  Otherwise it
    returns OK and switches the stream to STREAMOFF; it cancels DMA exactly
    when the stream was in DMA, and it leaves both queues as they are: what
    was queued, done or dma-current stays so. *)
Theorem video_streamoff_spec :
  forall (vmng : video_mng_t) (hw : hw_t),
    let '(ret, vmng', hw') :=
      video_streamoff vmng hw V4L2_BUF_TYPE_VIDEO_CAPTURE in
    match state (video_inf vmng) with
    | VIDEO_STATE_STREAMOFF => ret = - EPERM /\ vmng' = vmng /\ hw' = hw
    | s =>
        ret = OK
        /\ vmng' = set_video_inf vmng
                     (set_state (video_inf vmng) VIDEO_STATE_STREAMOFF)
        /\ hw' = (if video_state_eqb s VIDEO_STATE_DMA
                  then cancel_dma hw else hw)
    end.
Proof.
  intros vmng hw.
  unfold video_streamoff, change_video_state, estimate_next_video_state.
  cbn [get_video_type_inf is_video_capture negb deref].
  destruct (state (video_inf vmng)) eqn:Hv; cbn; repeat split; reflexivity.
Qed.

Lemma get_video_type_inf_other (raw : Z) :
  raw mod 256 <> VIDEO_CAPTURE_value ->
  raw mod 256 <> STILL_CAPTURE_value ->
  get_video_type_inf (V4L2_BUF_TYPE_OTHER raw) = None.
Proof.
  intros Hv Hs. cbn [get_video_type_inf].
  destruct (Z.eqb_spec (raw mod 256) VIDEO_CAPTURE_value); [contradiction |].
  destruct (Z.eqb_spec (raw mod 256) STILL_CAPTURE_value); [contradiction |].
  reflexivity.
Qed.

(** X5.  A buffer type whose low eight bits are neither the value of the
    video capture type nor that of the still capture type is an invalid
    argument for REQBUFS, QBUF, DQBUF, CANCEL_DQBUF, STREAMON and STREAMOFF,
    and for the DMA-done callback when the sensor reports it: each returns
    [- EINVAL] and leaves the manager and the hardware untouched. *)
Theorem unknown_buf_type_is_invalid :
  forall (raw : Z) (vmng : video_mng_t) (hw : hw_t)
         (req_mode : v4l2_buf_mode) (count : Z)
         (idx bytesused flags userptr len : Z)
         (calls : list hw_call) (err_code datasize : Z),
    raw mod 256 <> VIDEO_CAPTURE_value ->
    raw mod 256 <> STILL_CAPTURE_value ->
    let type := V4L2_BUF_TYPE_OTHER raw in
    let buf := mk_v4l2_buffer idx type bytesused flags userptr len in
    let sensor := mk_hw type calls in
    video_reqbufs vmng type req_mode count = (- EINVAL, vmng)
    /\ video_qbuf vmng hw buf = (- EINVAL, vmng, hw)
    /\ video_dqbuf vmng hw type = (DQBUF_RETURN (- EINVAL) None, vmng, hw)
    /\ video_cancel_dqbuf vmng type = (- EINVAL, vmng)
    /\ video_streamon vmng hw type = (- EINVAL, vmng, hw)
    /\ video_streamoff vmng hw type = (- EINVAL, vmng, hw)
    /\ video_common_notify_dma_done err_code datasize vmng sensor
       = Some (- EINVAL, vmng, sensor).
Proof.
  intros raw vmng hw req_mode count idx bytesused flags userptr len calls
         err_code datasize Hv Hs type buf sensor.
  pose proof (get_video_type_inf_other raw Hv Hs) as Hnone.
  unfold video_reqbufs, video_qbuf, video_dqbuf, video_cancel_dqbuf,
    video_streamon, video_streamoff, video_common_notify_dma_done.
  subst buf sensor type. cbn [buf_type get_buftype hw_buftype].
  rewrite Hnone. repeat split.
Qed.

Lemma unknown_buf_type_is_invalid_witness :
  video_qbuf opened_once hw_idle
    (mk_v4l2_buffer 0 (V4L2_BUF_TYPE_OTHER 2) 0 0 4096 1024)
  = (- EINVAL, opened_once, hw_idle)
  /\ video_streamon opened_once hw_idle (V4L2_BUF_TYPE_OTHER 2)
     = (- EINVAL, opened_once, hw_idle).
Proof.
  destruct (unknown_buf_type_is_invalid 2 opened_once hw_idle
              V4L2_BUF_MODE_RING 0 0 0 0 4096 1024 [] 0 0)
    as (_ & Hq & _ & _ & Hon & _).
  - discriminate.
  - discriminate.
  - split; [exact Hq | exact Hon].
Defined.

(** X22.  A buffer type that is not the video capture type but agrees with
    it in its low eight bits reaches the video stream.  REQBUFS and
    CANCEL_DQBUF do with it what they do with the video capture type;
    STREAMON and STREAMOFF take it for the still capture type and return OK
    without doing anything.  QBUF with such a type on a video stream in
    STREAMON does not ask the Arbiter: it starts a transfer on the oldest
    queued buffer and puts the video stream in DMA, with the sensor's buffer
    type set to the value given - also while a still capture has its own
    transfer under way. *)
Theorem aliased_type_reaches_video_stream :
  forall (raw : Z) (vmng : video_mng_t) (hw : hw_t)
         (req_mode : v4l2_buf_mode) (count : Z)
         (idx bytesused flags userptr len : Z) (k : nat),
    raw mod 256 = VIDEO_CAPTURE_value ->
    raw <> VIDEO_CAPTURE_value ->
    state (video_inf vmng) = VIDEO_STATE_STREAMON ->
    vbuf_free (bufinf (video_inf vmng)) = S k ->
    let type := V4L2_BUF_TYPE_OTHER raw in
    let buf := mk_v4l2_buffer idx type bytesused flags userptr len in
    let head := hd buf (vbuf_queued (bufinf (video_inf vmng)) ++ [buf]) in
    video_reqbufs vmng type req_mode count
    = video_reqbufs vmng V4L2_BUF_TYPE_VIDEO_CAPTURE req_mode count
    /\ video_cancel_dqbuf vmng type
       = video_cancel_dqbuf vmng V4L2_BUF_TYPE_VIDEO_CAPTURE
    /\ video_streamon vmng hw type = (OK, vmng, hw)
    /\ video_streamoff vmng hw type = (OK, vmng, hw)
    /\ exists vmng' : video_mng_t,
         video_qbuf vmng hw buf = (OK, vmng', start_dma hw type head)
         /\ state (video_inf vmng') = VIDEO_STATE_DMA
         /\ vbuf_dma (bufinf (video_inf vmng')) = Some head
         /\ still_inf vmng' = still_inf vmng
         /\ get_buftype (start_dma hw type head) = type.
Proof.
  intros raw vmng hw req_mode count idx bytesused flags userptr len k
         Hlow Hraw Hstate Hfree type buf head.
  assert (Hptr : get_video_type_inf type = Some PTR_VIDEO_INF).
  { subst type. cbn [get_video_type_inf]. rewrite Hlow. reflexivity. }
  split; [| split; [| split; [| split]]].
  - unfold video_reqbufs. now rewrite Hptr.
  - unfold video_cancel_dqbuf. now rewrite Hptr.
  - unfold video_streamon. now rewrite Hptr.
  - unfold video_streamoff. now rewrite Hptr.
  - unfold video_qbuf, video_framebuff_get_container.
    change (buf_type buf) with type. rewrite Hptr.
    cbn [is_bufsize_sufficient negb deref]. rewrite Hfree.
    cbn [deref assign set_video_inf video_inf state set_bufinf].
    rewrite Hstate. cbn [video_state_eqb is_video_capture type].
    unfold video_framebuff_get_dma_container, video_framebuff_queue_container.
    cbn [vbuf_queued bufinf]. subst head.
    destruct (vbuf_queued (bufinf (video_inf vmng))) as [| b q];
      eexists; repeat split.
Qed.

Lemma aliased_type_reaches_video_stream_witness :
  state (still_inf (fst still_over_waiting_video)) = VIDEO_STATE_DMA
  /\ state (video_inf (fst still_over_waiting_video)) = VIDEO_STATE_STREAMON
  /\ exists vmng' : video_mng_t,
       video_qbuf (fst still_over_waiting_video)
                  (snd still_over_waiting_video)
                  (mk_v4l2_buffer 0 (V4L2_BUF_TYPE_OTHER 257) 0 0 8192 1024)
       = (OK, vmng',
          start_dma (snd still_over_waiting_video) (V4L2_BUF_TYPE_OTHER 257)
                    (mk_v4l2_buffer 0 (V4L2_BUF_TYPE_OTHER 257)
                                    0 0 8192 1024))
       /\ state (video_inf vmng') = VIDEO_STATE_DMA
       /\ state (still_inf vmng') = VIDEO_STATE_DMA.
Proof.
  split; [reflexivity |]. split; [reflexivity |].
  destruct (aliased_type_reaches_video_stream
              257 (fst still_over_waiting_video)
              (snd still_over_waiting_video) V4L2_BUF_MODE_RING 0
              0 0 0 8192 1024 1)
    as (_ & _ & _ & _ & vmng' & Hq & Hstate & _ & Hstill & _).
  - reflexivity.
  - discriminate.
  - reflexivity.
  - reflexivity.
  - exists vmng'. split; [exact Hq |]. split; [exact Hstate |].
    rewrite Hstill. reflexivity.
Defined.

(** ** QBUF and DQBUF *)

(** X6.  [video_qbuf] on a stream without a free container returns
    [- ENOMEM] and changes nothing.  Otherwise it returns OK, takes one free
    container and appends the buffer to the queue.  A stream in STREAMON
    goes to DMA at once, on the oldest queued buffer - under the video
    capture type only while no still capture is on, under any other type
    that resolves to it always; in every other case the buffer waits and the
    hardware is not touched.  The other stream is never touched. *)
Theorem video_qbuf_spec :
  forall (vmng : video_mng_t) (hw : hw_t) (buf : v4l2_buffer)
         (p : type_inf_ptr),
    get_video_type_inf (buf_type buf) = Some p ->
    let t := deref vmng p in
    let all := vbuf_queued (bufinf t) ++ [buf] in
    let starts :=
      video_state_eqb (state t) VIDEO_STATE_STREAMON
      && (negb (is_video_capture (buf_type buf))
          || negb (is_taking_still_picture vmng)) in
    let '(ret, vmng', hw') := video_qbuf vmng hw buf in
    let t' := deref vmng' p in
    match vbuf_free (bufinf t) with
    | O => ret = - ENOMEM /\ vmng' = vmng /\ hw' = hw
    | S k =>
        ret = OK
        /\ vbuf_free (bufinf t') = k
        /\ (forall q : type_inf_ptr, q <> p -> deref vmng' q = deref vmng q)
        /\ if starts
           then state t' = VIDEO_STATE_DMA
                /\ vbuf_dma (bufinf t') = hd_error all
                /\ vbuf_queued (bufinf t') = tl all
                /\ hw' = start_dma hw (buf_type buf) (hd buf all)
           else state t' = state t
                /\ vbuf_dma (bufinf t') = vbuf_dma (bufinf t)
                /\ vbuf_queued (bufinf t') = all
                /\ hw' = hw
    end.
Proof.
  intros vmng hw buf p Hptr. cbv zeta.
  unfold video_qbuf, video_framebuff_get_container. rewrite Hptr.
  cbn [is_bufsize_sufficient negb].
  destruct (vbuf_free (bufinf (deref vmng p))) as [| k] eqn:Hfree;
    [repeat split; reflexivity |].
  rewrite deref_assign_same. cbn [state set_bufinf].
  destruct (state (deref vmng p)) eqn:Hstate; cbn [video_state_eqb andb].
  1, 3: rewrite deref_assign_same; cbn;
        repeat split; try reflexivity; try congruence;
        intros q Hne; destruct p, q; try congruence; reflexivity.
  destruct vmng as [num [vs vr vw vb] [ss sr sw sb]].
  destruct (is_video_capture (buf_type buf)) eqn:Hvid; cbn [negb orb].
  - (* the video capture type *)
    assert (Htype : buf_type buf = V4L2_BUF_TYPE_VIDEO_CAPTURE)
      by (destruct (buf_type buf); try discriminate; reflexivity).
    rewrite Htype in Hptr. injection Hptr as <-. rewrite Htype.
    cbn in Hstate, Hfree; subst.
    unfold change_video_state, estimate_next_video_state,
      is_taking_still_picture, video_framebuff_get_dma_container.
    destruct vb as [vm vc vf vq vd vdn]; cbn in Hfree; subst.
    destruct ss, vq as [| b q']; cbn;
      repeat split; try reflexivity;
      intros q Hne; destruct q; try congruence; reflexivity.
  - (* any other type, on the stream it resolves to *)
    clear Hptr Hvid. generalize (buf_type buf). intros type.
    unfold video_framebuff_get_dma_container.
    destruct p; cbn in Hstate, Hfree; subst.
    + destruct vb as [vm vc vf vq vd vdn]; cbn in Hfree; subst.
      destruct vq as [| b q']; cbn;
        repeat split; try reflexivity;
        intros q Hne; destruct q; try congruence; reflexivity.
    + destruct sb as [sm sc sf sq sd sdn]; cbn in Hfree; subst.
      destruct sq as [| b q']; cbn;
        repeat split; try reflexivity;
        intros q Hne; destruct q; try congruence; reflexivity.
Qed.

Lemma video_qbuf_spec_witness :
  let '(ret, vmng', hw') :=
    video_qbuf (fst video_waiting_for_buffer) (snd video_waiting_for_buffer)
               (video_buffer 0) in
  ret = OK
  /\ state (video_inf vmng') = VIDEO_STATE_DMA
  /\ vbuf_dma (bufinf (video_inf vmng')) = Some (video_buffer 0)
  /\ hw' = start_dma hw_idle V4L2_BUF_TYPE_VIDEO_CAPTURE (video_buffer 0).
Proof.
  pose proof (video_qbuf_spec (fst video_waiting_for_buffer)
                (snd video_waiting_for_buffer) (video_buffer 0)
                PTR_VIDEO_INF eq_refl) as W.
  vm_compute in W. destruct W as (Hret & _ & _ & Hstate & Hdma & _ & Hhw).
  vm_compute. repeat split; assumption.
Defined.

(** X7.  [video_dqbuf] on a stream that has a completed buffer returns OK
    with the oldest one at once, gives its container back and touches
    nothing else.  With no completed buffer and no post left on the
    rendezvous it suspends the caller, one down on the semaphore.  On its
    way into the wait a dequeue of the video capture type starts DMA on the
    head of the video queue if the stream is in STREAMON, the still stream
    is off and a buffer is queued; a dequeue of any other type starts
    nothing. *)
Theorem video_dqbuf_spec :
  forall (vmng : video_mng_t) (hw : hw_t) (type : v4l2_buf_type)
         (p : type_inf_ptr),
    get_video_type_inf type = Some p ->
    (vbuf_done (bufinf (deref vmng p)) = [] ->
     dqbuf_wait_flg (wait_dma (deref vmng p)) <= 0) ->
    let t := deref vmng p in
    let '(r, vmng', hw') := video_dqbuf vmng hw type in
    match vbuf_done (bufinf t) with
    | b :: d =>
        r = DQBUF_RETURN OK (Some b)
        /\ hw' = hw
        /\ vmng' = assign vmng p
                     (set_bufinf t
                        (mk_framebuff (mode (bufinf t))
                           (container_size (bufinf t))
                           (S (vbuf_free (bufinf t)))
                           (vbuf_queued (bufinf t)) (vbuf_dma (bufinf t)) d))
    | [] =>
        r = DQBUF_SUSPENDED
        /\ dqbuf_wait_flg (wait_dma (deref vmng' p))
           = dqbuf_wait_flg (wait_dma t) - 1
        /\ still_inf vmng'
           = match p with
             | PTR_VIDEO_INF => still_inf vmng
             | PTR_STILL_INF =>
                 set_wait_dma (still_inf vmng)
                              (nxsem_wait (wait_dma (still_inf vmng)))
             end
        /\ match is_video_capture type, state (video_inf vmng),
                 state (still_inf vmng),
                 vbuf_queued (bufinf (video_inf vmng)) with
           | true, VIDEO_STATE_STREAMON, VIDEO_STATE_STREAMOFF, b :: q =>
               state (video_inf vmng') = VIDEO_STATE_DMA
               /\ vbuf_dma (bufinf (video_inf vmng')) = Some b
               /\ vbuf_queued (bufinf (video_inf vmng')) = q
               /\ hw' = start_dma hw V4L2_BUF_TYPE_VIDEO_CAPTURE b
           | _, _, _, _ =>
               state (video_inf vmng') = state (video_inf vmng)
               /\ bufinf (video_inf vmng') = bufinf (video_inf vmng)
               /\ hw' = hw
           end
    end.
Proof.
  intros vmng hw type p Hptr Hpost. cbv zeta.
  unfold video_dqbuf, video_framebuff_dq_valid_container. rewrite Hptr.
  destruct (vbuf_done (bufinf (deref vmng p))) as [| b d] eqn:Hdone;
    [| repeat split; reflexivity].
  specialize (Hpost eq_refl).
  replace (Z.to_nat (dqbuf_wait_flg (wait_dma (deref vmng p)))) with O by lia.
  cbn [video_dqbuf_wait].
  destruct vmng as [num [vs vr vw vb] [ss sr sw sb]].
  destruct (is_video_capture type) eqn:Hvid.
  - assert (Htype : type = V4L2_BUF_TYPE_VIDEO_CAPTURE)
      by (destruct type; try discriminate; reflexivity).
    subst type. injection Hptr as <-.
    unfold change_video_state, estimate_next_video_state,
      is_taking_still_picture, video_framebuff_get_dma_container.
    destruct vb as [vm vc vf vq vd vdn].
    destruct vs, ss, vq as [| b q]; cbn; repeat split; reflexivity.
  - clear Hptr Hvid.
    destruct p, vs, ss, (vbuf_queued vb); cbn; repeat split; reflexivity.
Qed.

Lemma video_dqbuf_spec_witness :
  fst (fst (video_dqbuf (fst video_waiting_for_buffer)
                        (snd video_waiting_for_buffer)
                        V4L2_BUF_TYPE_VIDEO_CAPTURE))
  = DQBUF_SUSPENDED.
Proof.
  pose proof (video_dqbuf_spec (fst video_waiting_for_buffer)
                (snd video_waiting_for_buffer) V4L2_BUF_TYPE_VIDEO_CAPTURE
                PTR_VIDEO_INF eq_refl) as W.
  assert (Hpost : vbuf_done
                    (bufinf (deref (fst video_waiting_for_buffer)
                                   PTR_VIDEO_INF)) = [] ->
                  dqbuf_wait_flg
                    (wait_dma (deref (fst video_waiting_for_buffer)
                                     PTR_VIDEO_INF)) <= 0)
    by (intros _; vm_compute; discriminate).
  specialize (W Hpost). cbv zeta in W.
  destruct (video_dqbuf _ _ _) as [[r m] h].
  vm_compute in W. destruct W as (Hr & _). exact Hr.
Defined.

(** ** The DMA-done callback, continued *)

(** X8.  On a resolved stream with a dma-current container the DMA-done
    callback returns OK and makes exactly one call to the pipeline, never a
    start.  When no capture is left it cancels the transfer and switches the
    stream to STREAMOFF; when captures are left it programs the head of the
    queue as the next buffer and keeps the state, or, with an empty queue,
    cancels the transfer and falls back to STREAMON.  State, remaining
    captures and queue of the other stream stay as they are. *)
Theorem video_common_notify_dma_done_spec :
  forall (err_code datasize : Z) (vmng : video_mng_t) (hw : hw_t)
         (p : type_inf_ptr) (c : v4l2_buffer),
    get_video_type_inf (get_buftype hw) = Some p ->
    vbuf_dma (bufinf (deref vmng p)) = Some c ->
    let t := deref vmng p in
    let remaining :=
      if (err_code =? 0) && (0 <? remaining_capnum t)
      then remaining_capnum t - 1 else remaining_capnum t in
    let queued := vbuf_queued (bufinf t) in
    exists (vmng' : video_mng_t) (hw' : hw_t),
      video_common_notify_dma_done err_code datasize vmng hw
      = Some (OK, vmng', hw')
      /\ remaining_capnum (deref vmng' p) = remaining
      /\ state (deref vmng' p)
         = (if remaining =? 0 then VIDEO_STATE_STREAMOFF
            else match queued with
                 | [] => VIDEO_STATE_STREAMON
                 | _ :: _ => state t
                 end)
      /\ vbuf_dma (bufinf (deref vmng' p))
         = (if remaining =? 0 then None else hd_error queued)
      /\ vbuf_queued (bufinf (deref vmng' p))
         = (if remaining =? 0 then queued else tl queued)
      /\ hw'
         = (if remaining =? 0 then cancel_dma hw
            else match queued with
                 | [] => cancel_dma hw
                 | b :: _ => set_dmabuf hw b
                 end)
      /\ forall q : type_inf_ptr,
           q <> p ->
           state (deref vmng' q) = state (deref vmng q)
           /\ remaining_capnum (deref vmng' q)
              = remaining_capnum (deref vmng q)
           /\ bufinf (deref vmng' q) = bufinf (deref vmng q).
Proof.
  intros err_code datasize vmng hw p c Hptr Hdma.
  exact (notify_dma_done_effect err_code datasize vmng hw p c Hptr Hdma).
Qed.

Lemma video_common_notify_dma_done_spec_witness :
  exists (vmng' : video_mng_t) (hw' : hw_t),
    video_common_notify_dma_done 0 4096 (fst still_over_idle_video)
                                 (snd still_over_idle_video)
    = Some (OK, vmng', hw')
    /\ remaining_capnum (still_inf vmng') = 0
    /\ state (still_inf vmng') = VIDEO_STATE_STREAMOFF
    /\ hw' = cancel_dma (snd still_over_idle_video).
Proof.
  destruct (video_common_notify_dma_done_spec
              0 4096 (fst still_over_idle_video) (snd still_over_idle_video)
              PTR_STILL_INF still_buffer eq_refl eq_refl)
    as (m & h & Heq & Hrem & Hstate & _ & _ & Hhw & _).
  exists m, h. repeat split; assumption.
Defined.

(** X9.  The last frame of a still capture hands the DMA engine back to a
    video dequeue that waits for it.  The still stream is on its last
    capture, the video stream stands in STREAMON with a buffer queued and a
    dequeue suspended on it.  The completion switches the still stream off
    and wakes the video dequeue with the cause STILLSTOP; the dequeue does
    not return: it starts video DMA on the head of the video queue and is
    suspended again. *)
Theorem still_completion_resumes_video :
  forall (datasize : Z) (vmng : video_mng_t) (hw : hw_t)
         (c b : v4l2_buffer) (q : list v4l2_buffer),
    get_buftype hw = V4L2_BUF_TYPE_STILL_CAPTURE ->
    vbuf_dma (bufinf (still_inf vmng)) = Some c ->
    remaining_capnum (still_inf vmng) = 1 ->
    state (video_inf vmng) = VIDEO_STATE_STREAMON ->
    vbuf_queued (bufinf (video_inf vmng)) = b :: q ->
    dqbuf_wait_flg (wait_dma (video_inf vmng)) < 0 ->
    exists (vmng1 vmng2 : video_mng_t) (hw1 : hw_t),
      video_common_notify_dma_done 0 datasize vmng hw = Some (OK, vmng1, hw1)
      /\ state (still_inf vmng1) = VIDEO_STATE_STREAMOFF
      /\ state (video_inf vmng1) = VIDEO_STATE_STREAMON
      /\ waitend_cause (wait_dma (video_inf vmng1))
         = VIDEO_WAITEND_CAUSE_STILLSTOP
      /\ hw1 = cancel_dma hw
      /\ video_dqbuf_wake vmng1 hw1 V4L2_BUF_TYPE_VIDEO_CAPTURE PTR_VIDEO_INF
         = (DQBUF_SUSPENDED, vmng2,
            start_dma hw1 V4L2_BUF_TYPE_VIDEO_CAPTURE b)
      /\ state (video_inf vmng2) = VIDEO_STATE_DMA
      /\ vbuf_dma (bufinf (video_inf vmng2)) = Some b
      /\ vbuf_queued (bufinf (video_inf vmng2)) = q
      /\ dqbuf_wait_flg (wait_dma (video_inf vmng2))
         = dqbuf_wait_flg (wait_dma (video_inf vmng)).
Proof.
  intros datasize vmng hw c b q Hhw Hdma Hrem Hvideo Hqueued Hwait.
  destruct vmng as [num [vs vr [vcount vdone vcause] vb]
                        [ss sr [scount sdone scause] sb]].
  destruct vb as [vm vc vf vq vd vdn], sb as [sm sc sf sq sd sdn].
  cbn in Hdma, Hrem, Hvideo, Hqueued, Hwait. subst.
  unfold video_common_notify_dma_done. rewrite Hhw.
  cbn -[Z.add Z.sub Z.ltb Z.leb video_dqbuf_wake
        video_framebuff_dma_done video_framebuff_pop_curr_container].
  set (f1 := video_framebuff_dma_done _).
  assert (Hf1 : vbuf_dma f1 = None)
    by (subst f1; apply dma_done_vbuf_dma; discriminate).
  set (t2 := if is_sem_waited scount then _ else _).
  assert (Ht2 : remaining_capnum t2 = 0).
  { subst t2. destruct (is_sem_waited scount); [| reflexivity].
    now destruct (video_framebuff_pop_curr_container _). }
  rewrite Ht2. cbn -[Z.add Z.sub Z.ltb Z.leb video_dqbuf_wake].
  unfold is_sem_waited at 1.
  destruct (Z.ltb_spec vcount 0) as [_ | ?]; [| lia].
  eexists _, _, _. split; [reflexivity |].
  unfold video_dqbuf_wake.
  cbn -[Z.add Z.sub Z.ltb Z.leb Z.to_nat].
  replace (Z.to_nat (vcount + 1)) with O by lia.
  cbn -[Z.add Z.sub].
  repeat split. cbn -[Z.add Z.sub]. lia.
Qed.

Lemma still_completion_resumes_video_witness :
  exists (vmng1 vmng2 : video_mng_t) (hw1 : hw_t),
    video_common_notify_dma_done 0 4096 (fst video_waits_for_still)
                                 (snd video_waits_for_still)
    = Some (OK, vmng1, hw1)
    /\ state (still_inf vmng1) = VIDEO_STATE_STREAMOFF
    /\ video_dqbuf_wake vmng1 hw1 V4L2_BUF_TYPE_VIDEO_CAPTURE PTR_VIDEO_INF
       = (DQBUF_SUSPENDED, vmng2,
          start_dma hw1 V4L2_BUF_TYPE_VIDEO_CAPTURE (video_buffer 1))
    /\ state (video_inf vmng2) = VIDEO_STATE_DMA.
Proof.
  destruct (still_completion_resumes_video
              4096 (fst video_waits_for_still) (snd video_waits_for_still)
              still_buffer (video_buffer 1) [])
    as (m1 & m2 & h1 & Hirq & Hoff & _ & _ & _ & Hwake & Hdma & _);
    try reflexivity.
  exists m1, m2, h1. repeat split; assumption.
Defined.

(** A completion on a stream nobody waits on, with no completed buffer
    left over, leaves the stamped buffer as the only completed one. *)
Lemma notify_dma_done_done_list
    (err_code datasize : Z) (vmng : video_mng_t) (hw : hw_t)
    (p : type_inf_ptr) (c : v4l2_buffer) :
  get_video_type_inf (get_buftype hw) = Some p ->
  vbuf_dma (bufinf (deref vmng p)) = Some c ->
  vbuf_done (bufinf (deref vmng p)) = [] ->
  0 <= dqbuf_wait_flg (wait_dma (deref vmng p)) ->
  exists (vmng1 : video_mng_t) (hw1 : hw_t),
    video_common_notify_dma_done err_code datasize vmng hw
    = Some (OK, vmng1, hw1)
    /\ vbuf_done (bufinf (deref vmng1 p))
       = [stamp_dma_buffer c err_code datasize].
Proof.
  intros Hptr Hdma Hdone Hwait.
  unfold video_common_notify_dma_done. rewrite Hptr, Hdma. cbv zeta.
  set (t := deref vmng p) in *.
  set (c' := stamp_dma_buffer c err_code datasize).
  set (t1 := set_bufinf (set_remaining_capnum t _) _).
  assert (Hd1 : vbuf_done (bufinf t1) = [c']).
  { subst t1. cbn [bufinf set_bufinf].
    unfold video_framebuff_dma_done, set_vbuf_dma.
    cbn [vbuf_dma vbuf_done mode container_size vbuf_free vbuf_queued].
    rewrite Hdone.
    destruct (mode (bufinf t)); try destruct (Z.leb _ _); reflexivity. }
  assert (Hnone : is_sem_waited (dqbuf_wait_flg (wait_dma t1)) = false).
  { unfold is_sem_waited. change (wait_dma t1) with (wait_dma t).
    destruct (Z.ltb_spec (dqbuf_wait_flg (wait_dma t)) 0); [lia |].
    reflexivity. }
  rewrite Hnone. clearbody t1.
  destruct (remaining_capnum t1 =? 0).
  - eexists _, _. split; [reflexivity |].
    destruct p, (is_still_capture _ && is_sem_waited _); simpl; exact Hd1.
  - unfold video_framebuff_get_dma_container.
    destruct (vbuf_queued (bufinf t1)) as [| b q];
      eexists _, _; (split; [reflexivity |]);
      rewrite deref_assign_same; exact Hd1.
Qed.

Lemma video_dqbuf_head (vmng : video_mng_t) (hw : hw_t)
    (type : v4l2_buf_type) (p : type_inf_ptr)
    (b : v4l2_buffer) (d : list v4l2_buffer) :
  get_video_type_inf type = Some p ->
  vbuf_done (bufinf (deref vmng p)) = b :: d ->
  exists vmng' : video_mng_t,
    video_dqbuf vmng hw type = (DQBUF_RETURN OK (Some b), vmng', hw).
Proof.
  intros Hptr Hdone.
  unfold video_dqbuf, video_framebuff_dq_valid_container.
  rewrite Hptr. cbv zeta. rewrite Hdone. eexists. reflexivity.
Qed.

(** X10.  A completion on a stream nobody waits on, with no completed buffer
    left over, is handed to the next dequeue: the callback returns OK, and
    [video_dqbuf] on that stream then returns OK at once with the buffer that
    was dma-current, stamped with the size reported and with the error flag
    when the error code is not zero.  A failed transfer is delivered, not
    dropped. *)
Theorem completion_is_handed_to_dqbuf :
  forall (err_code datasize : Z) (vmng : video_mng_t) (hw : hw_t)
         (p : type_inf_ptr) (c : v4l2_buffer),
    get_video_type_inf (get_buftype hw) = Some p ->
    vbuf_dma (bufinf (deref vmng p)) = Some c ->
    vbuf_done (bufinf (deref vmng p)) = [] ->
    0 <= dqbuf_wait_flg (wait_dma (deref vmng p)) ->
    exists (vmng1 vmng2 : video_mng_t) (hw1 : hw_t),
      video_common_notify_dma_done err_code datasize vmng hw
      = Some (OK, vmng1, hw1)
      /\ video_dqbuf vmng1 hw1 (get_buftype hw)
         = (DQBUF_RETURN OK (Some (stamp_dma_buffer c err_code datasize)),
            vmng2, hw1)
      /\ buf_bytesused (stamp_dma_buffer c err_code datasize) = datasize
      /\ buf_flags (stamp_dma_buffer c err_code datasize)
         = (if err_code =? 0 then 0 else V4L2_BUF_FLAG_ERROR).
Proof.
  intros err_code datasize vmng hw p c Hptr Hdma Hdone Hwait.
  destruct (notify_dma_done_done_list err_code datasize vmng hw p c
              Hptr Hdma Hdone Hwait) as (m1 & h1 & Hirq & Hlist).
  destruct (video_dqbuf_head m1 h1 (get_buftype hw) p _ _ Hptr Hlist)
    as (m2 & Hdq).
  exists m1, m2, h1. repeat split; assumption.
Qed.

Lemma completion_is_handed_to_dqbuf_witness :
  exists (vmng1 vmng2 : video_mng_t) (hw1 : hw_t),
    video_common_notify_dma_done 1 0 (fst still_two_frames)
                                 (snd still_two_frames)
    = Some (OK, vmng1, hw1)
    /\ video_dqbuf vmng1 hw1 V4L2_BUF_TYPE_STILL_CAPTURE
       = (DQBUF_RETURN OK (Some (stamp_dma_buffer still_buffer 1 0)),
          vmng2, hw1)
    /\ buf_flags (stamp_dma_buffer still_buffer 1 0) = V4L2_BUF_FLAG_ERROR.
Proof.
  destruct (completion_is_handed_to_dqbuf
              1 0 (fst still_two_frames) (snd still_two_frames)
              PTR_STILL_INF still_buffer)
    as (m1 & m2 & h1 & Hirq & Hdq & _ & Hflags);
    [reflexivity | reflexivity | reflexivity | vm_compute; discriminate |].
  exists m1, m2, h1. repeat split; assumption.
Defined.

(** ** A cancel that lost the race leaves a post behind *)

Lemma bufinf_post (vmng : video_mng_t) (p : type_inf_ptr) :
  bufinf (deref (cancel_dqbuf_post vmng p) p) = bufinf (deref vmng p).
Proof. unfold cancel_dqbuf_post. now rewrite deref_assign_same. Qed.

Lemma change_video_state_wait_dma (vmng : video_mng_t) (hw : hw_t)
    (next_state : video_state_e) (p : type_inf_ptr) :
  wait_dma (deref (fst (change_video_state vmng hw next_state)) p)
  = wait_dma (deref vmng p).
Proof.
  unfold change_video_state.
  destruct (negb _ && _).
  - destruct (video_framebuff_get_dma_container _) as [[c |] f];
      now destruct p.
  - now destruct p.
Qed.

(** The callback with a thread suspended on the stream and no completed
    buffer left over: buffer and cause go into the rendezvous, one post, and
    the list of completed buffers stays empty. *)
Lemma notify_dma_done_with_waiter_done
    (err_code datasize : Z) (vmng : video_mng_t) (hw : hw_t)
    (p : type_inf_ptr) (c : v4l2_buffer) :
  get_video_type_inf (get_buftype hw) = Some p ->
  vbuf_dma (bufinf (deref vmng p)) = Some c ->
  vbuf_done (bufinf (deref vmng p)) = [] ->
  sem_count vmng p < 0 ->
  exists (vmng' : video_mng_t) (hw' : hw_t),
    video_common_notify_dma_done err_code datasize vmng hw
    = Some (OK, vmng', hw')
    /\ wait_dma (deref vmng' p)
       = mk_wait_dma (sem_count vmng p + 1)
                     (Some (stamp_dma_buffer c err_code datasize))
                     VIDEO_WAITEND_CAUSE_DMADONE
    /\ vbuf_done (bufinf (deref vmng' p)) = [].
Proof.
  intros Hptr Hdma Hdone Hneg. unfold sem_count in *.
  unfold video_common_notify_dma_done. rewrite Hptr, Hdma. cbv zeta.
  set (t := deref vmng p) in *.
  set (c' := stamp_dma_buffer c err_code datasize).
  set (t1 := set_bufinf (set_remaining_capnum t _) _).
  assert (Hd1 : vbuf_done (bufinf t1) = [c']).
  { subst t1. cbn [bufinf set_bufinf].
    unfold video_framebuff_dma_done, set_vbuf_dma.
    cbn [vbuf_dma vbuf_done mode container_size vbuf_free vbuf_queued].
    rewrite Hdone.
    destruct (mode (bufinf t)); try destruct (Z.leb _ _); reflexivity. }
  assert (Hwaited : is_sem_waited (dqbuf_wait_flg (wait_dma t1)) = true).
  { unfold is_sem_waited. change (wait_dma t1) with (wait_dma t).
    destruct (Z.ltb_spec (dqbuf_wait_flg (wait_dma t)) 0); [| lia].
    reflexivity. }
  rewrite Hwaited.
  unfold video_framebuff_pop_curr_container. rewrite Hd1.
  cbn [rev app].
  set (t2 := set_wait_dma _ _).
  assert (Hw2 : wait_dma t2
                = mk_wait_dma (dqbuf_wait_flg (wait_dma t) + 1) (Some c')
                              VIDEO_WAITEND_CAUSE_DMADONE) by reflexivity.
  assert (Hd2 : vbuf_done (bufinf t2) = []) by reflexivity.
  clearbody t2.
  destruct (remaining_capnum t2 =? 0).
  - eexists _, _. split; [reflexivity |].
    destruct p.
    + rewrite (resolves_to_video_not_still _ Hptr). simpl. now split.
    + destruct (is_still_capture _ && is_sem_waited _); simpl; now split.
  - unfold video_framebuff_get_dma_container.
    destruct (vbuf_queued (bufinf t2)) as [| b q];
      eexists _, _; (split; [reflexivity |]);
      rewrite deref_assign_same; simpl; now split.
Qed.

Lemma video_dqbuf_wake_buffer_done
    (vmng : video_mng_t) (hw : hw_t) (type : v4l2_buf_type)
    (p : type_inf_ptr) (b : v4l2_buffer) :
  done_container (wait_dma (deref vmng p)) = Some b ->
  waitend_cause (wait_dma (deref vmng p)) <> VIDEO_WAITEND_CAUSE_STILLSTOP ->
  exists vmng' : video_mng_t,
    video_dqbuf_wake vmng hw type p = (DQBUF_RETURN OK (Some b), vmng', hw)
    /\ wait_dma (deref vmng' p)
       = set_done_container (wait_dma (deref vmng p)) None
    /\ vbuf_done (bufinf (deref vmng' p)) = vbuf_done (bufinf (deref vmng p)).
Proof.
  intros Hdone Hcause. unfold video_dqbuf_wake, video_dqbuf_finish.
  destruct (waitend_cause (wait_dma (deref vmng p))); try congruence;
    simpl; rewrite Hdone; eexists; (split; [reflexivity |]);
    rewrite deref_assign_same; split; reflexivity.
Qed.

(** [video_dqbuf] on a stream with no completed buffer, an empty rendezvous
    and one post left on the semaphore does not wait.  It returns CANCELED
    when the cause left behind is DQCANCEL; with the cause DMADONE it goes on
    to copy from its NULL container. *)
Lemma video_dqbuf_on_surplus_post
    (vmng : video_mng_t) (hw : hw_t) (type : v4l2_buf_type)
    (p : type_inf_ptr) (cause : video_waitend_cause_e) :
  get_video_type_inf type = Some p ->
  vbuf_done (bufinf (deref vmng p)) = [] ->
  wait_dma (deref vmng p) = mk_wait_dma 1 None cause ->
  cause <> VIDEO_WAITEND_CAUSE_STILLSTOP ->
  fst (fst (video_dqbuf vmng hw type))
  = match cause with
    | VIDEO_WAITEND_CAUSE_DQCANCEL => DQBUF_RETURN (- ECANCELED) None
    | _ => DQBUF_NULL_DEREF
    end.
Proof.
  intros Hptr Hdone Hwait Hcause.
  unfold video_dqbuf, video_framebuff_dq_valid_container.
  rewrite Hptr. cbv zeta. rewrite Hdone, Hwait.
  cbn [dqbuf_wait_flg Z.to_nat].
  change (Pos.to_nat 1) with 1%nat. cbn [video_dqbuf_wait].
  pose proof (change_video_state_wait_dma vmng hw
                (estimate_next_video_state vmng CAUSE_VIDEO_DQBUF) p) as Hw1.
  destruct (change_video_state vmng hw _) as [vmng1 hw1]. cbn [fst] in Hw1.
  rewrite Hwait in Hw1.
  unfold video_dqbuf_finish.
  destruct (is_video_capture type); rewrite !deref_assign_same;
    rewrite ?Hw1, ?Hwait; cbn; destruct cause; try congruence; reflexivity.
Qed.

Section Residue.

Variables (type : v4l2_buf_type) (p : type_inf_ptr).
Hypothesis resolved : get_video_type_inf type = Some p.

Local Ltac cancel_step' :=
  first [ rewrite (step_cancel_test type p resolved) by assumption
        | rewrite (step_cancel_mark type p resolved)
        | rewrite (step_cancel_post type p resolved) ];
  cbn [release].

(** The released dequeue goes on from the manager [v]; what it leaves of the
    rendezvous and of the completed buffers is kept as [Hwk] and [Hdn]. *)
Local Ltac dqbuf_step' v h b Hw v' Hwk Hdn :=
  let Hwake := fresh "Hwake" in
  destruct (video_dqbuf_wake_buffer_done v h type p b)
    as (v' & Hwake & Hwk & Hdn);
  [ repeat first [rewrite wait_dma_post | rewrite wait_dma_mark];
    rewrite Hw; reflexivity
  | repeat first [rewrite wait_dma_post | rewrite wait_dma_mark];
    try rewrite Hw; discriminate
  | rewrite (step_dqbuf_returns type p resolved _ _ _ _ _ _ _ Hwake) ].

Local Ltac residue Hw Hd :=
  cbn [sys_vmng];
  repeat first [ rewrite wait_dma_post | rewrite wait_dma_mark
               | rewrite bufinf_post | rewrite bufinf_mark
               | match goal with
                 | H : wait_dma (deref ?v p) = set_done_container _ None
                   |- context [wait_dma (deref ?v p)] => rewrite H
                 | H : vbuf_done (bufinf (deref ?v p)) = vbuf_done _
                   |- context [vbuf_done (bufinf (deref ?v p))] => rewrite H
                 end ];
  repeat first [ rewrite wait_dma_post | rewrite wait_dma_mark
               | rewrite bufinf_post | rewrite bufinf_mark ];
  rewrite ?Hw, ?Hd; reflexivity.

(** The interrupt between the test and the post of the cancel, with one
    thread suspended and no completed buffer left over: after each of the
    five runs the rendezvous is empty, the semaphore holds one post that
    nobody waits for, and the cause is the one stored last, DQCANCEL when the
    interrupt came before the cancel's store and DMADONE when it came
    after. *)
Lemma race_leaves_post (vmng : video_mng_t) (hw : hw_t) (c : v4l2_buffer)
    (err_code datasize : Z) (k : nat) (schedule : list event) :
  sem_count vmng p = -1 ->
  get_buftype hw = type ->
  vbuf_dma (bufinf (deref vmng p)) = Some c ->
  vbuf_done (bufinf (deref vmng p)) = [] ->
  nth_error (race_schedules err_code datasize) k = Some schedule ->
  exists s' : system,
    run type schedule (mk_system vmng hw CANCEL_AT_TEST DQBUF_WAITING)
    = Some s'
    /\ wait_dma (deref (sys_vmng s') p)
       = mk_wait_dma 1 None
           (if (k <? 3)%nat then VIDEO_WAITEND_CAUSE_DQCANCEL
            else VIDEO_WAITEND_CAUSE_DMADONE)
    /\ vbuf_done (bufinf (deref (sys_vmng s') p)) = [].
Proof.
  intros Hcount Hhw Hdma Hdone Hnth.
  assert (Hneg : sem_count vmng p < 0) by lia.
  assert (Hptr : get_video_type_inf (get_buftype hw) = Some p)
    by (rewrite Hhw; exact resolved).
  set (done := stamp_dma_buffer c err_code datasize).
  destruct (notify_dma_done_with_waiter_done err_code datasize vmng hw p c
              Hptr Hdma Hdone Hneg) as (v1 & h1 & Hirq1 & Hw1 & Hd1).
  destruct (notify_dma_done_with_waiter_done err_code datasize
              (cancel_dqbuf_mark vmng p) hw p c Hptr
              ltac:(rewrite bufinf_mark; exact Hdma)
              ltac:(rewrite bufinf_mark; exact Hdone)
              ltac:(unfold sem_count in *; rewrite wait_dma_mark; exact Hneg))
    as (v2 & h2 & Hirq2 & Hw2 & Hd2).
  assert (Hcount2 : sem_count (cancel_dqbuf_mark vmng p) p = sem_count vmng p)
    by (unfold sem_count; now rewrite wait_dma_mark).
  rewrite Hcount2 in Hw2.
  assert (Hrel1 : release (sem_count vmng p) (sem_count v1 p) DQBUF_WAITING
                  = DQBUF_RELEASED).
  { unfold sem_count at 2. rewrite Hw1. simpl. now apply release_by_post. }
  assert (Hrel2 : release (sem_count (cancel_dqbuf_mark vmng p) p)
                          (sem_count v2 p) DQBUF_WAITING
                  = DQBUF_RELEASED).
  { rewrite Hcount2. unfold sem_count at 2. rewrite Hw2. simpl.
    now apply release_by_post. }
  rewrite Hcount in Hw1, Hw2.
  unfold race_schedules in Hnth.
  destruct k as [| [| [| [| [| k]]]]]; cbn [nth_error] in Hnth;
    try (destruct k; discriminate);
    injection Hnth as <-; cbn [run Nat.ltb Nat.leb].
  - (* test, irq, dqbuf, mark, post *)
    cancel_step'.
    rewrite (step_irq_dma_done type p resolved _ _ _ _ _ _ _ _ _ Hirq1), Hrel1.
    dqbuf_step' v1 h1 done Hw1 v' Hwk Hdn.
    do 2 cancel_step'.
    eexists; split; [reflexivity |]. split; residue Hw1 Hd1.
  - (* test, irq, mark, dqbuf, post *)
    cancel_step'.
    rewrite (step_irq_dma_done type p resolved _ _ _ _ _ _ _ _ _ Hirq1), Hrel1.
    cancel_step'.
    dqbuf_step' (cancel_dqbuf_mark v1 p) h1 done Hw1 v' Hwk Hdn.
    cancel_step'.
    eexists; split; [reflexivity |]. split; residue Hw1 Hd1.
  - (* test, irq, mark, post, dqbuf *)
    cancel_step'.
    rewrite (step_irq_dma_done type p resolved _ _ _ _ _ _ _ _ _ Hirq1), Hrel1.
    do 2 cancel_step'.
    dqbuf_step' (cancel_dqbuf_post (cancel_dqbuf_mark v1 p) p) h1 done Hw1
                v' Hwk Hdn.
    eexists; split; [reflexivity |]. split; residue Hw1 Hd1.
  - (* test, mark, irq, dqbuf, post *)
    do 2 cancel_step'.
    rewrite (step_irq_dma_done type p resolved _ _ _ _ _ _ _ _ _ Hirq2), Hrel2.
    dqbuf_step' v2 h2 done Hw2 v' Hwk Hdn.
    cancel_step'.
    eexists; split; [reflexivity |]. split; residue Hw2 Hd2.
  - (* test, mark, irq, post, dqbuf *)
    do 2 cancel_step'.
    rewrite (step_irq_dma_done type p resolved _ _ _ _ _ _ _ _ _ Hirq2), Hrel2.
    cancel_step'.
    dqbuf_step' (cancel_dqbuf_post v2 p) h2 done Hw2 v' Hwk Hdn.
    eexists; split; [reflexivity |]. split; residue Hw2 Hd2.
Qed.

End Residue.

(** X11.  A cancel that lost the race is not undone.  One thread is suspended
    in a dequeue on a stream with a transfer under way and no completed
    buffer left over, and one DMA completion falls between the test and the
    post of [video_cancel_dqbuf] ([schedule] is the [k]-th of the five
    orders).  Afterwards the semaphore holds one post that nobody waits for
    and the rendezvous is empty, so the next [video_dqbuf] on the stream does
    not wait for a transfer: it returns CANCELED when the interrupt came
    before the cancel stored its cause (orders 0 to 2), and goes on to copy
    from its NULL container when the interrupt came after (orders 3 and
    4). *)
Theorem cancel_race_leaves_stale_post :
  forall (type : v4l2_buf_type) (p : type_inf_ptr)
         (vmng : video_mng_t) (hw : hw_t) (c : v4l2_buffer)
         (err_code datasize : Z) (k : nat) (schedule : list event),
    get_video_type_inf type = Some p ->
    sem_count vmng p = -1 ->
    get_buftype hw = type ->
    vbuf_dma (bufinf (deref vmng p)) = Some c ->
    vbuf_done (bufinf (deref vmng p)) = [] ->
    nth_error (race_schedules err_code datasize) k = Some schedule ->
    exists s' : system,
      run type schedule (mk_system vmng hw CANCEL_AT_TEST DQBUF_WAITING)
      = Some s'
      /\ sem_count (sys_vmng s') p = 1
      /\ done_container (wait_dma (deref (sys_vmng s') p)) = None
      /\ fst (fst (video_dqbuf (sys_vmng s') (sys_hw s') type))
         = if (k <? 3)%nat then DQBUF_RETURN (- ECANCELED) None
           else DQBUF_NULL_DEREF.
Proof.
  intros type p vmng hw c err_code datasize k schedule
         Hptr Hcount Hhw Hdma Hdone Hnth.
  destruct (race_leaves_post type p Hptr vmng hw c err_code datasize k
              schedule Hcount Hhw Hdma Hdone Hnth) as (s' & Hrun & Hw & Hd).
  exists s'. split; [exact Hrun |].
  unfold sem_count. rewrite Hw. split; [reflexivity |].
  split; [reflexivity |].
  rewrite (video_dqbuf_on_surplus_post _ _ type p _ Hptr Hd Hw).
  - now destruct (k <? 3)%nat.
  - now destruct (k <? 3)%nat.
Qed.

Lemma cancel_race_leaves_stale_post_witness :
  exists s' : system,
    run V4L2_BUF_TYPE_VIDEO_CAPTURE
        [RUN_CANCEL; RUN_CANCEL; IRQ_DMA_DONE 0 1000; RUN_CANCEL; RUN_DQBUF]
        (mk_system (snd (fst video_dqbuf_suspended))
                   (snd video_dqbuf_suspended)
                   CANCEL_AT_TEST DQBUF_WAITING) = Some s'
    /\ sem_count (sys_vmng s') PTR_VIDEO_INF = 1
    /\ done_container (wait_dma (deref (sys_vmng s') PTR_VIDEO_INF)) = None
    /\ fst (fst (video_dqbuf (sys_vmng s') (sys_hw s')
                             V4L2_BUF_TYPE_VIDEO_CAPTURE))
       = DQBUF_NULL_DEREF.
Proof.
  apply (cancel_race_leaves_stale_post
           V4L2_BUF_TYPE_VIDEO_CAPTURE PTR_VIDEO_INF
           (snd (fst video_dqbuf_suspended)) (snd video_dqbuf_suspended)
           (video_buffer 0) 0 1000 4%nat
           [RUN_CANCEL; RUN_CANCEL; IRQ_DMA_DONE 0 1000;
            RUN_CANCEL; RUN_DQBUF]); reflexivity.
Defined.

(** ** A still capture of several frames *)

Lemma still_capture_runs_aux :
  forall (rest : list Z) (size : Z) (vmng : video_mng_t) (hw : hw_t)
         (c : v4l2_buffer),
    get_buftype hw = V4L2_BUF_TYPE_STILL_CAPTURE ->
    vbuf_dma (bufinf (deref vmng PTR_STILL_INF)) = Some c ->
    remaining_capnum (deref vmng PTR_STILL_INF)
    = Z.of_nat (S (length rest)) ->
    (length rest <= length (vbuf_queued (bufinf (deref vmng PTR_STILL_INF))))%nat ->
    exists (vmng' : video_mng_t) (hw' : hw_t),
      exec_all (map (CALL_NOTIFY_DMA_DONE 0) (size :: rest)) (vmng, hw)
      = Some (vmng', hw')
      /\ state (deref vmng' PTR_STILL_INF) = VIDEO_STATE_STREAMOFF
      /\ remaining_capnum (deref vmng' PTR_STILL_INF) = 0
      /\ vbuf_dma (bufinf (deref vmng' PTR_STILL_INF)) = None
      /\ vbuf_queued (bufinf (deref vmng' PTR_STILL_INF))
         = skipn (length rest)
                 (vbuf_queued (bufinf (deref vmng PTR_STILL_INF)))
      /\ hw_calls hw'
         = CANCEL_DMA
           :: rev (map (fun b => SET_DMABUF (buf_userptr b) (buf_length b))
                       (firstn (length rest)
                          (vbuf_queued (bufinf (deref vmng PTR_STILL_INF)))))
           ++ hw_calls hw.
Proof.
  induction rest as [| size' rest IH]; intros size vmng hw c Hhw Hdma Hrem Hlen.
  - destruct (notify_dma_done_effect 0 size vmng hw PTR_STILL_INF c)
      as (v' & h' & Hn & Hr & Hs & Hd & Hq & Hh & _);
      [now rewrite Hhw | exact Hdma |].
    rewrite Hrem in *. cbn in Hr, Hs, Hd, Hq, Hh.
    exists v', h'. cbn [map exec_all exec]. rewrite Hn.
    subst h'. repeat split; assumption.
  - destruct (notify_dma_done_effect 0 size vmng hw PTR_STILL_INF c)
      as (v' & h' & Hn & Hr & Hs & Hd & Hq & Hh & _);
      [now rewrite Hhw | exact Hdma |].
    rewrite Hrem in *.
    assert (Hstep : (if (0 =? 0) && (0 <? Z.of_nat (S (length (size' :: rest))))
                     then Z.of_nat (S (length (size' :: rest))) - 1
                     else Z.of_nat (S (length (size' :: rest))))
                    = Z.of_nat (S (length rest))).
    { cbn [length]. rewrite (Nat2Z.inj_succ (S (length rest))).
      change (0 =? 0) with true. cbn [andb].
      destruct (Z.ltb_spec 0 (Z.succ (Z.of_nat (S (length rest))))); lia. }
    rewrite Hstep in *.
    assert (Hnz : (Z.of_nat (S (length rest)) =? 0) = false)
      by (apply Z.eqb_neq; lia).
    rewrite Hnz in *.
    destruct (vbuf_queued (bufinf (deref vmng PTR_STILL_INF)))
      as [| b queued] eqn:Hqueue; [simpl in Hlen; lia |].
    cbn [hd_error tl] in Hd, Hq, Hh.
    destruct (IH size' v' h' b) as (v'' & h'' & Hrun & Hs' & Hr' & Hd' & Hq' & Hh').
    + subst h'. exact Hhw.
    + exact Hd.
    + exact Hr.
    + rewrite Hq. simpl in Hlen. lia.
    + exists v'', h''.
      change (map (CALL_NOTIFY_DMA_DONE 0) (size :: size' :: rest))
        with (CALL_NOTIFY_DMA_DONE 0 size
              :: map (CALL_NOTIFY_DMA_DONE 0) (size' :: rest)).
      cbn [exec_all exec]. rewrite Hn.
      split; [exact Hrun |].
      rewrite Hq in Hq', Hh'. subst h'.
      repeat split; try assumption.
      rewrite Hh'. cbn [length firstn map rev set_dmabuf hw_call_of hw_calls].
      rewrite <- app_assoc. reflexivity.
Qed.

(** X12.  A still capture counts its frames.  The still stream has a transfer
    under way, as many captures left as there are completions to come, and
    enough buffers queued behind the current one.  Then that many successful
    DMA-done callbacks are all accepted; each but the last programs the next
    queued buffer into the hardware, in the order of queueing, and the last
    cancels the transfer and leaves the still stream in STREAMOFF with no
    capture left, no current buffer and the unused buffers still queued. *)
Theorem still_capture_counts_frames :
  forall (size : Z) (rest : list Z) (vmng : video_mng_t) (hw : hw_t)
         (c : v4l2_buffer),
    get_buftype hw = V4L2_BUF_TYPE_STILL_CAPTURE ->
    vbuf_dma (bufinf (still_inf vmng)) = Some c ->
    remaining_capnum (still_inf vmng) = Z.of_nat (length (size :: rest)) ->
    (length rest <= length (vbuf_queued (bufinf (still_inf vmng))))%nat ->
    exists (vmng' : video_mng_t) (hw' : hw_t),
      exec_all (map (CALL_NOTIFY_DMA_DONE 0) (size :: rest)) (vmng, hw)
      = Some (vmng', hw')
      /\ state (still_inf vmng') = VIDEO_STATE_STREAMOFF
      /\ remaining_capnum (still_inf vmng') = 0
      /\ vbuf_dma (bufinf (still_inf vmng')) = None
      /\ vbuf_queued (bufinf (still_inf vmng'))
         = skipn (length rest) (vbuf_queued (bufinf (still_inf vmng)))
      /\ hw_calls hw'
         = CANCEL_DMA
           :: rev (map (fun b => SET_DMABUF (buf_userptr b) (buf_length b))
                       (firstn (length rest)
                          (vbuf_queued (bufinf (still_inf vmng)))))
           ++ hw_calls hw.
Proof.
  intros size rest vmng hw c Hhw Hdma Hrem Hlen.
  exact (still_capture_runs_aux rest size vmng hw c Hhw Hdma Hrem Hlen).
Qed.

Lemma still_capture_counts_frames_witness :
  exists (vmng' : video_mng_t) (hw' : hw_t),
    exec_all (map (CALL_NOTIFY_DMA_DONE 0) [30000; 31000; 32000]) still_burst
    = Some (vmng', hw')
    /\ state (still_inf vmng') = VIDEO_STATE_STREAMOFF
    /\ remaining_capnum (still_inf vmng') = 0
    /\ vbuf_queued (bufinf (still_inf vmng')) = []
    /\ firstn 3 (hw_calls hw')
       = [CANCEL_DMA; SET_DMABUF (buf_userptr (still_frame 2)) 65536;
          SET_DMABUF (buf_userptr (still_frame 1)) 65536].
Proof.
  destruct (still_capture_counts_frames 30000 [31000; 32000]
              (fst still_burst) (snd still_burst) (still_frame 0))
    as (v & h & Hrun & Hs & Hr & _ & Hq & Hh).
  - reflexivity.
  - reflexivity.
  - reflexivity.
  - vm_compute. lia.
  - exists v, h. rewrite Hh. repeat split; assumption.
Defined.

(** ** Open and close *)

Lemma video_open_again (priv : video_mng_t) (hw : hw_t) (sens_ret img_ret : Z) :
  0 < open_num priv ->
  video_open priv hw sens_ret img_ret
  = (OK, set_open_num priv ((open_num priv + 1) mod 256), hw).
Proof.
  intros Hpos. unfold video_open.
  destruct (Z.eqb_spec (open_num priv) 0); [lia | reflexivity].
Qed.

Lemma exec_all_app (calls calls' : list video_call) (s : video_mng_t * hw_t) :
  exec_all (calls ++ calls') s
  = match exec_all calls s with
    | Some s' => exec_all calls' s'
    | None => None
    end.
Proof.
  revert s. induction calls as [| c calls IH]; intros s; [reflexivity |].
  cbn [app exec_all]. destruct (exec c s); [apply IH | reflexivity].
Qed.

Lemma opens_count (k : nat) (priv : video_mng_t) (hw : hw_t) :
  0 < open_num priv ->
  open_num priv + Z.of_nat k <= 255 ->
  exec_all (repeat (CALL_OPEN OK OK) k) (priv, hw)
  = Some (set_open_num priv (open_num priv + Z.of_nat k), hw).
Proof.
  revert priv. induction k as [| k IH]; intros priv Hpos Hle.
  - cbn [repeat exec_all]. rewrite Z.add_0_r. now destruct priv.
  - cbn [repeat exec_all exec]. rewrite video_open_again by assumption.
    rewrite IH; cbn [open_num set_open_num]; rewrite Z.mod_small by lia;
      try lia.
    do 2 f_equal. unfold set_open_num. cbn. f_equal. lia.
Qed.

(** X13.  The open count is the number of opens, up to 255.  On a device
    nobody has open, [k] opens that all succeed (1 <= k <= 255) open the
    sensor and the pipeline once, initialise the stream resources once and
    leave the count at [k].  The count is held in eight bits: the 256th open
    takes it back to 0, so that the device counts as closed while 256 files
    are open; a close then returns OK and releases nothing, and one more open
    opens the sensor and the pipeline a second time. *)
Theorem open_num_counts_opens :
  forall (k : nat) (priv : video_mng_t) (hw : hw_t),
    open_num priv = 0 ->
    (1 <= k <= 255)%nat ->
    let first := hw_call_of (hw_call_of hw SENS_OPEN) IMG_OPEN in
    exec_all (repeat (CALL_OPEN OK OK) k) (priv, hw)
    = Some (set_open_num (initialize_resources priv) (Z.of_nat k), first)
    /\ exec_all (repeat (CALL_OPEN OK OK) 256) (priv, hw)
       = Some (set_open_num (initialize_resources priv) 0, first)
    /\ video_close (set_open_num (initialize_resources priv) 0) first
       = (OK, set_open_num (initialize_resources priv) 0, first)
    /\ exec_all (repeat (CALL_OPEN OK OK) 257) (priv, hw)
       = Some (set_open_num (initialize_resources priv) 1,
               hw_call_of (hw_call_of first SENS_OPEN) IMG_OPEN).
Proof.
  intros k priv hw Hzero Hk first.
  assert (Hfirst : exec (CALL_OPEN OK OK) (priv, hw)
                   = Some (set_open_num (initialize_resources priv) 1, first)).
  { cbn [exec]. unfold video_open, initialize_resources, set_open_num.
    rewrite Hzero. cbn. rewrite ?Hzero. reflexivity. }
  assert (Hopens : forall j : nat,
             (j <= 254)%nat ->
             exec_all (repeat (CALL_OPEN OK OK) (S j)) (priv, hw)
             = Some (set_open_num (initialize_resources priv)
                                  (Z.of_nat (S j)), first)).
  { intros j Hj. cbn [repeat exec_all]. rewrite Hfirst.
    rewrite opens_count; cbn [open_num set_open_num initialize_resources];
      try lia.
    do 2 f_equal. unfold set_open_num. cbn -[Z.of_nat Z.add]. f_equal. lia. }
  assert (H256 : exec_all (repeat (CALL_OPEN OK OK) 256) (priv, hw)
                 = Some (set_open_num (initialize_resources priv) 0, first)).
  { change 256%nat with (255 + 1)%nat. rewrite repeat_app.
    rewrite exec_all_app, (Hopens 254%nat) by lia.
    cbn [repeat exec_all exec]. rewrite video_open_again by (cbn; lia).
    reflexivity. }
  split; [| split; [exact H256 | split]].
  - destruct k as [| j]; [lia |]. apply Hopens. lia.
  - reflexivity.
  - change 257%nat with (256 + 1)%nat. rewrite repeat_app.
    rewrite exec_all_app, H256. cbn [repeat exec_all exec].
    unfold video_open, initialize_resources, set_open_num. reflexivity.
Qed.

Lemma open_num_counts_opens_witness :
  exec_all (repeat (CALL_OPEN OK OK) 3) (registered, hw_idle)
  = Some (set_open_num (initialize_resources registered) 3,
          hw_call_of (hw_call_of hw_idle SENS_OPEN) IMG_OPEN).
Proof.
  apply (open_num_counts_opens 3 registered hw_idle); [reflexivity | lia].
Defined.

Lemma video_close_not_last (priv : video_mng_t) (hw : hw_t) :
  1 < open_num priv ->
  video_close priv hw = (ERROR, set_open_num priv (open_num priv - 1), hw).
Proof.
  intros Hpos. unfold video_close.
  destruct (Z.eqb_spec (open_num priv) 0); [lia |].
  cbn [open_num set_open_num].
  destruct (Z.eqb_spec (open_num priv - 1) 0); [lia | reflexivity].
Qed.

Lemma video_close_last (priv : video_mng_t) (hw : hw_t) :
  open_num priv = 1 ->
  video_close priv hw
  = (ERROR, fst (cleanup_resources (set_open_num priv 0) hw),
     hw_call_of (hw_call_of (snd (cleanup_resources (set_open_num priv 0) hw))
                            SENS_CLOSE) IMG_CLOSE).
Proof.
  intros Hone. unfold video_close. rewrite Hone. reflexivity.
Qed.

Lemma fops_app (calls calls' : list fop_call) (s : video_dev_t * hw_t) :
  fops (calls ++ calls') s
  = (fst (fops calls s) ++ fst (fops calls' (snd (fops calls s))),
     snd (fops calls' (snd (fops calls s)))).
Proof.
  revert s. induction calls as [| c calls IH]; intros s.
  - cbn [app fops fst snd]. now destruct (fops calls' s).
  - cbn [app fops]. destruct (fop c s) as [[r dev] hw].
    rewrite IH. destruct (fops calls (dev, hw)) as [rs s'].
    cbn [fst snd]. reflexivity.
Qed.

Lemma fops_closes_not_last (k : nat) (dev : video_dev_t) (hw : hw_t) :
  lock_open_num dev = 1 ->
  Z.of_nat k < open_num (dev_mng dev) ->
  fops (repeat FOP_CLOSE k) (dev, hw)
  = (repeat (FOP_RETURN ERROR) k,
     (mk_dev 1 (set_open_num (dev_mng dev)
                             (open_num (dev_mng dev) - Z.of_nat k)), hw)).
Proof.
  revert dev. induction k as [| k IH]; intros [lock priv] Hlock Hlt;
    cbn [lock_open_num dev_mng] in *; subst lock.
  - cbn [repeat fops Z.of_nat]. rewrite Z.sub_0_r. now destruct priv.
  - cbn [repeat fops fop fst snd]. unfold video_close_fop.
    cbn [lock_open_num dev_mng video_lock Z.ltb Z.compare].
    rewrite video_close_not_last by lia.
    destruct (Z.eqb_spec (open_num priv) 0); [lia |].
    change (video_unlock (1 - 1)) with 1.
    rewrite IH; cbn [lock_open_num dev_mng open_num set_open_num];
      [| reflexivity | lia].
    do 3 f_equal. unfold set_open_num. cbn -[Z.of_nat Z.sub]. f_equal. lia.
Qed.

(** X14.  Only the last close releases the device.  With the lock free and
    [k + 1] files open, the first [k] closes only count down; the last one
    runs the cleanup of both streams and closes the sensor and the pipeline,
    once each.  Every one of them returns ERROR and gives the lock back. *)
Theorem closes_release_at_last :
  forall (k : nat) (dev : video_dev_t) (hw : hw_t),
    lock_open_num dev = 1 ->
    open_num (dev_mng dev) = Z.of_nat (S k) ->
    let priv := dev_mng dev in
    let cleaned := cleanup_resources (set_open_num priv 0) hw in
    fops (repeat FOP_CLOSE k) (dev, hw)
    = (repeat (FOP_RETURN ERROR) k, (mk_dev 1 (set_open_num priv 1), hw))
    /\ fops (repeat FOP_CLOSE (S k)) (dev, hw)
       = (repeat (FOP_RETURN ERROR) (S k),
          (mk_dev 1 (fst cleaned),
           hw_call_of (hw_call_of (snd cleaned) SENS_CLOSE) IMG_CLOSE)).
Proof.
  intros k dev hw Hlock Hnum. cbv zeta.
  set (priv := dev_mng dev) in *.
  set (cleaned := cleanup_resources (set_open_num priv 0) hw).
  assert (Hk : fops (repeat FOP_CLOSE k) (dev, hw)
               = (repeat (FOP_RETURN ERROR) k,
                  (mk_dev 1 (set_open_num priv 1), hw))).
  { rewrite fops_closes_not_last; [| exact Hlock | fold priv; lia].
    fold priv. rewrite Hnum. do 4 f_equal. lia. }
  split; [exact Hk |].
  assert (Hlast : fops [FOP_CLOSE] (mk_dev 1 (set_open_num priv 1), hw)
                  = ([FOP_RETURN ERROR],
                     (mk_dev 1 (fst cleaned),
                      hw_call_of (hw_call_of (snd cleaned) SENS_CLOSE)
                                 IMG_CLOSE))).
  { cbn [fops fop fst snd]. unfold video_close_fop.
    cbn [lock_open_num dev_mng video_lock Z.ltb Z.compare].
    rewrite video_close_last by reflexivity. reflexivity. }
  replace (S k) with (k + 1)%nat by lia. rewrite !repeat_app.
  rewrite fops_app, Hk. cbn [fst snd repeat]. rewrite Hlast. reflexivity.
Qed.

Lemma closes_release_at_last_witness :
  fops [FOP_CLOSE; FOP_CLOSE] (mk_dev 1 (set_open_num opened_once 2), hw_idle)
  = ([FOP_RETURN ERROR; FOP_RETURN ERROR],
     (mk_dev 1 (mk_mng 0 cleanup_streamresources cleanup_streamresources),
      mk_hw V4L2_BUF_TYPE_VIDEO_CAPTURE [IMG_CLOSE; SENS_CLOSE])).
Proof.
  exact (proj2 (closes_release_at_last
                  1 (mk_dev 1 (set_open_num opened_once 2)) hw_idle
                  eq_refl eq_refl)).
Defined.

Lemma fops_blocked (calls : list fop_call) (dev : video_dev_t) (hw : hw_t) :
  lock_open_num dev <= 0 ->
  fops calls (dev, hw) = (repeat FOP_BLOCKED (length calls), (dev, hw)).
Proof.
  intros Hlock. induction calls as [| c calls IH]; [reflexivity |].
  cbn [fops length repeat].
  assert (Hc : fop c (dev, hw) = (FOP_BLOCKED, dev, hw)).
  { destruct c; cbn [fop fst snd];
      unfold video_open_fop, video_close_fop, video_lock;
      destruct (Z.ltb_spec 0 (lock_open_num dev)); try lia; reflexivity. }
  rewrite Hc, IH. reflexivity.
Qed.

(** X15.  A close on a device nobody has open returns OK through the early
    return, which leaves [lock_open_num] taken.  From then on every open and
    every close on the device waits for the lock, and none of them can give
    it back: the device node is dead. *)
Theorem close_without_open_keeps_lock :
  forall (dev : video_dev_t) (hw : hw_t) (calls : list fop_call),
    lock_open_num dev = 1 ->
    open_num (dev_mng dev) = 0 ->
    fops (FOP_CLOSE :: calls) (dev, hw)
    = (FOP_RETURN OK :: repeat FOP_BLOCKED (length calls),
       (mk_dev 0 (dev_mng dev), hw)).
Proof.
  intros [lock priv] hw calls Hlock Hzero.
  cbn [lock_open_num dev_mng] in *. subst lock.
  cbn [fops fop fst snd]. unfold video_close_fop, video_close.
  cbn [lock_open_num dev_mng video_lock Z.ltb Z.compare].
  rewrite Hzero. cbn [Z.eqb Z.sub Z.add Z.opp Z.pos_sub].
  rewrite fops_blocked by (cbn; lia). reflexivity.
Qed.

Lemma close_without_open_keeps_lock_witness :
  fops [FOP_CLOSE; FOP_OPEN OK OK; FOP_CLOSE] (mk_dev 1 registered, hw_idle)
  = ([FOP_RETURN OK; FOP_BLOCKED; FOP_BLOCKED],
     (mk_dev 0 registered, hw_idle)).
Proof.
  apply (close_without_open_keeps_lock (mk_dev 1 registered) hw_idle
           [FOP_OPEN OK OK; FOP_CLOSE]); reflexivity.
Defined.

(** ** Controls *)

Lemma applied_length {S : Type} (op : ctrl_op S) (class : Z)
    (cs cs' : list v4l2_ext_control) (sens sens' : S) (ret ret' : Z) :
  applied op class cs sens ret cs' sens' ret' -> length cs' = length cs.
Proof. induction 1; cbn [length]; congruence. Qed.

(** The loop over entries that are all taken: it goes on behind them. *)
Lemma ext_ctrls_loop_applied {S : Type} (op : ctrl_op S) (class : Z)
    (cs cs' : list v4l2_ext_control) (sens sens' : S) (ret ret' : Z) :
  applied op class cs sens ret cs' sens' ret' ->
  forall (n : nat) (done post : list v4l2_ext_control) (count idx : Z),
    ext_ctrls_loop (Some op) (length cs + n) (length done) ret
      (mk_ext_controls class count idx (done ++ cs ++ post)) sens
    = ext_ctrls_loop (Some op) n (length done + length cs) ret'
        (mk_ext_controls class count idx (done ++ cs' ++ post)) sens'.
Proof.
  induction 1 as [sens ret | c c' cs cs' sens sens1 sens' ret ret1 ret'
                               Hop Hret Happ IH];
    intros n done post count idx.
  - cbn [length Nat.add app]. now rewrite Nat.add_0_r.
  - cbn [length Nat.add ext_ctrls_loop ctrls_controls ctrls_class].
    rewrite nth_error_app2, Nat.sub_diag by lia. cbn [nth_error app].
    rewrite Hop.
    destruct (Z.ltb_spec ret1 0) as [| _]; [lia |].
    unfold set_control.
    cbn [ctrls_controls ctrls_class ctrls_count ctrls_error_idx].
    rewrite firstn_app, Nat.sub_diag, firstn_all, firstn_O, app_nil_r.
    rewrite skipn_app, skipn_all2 by lia.
    replace (Datatypes.S (length done) - length done)%nat with 1%nat by lia.
    cbn [skipn app].
    specialize (IH n (done ++ [c']) post count idx).
    rewrite length_app in IH. cbn [length] in IH.
    rewrite <- !app_assoc in IH. cbn [app] in IH.
    replace (length done + 1)%nat with (Datatypes.S (length done)) in IH
      by lia.
    rewrite IH. f_equal. lia.
Qed.

Lemma ext_ctrls_loop_stops {S : Type} (op : ctrl_op S) :
  stops_at_first_error op
    (fun ctrls sens =>
       ext_ctrls_loop (Some op) (Z.to_nat (ctrls_count ctrls)) 0 OK
                      ctrls sens).
Proof.
  intros class idx pre pre' sens sens1 ret1 Happ.
  cbn [ctrls_count]. split.
  - rewrite Nat2Z.id.
    pose proof (ext_ctrls_loop_applied op class pre pre' sens sens1 OK ret1
                  Happ 0 [] [] (Z.of_nat (length pre)) idx) as Hloop.
    cbn [length app] in Hloop. rewrite !app_nil_r, Nat.add_0_r in Hloop.
    rewrite Hloop. reflexivity.
  - intros c c' post ret sens2 Hop Hneg. cbv zeta. cbn [ctrls_count].
    rewrite Nat2Z.id, length_app. cbn [length].
    pose proof (ext_ctrls_loop_applied op class pre pre' sens sens1 OK ret1
                  Happ (Datatypes.S (length post)) [] (c :: post)
                  (Z.of_nat (length pre + Datatypes.S (length post))) idx)
      as Hloop.
    cbn [length app Nat.add] in Hloop. rewrite Hloop.
    cbn [ext_ctrls_loop ctrls_controls ctrls_class].
    rewrite nth_error_app2, (applied_length _ _ _ _ _ _ _ _ Happ), Nat.sub_diag
      by (rewrite (applied_length _ _ _ _ _ _ _ _ Happ); lia).
    cbn [nth_error]. rewrite Hop.
    destruct (Z.ltb_spec ret 0) as [_ |]; [| lia].
    unfold set_error_idx, set_control.
    cbn [ctrls_controls ctrls_class ctrls_count ctrls_error_idx].
    rewrite <- (applied_length _ _ _ _ _ _ _ _ Happ).
    rewrite firstn_app, Nat.sub_diag, firstn_all, firstn_O, app_nil_r.
    rewrite skipn_app, skipn_all2 by lia.
    replace (Datatypes.S (length pre') - length pre')%nat with 1%nat by lia.
    reflexivity.
Qed.

(** X16.  The four control loops stop at the first control the sensor
    refuses and do not undo what they did.  With the operations present,
    each of [video_g_ext_ctrls], [video_s_ext_ctrls] and their scene
    variants returns the result of the last entry when the sensor takes all
    of them; when it refuses one, they return its error with [error_idx] at
    its index, keep the entries before it as the sensor left them, keep the
    sensor as these left it, and never hand over the entries after it. *)
Theorem ext_ctrls_stop_at_first_error :
  forall (S : Type) (g s : ctrl_op S) (gs ss : Z -> ctrl_op S) (mode : Z),
    let ops := Some (mk_ctrl_ops (Some g) (Some s) (Some gs) (Some ss)) in
    stops_at_first_error g (video_g_ext_ctrls ops)
    /\ stops_at_first_error s (video_s_ext_ctrls ops)
    /\ stops_at_first_error (gs mode) (video_g_ext_ctrls_scene ops mode)
    /\ stops_at_first_error (ss mode) (video_s_ext_ctrls_scene ops mode).
Proof.
  intros S g s gs ss mode ops.
  split; [| split; [| split]].
  - exact (ext_ctrls_loop_stops g).
  - exact (ext_ctrls_loop_stops s).
  - exact (ext_ctrls_loop_stops (gs mode)).
  - exact (ext_ctrls_loop_stops (ss mode)).
Qed.

Lemma ext_ctrls_stop_at_first_error_witness :
  video_s_ext_ctrls (Some toy_ctrl_ops)
    (mk_ext_controls 0 3 0
       [mk_ext_control 1 10; mk_ext_control 77 20; mk_ext_control 2 30]) []
  = Some (- EINVAL,
          mk_ext_controls 0 3 1
            [mk_ext_control 1 10; mk_ext_control 77 20; mk_ext_control 2 30],
          [mk_ext_control 1 10]).
Proof.
  pose proof (ext_ctrls_stop_at_first_error
                (list v4l2_ext_control) toy_get toy_set
                (fun _ => toy_get) (fun _ => toy_set) 0) as (_ & Hset & _).
  destruct (Hset 0 0 [mk_ext_control 1 10] [mk_ext_control 1 10]
                 [] [mk_ext_control 1 10] OK) as [_ Hstop].
  - eapply applied_cons; [reflexivity | discriminate | apply applied_nil].
  - apply (Hstop (mk_ext_control 77 20) (mk_ext_control 77 20)
                 [mk_ext_control 2 30] (- EINVAL) [mk_ext_control 1 10]);
      reflexivity.
Defined.

(** X17.  Which control functions test for a missing operation.  With no
    operations vector, or with a vector whose entries are NULL, the scene
    variants return [- EINVAL] and leave the request and the sensor alone.
    [video_g_ext_ctrls] and [video_s_ext_ctrls] make no such test: they
    return OK for a request without entries, and for any other request they
    call through the NULL pointer. *)
Theorem ctrl_ops_missing :
  forall (S : Type) (ops : option (video_ctrl_ops_s S)) (mode : Z)
         (ctrls : v4l2_ext_controls) (sens : S),
    In ops [None; Some (mk_ctrl_ops None None None None)] ->
    video_g_ext_ctrls_scene ops mode ctrls sens = Some (- EINVAL, ctrls, sens)
    /\ video_s_ext_ctrls_scene ops mode ctrls sens
       = Some (- EINVAL, ctrls, sens)
    /\ video_g_ext_ctrls ops ctrls sens
       = (if ctrls_count ctrls <=? 0 then Some (OK, ctrls, sens) else None)
    /\ video_s_ext_ctrls ops ctrls sens
       = (if ctrls_count ctrls <=? 0 then Some (OK, ctrls, sens) else None).
Proof.
  intros S ops mode ctrls sens Hops.
  assert (Hloop : ext_ctrls_loop None (Z.to_nat (ctrls_count ctrls)) 0 OK
                                 ctrls sens
                  = (if ctrls_count ctrls <=? 0 then Some (OK, ctrls, sens)
                     else None)).
  { destruct (Z.leb_spec (ctrls_count ctrls) 0) as [Hle | Hgt].
    - replace (Z.to_nat (ctrls_count ctrls)) with 0%nat by lia. reflexivity.
    - destruct (Z.to_nat (ctrls_count ctrls)) eqn:Hn; [lia | reflexivity]. }
  destruct Hops as [<- | [<- | []]];
    unfold video_g_ext_ctrls_scene, video_s_ext_ctrls_scene,
      video_g_ext_ctrls, video_s_ext_ctrls;
    cbn [get_ctrlvalue set_ctrlvalue get_sceneparam set_sceneparam];
    rewrite Hloop; repeat split.
Qed.

Lemma ctrl_ops_missing_witness :
  video_g_ext_ctrls_scene (S := unit) None 0
    (mk_ext_controls 0 1 0 [mk_ext_control 1 0]) tt
  = Some (- EINVAL, mk_ext_controls 0 1 0 [mk_ext_control 1 0], tt)
  /\ video_g_ext_ctrls (S := unit) None
       (mk_ext_controls 0 1 0 [mk_ext_control 1 0]) tt
     = None.
Proof.
  destruct (ctrl_ops_missing unit None 0
              (mk_ext_controls 0 1 0 [mk_ext_control 1 0]) tt)
    as (Hscene & _ & Hplain & _).
  - left. reflexivity.
  - split; [exact Hscene | exact Hplain].
Defined.

(** ** The lists of supported formats *)

Lemma renumber_app (type : v4l2_buf_type) (k : Z) (a b : list v4l2_fmtdesc) :
  renumber type k (a ++ b)
  = renumber type k a ++ renumber type (k + Z.of_nat (length a)) b.
Proof.
  revert k. induction a as [| f a IH]; intros k.
  - cbn [app renumber length Z.of_nat]. now rewrite Z.add_0_r.
  - cbn [app renumber length]. rewrite IH. do 3 f_equal. lia.
Qed.

Lemma renumber_length (type : v4l2_buf_type) (k : Z) (a : list v4l2_fmtdesc) :
  length (renumber type k a) = length a.
Proof.
  revert k. induction a as [| f a IH]; intros k; cbn [renumber length];
    [reflexivity | now rewrite IH].
Qed.

Lemma renumber_nth (type : v4l2_buf_type) (a : list v4l2_fmtdesc) :
  forall (k : Z) (i : nat) (f : v4l2_fmtdesc),
    nth_error (renumber type k a) i = Some f ->
    fmt_index f = k + Z.of_nat i /\ fmt_type f = type.
Proof.
  induction a as [| g a IH]; intros k i f Hnth.
  - destruct i; discriminate.
  - destruct i as [| i]; cbn [renumber nth_error] in Hnth.
    + injection Hnth as <-. cbn. split; [lia | reflexivity].
    + apply IH in Hnth. destruct Hnth as [Hidx Htype].
      split; [lia | exact Htype].
Qed.

Lemma supported_app (chk : Z -> Z -> Z) (a b : list v4l2_fmtdesc) :
  supported chk (a ++ b) = supported chk a ++ supported chk b.
Proof. apply filter_app. Qed.

Lemma supported_length_app (chk : Z -> Z -> Z) (a b : list v4l2_fmtdesc) :
  (length (supported chk a) <= length (supported chk (a ++ b)))%nat.
Proof. rewrite supported_app, length_app. lia. Qed.

(** The loop with the formats [done] behind it and [rest] to come: it holds
    the supported ones of [done], numbered, and ends with those of all. *)
Lemma create_supported_fmtlist_loop_spec
    (heap : nat -> bool) (junk : v4l2_fmtdesc) (chk : Z -> Z -> Z)
    (type : v4l2_buf_type) (fmts : list v4l2_fmtdesc) :
  (forall n : nat, heap n = true) ->
  Z.of_nat (length (supported chk fmts)) < 65536 ->
  forall (rest done : list v4l2_fmtdesc) (fuel : nat) (capa : v4l2_fmtdesc),
    fmts = done ++ rest ->
    (length rest < fuel)%nat ->
    fmt_index capa = Z.of_nat (length done) ->
    create_supported_fmtlist_loop heap junk (sensor_of_fmts fmts) chk fuel
      type capa
      (fst (fmtlist_of (renumber type 0 (supported chk done))))
      (snd (fmtlist_of (renumber type 0 (supported chk done))))
    = Some (fmtlist_of (renumber type 0 (supported chk fmts))).
Proof.
  intros Hheap Hfits.
  induction rest as [| f rest IH]; intros done fuel capa Hfmts Hfuel Hidx;
    (destruct fuel as [| fuel]; [cbn [length] in Hfuel; lia |]);
    cbn [create_supported_fmtlist_loop]; unfold sensor_of_fmts at 1;
    rewrite Hidx, Nat2Z.id;
    (destruct (Z.ltb_spec (Z.of_nat (length done)) 0) as [| _]; [lia |]).
  - rewrite app_nil_r in Hfmts. subst done.
    rewrite (proj2 (nth_error_None fmts (length fmts))) by lia.
    cbn [negb Z.eqb Z.opp EINVAL OK].
    now destruct (fmtlist_of _).
  - assert (Hnth : nth_error fmts (length done) = Some f).
    { subst fmts. rewrite nth_error_app2, Nat.sub_diag by lia. reflexivity. }
    rewrite Hnth. cbn [negb Z.eqb OK].
    cbn [fmt_index fmt_type fmt_flags fmt_pixelformat fmt_subimg_pixelformat
         fmt_description].
    assert (Hsplit : fmts = (done ++ [f]) ++ rest)
      by (rewrite <- app_assoc; exact Hfmts).
    assert (Hnext : Z.of_nat (length done) + 1
                    = Z.of_nat (length (done ++ [f])))
      by (rewrite length_app; cbn [length]; lia).
    set (acc := supported chk done) in *.
    destruct (chk (fmt_pixelformat f) (fmt_subimg_pixelformat f) =? OK)
      eqn:Hchk.
    + assert (Hacc : supported chk (done ++ [f]) = acc ++ [f]).
      { rewrite supported_app. unfold supported at 2. cbn [filter].
        now rewrite Hchk. }
      assert (Hlen : Z.of_nat (length acc) < 65535).
      { pose proof (supported_length_app chk (done ++ [f]) rest) as Hle.
        rewrite <- Hsplit, Hacc, length_app in Hle. cbn [length] in Hle.
        lia. }
      rewrite Hheap.
      specialize (IH (done ++ [f]) fuel
                     (mk_fmtdesc (Z.of_nat (length done) + 1) (fmt_type capa)
                        (fmt_flags f) (fmt_pixelformat f)
                        (fmt_subimg_pixelformat f) (fmt_description f))
                     Hsplit ltac:(cbn [length] in Hfuel; lia) Hnext).
      rewrite Hacc, renumber_app in IH. cbn [renumber] in IH.
      rewrite Z.add_0_l in IH.
      rewrite <- IH. clear IH.
      destruct acc as [| a acc'] eqn:Eacc.
      * cbn [renumber fmtlist_of fst snd zeroed_fmtlist fmtlist_num
             fmtlist_fmt length app Z.of_nat Z.to_nat Z.eqb firstn skipn].
        reflexivity.
      * set (numbered := renumber type 0 (a :: acc')).
        assert (Hn : length numbered = Datatypes.S (length acc'))
          by (subst numbered; now rewrite renumber_length).
        assert (Hcons : exists b bs, numbered = b :: bs)
          by (subst numbered; cbn [renumber]; eauto).
        destruct Hcons as (b & bs & Hcons).
        assert (Hfl : fmtlist_of numbered
                      = (OK, mk_fmtlist (Z.of_nat (length numbered))
                                        (Some numbered)))
          by (rewrite Hcons; reflexivity).
        assert (Hfl' : fmtlist_of
                         (numbered
                          ++ [mk_fmtdesc (Z.of_nat (length (a :: acc'))) type
                                (fmt_flags f) (fmt_pixelformat f)
                                (fmt_subimg_pixelformat f)
                                (fmt_description f)])
                       = (OK, mk_fmtlist
                                (Z.of_nat (Datatypes.S (length numbered)))
                                (Some (numbered
                                       ++ [mk_fmtdesc
                                             (Z.of_nat (length (a :: acc')))
                                             type (fmt_flags f)
                                             (fmt_pixelformat f)
                                             (fmt_subimg_pixelformat f)
                                             (fmt_description f)])))).
        { rewrite Hcons. cbn [app fmtlist_of]. do 3 f_equal.
          cbn [length]. rewrite length_app. cbn [length]. lia. }
        rewrite Hfl, Hfl'. cbn [fst snd fmtlist_num fmtlist_fmt].
        rewrite Nat2Z.id.
        destruct (Z.eqb_spec (Z.of_nat (length numbered)) 0) as [E | _];
          [rewrite Hn in E; lia |].
        unfold realloc_fmt.
        rewrite (@firstn_all2 _ (Datatypes.S (length numbered)) numbered)
          by lia.
        replace (Datatypes.S (length numbered) - length numbered)%nat
          with 1%nat by lia.
        cbn [repeat].
        rewrite firstn_app, Nat.sub_diag, firstn_all, firstn_O, app_nil_r.
        rewrite skipn_all2 by (rewrite length_app; cbn [length]; lia).
        rewrite Z.mod_small by (cbn [length] in Hlen; lia).
        rewrite Hn. cbn [length].
        do 4 f_equal. lia.
    + assert (Hacc : supported chk (done ++ [f]) = acc).
      { rewrite supported_app. unfold supported at 2. cbn [filter].
        rewrite Hchk. apply app_nil_r. }
      specialize (IH (done ++ [f]) fuel
                     (mk_fmtdesc (Z.of_nat (length done) + 1) (fmt_type capa)
                        (fmt_flags f) (fmt_pixelformat f)
                        (fmt_subimg_pixelformat f) (fmt_description f))
                     Hsplit ltac:(cbn [length] in Hfuel; lia) Hnext).
      rewrite Hacc in IH. exact IH.
Qed.

(** X18.  The list of supported formats has no gaps.  The sensor enumerates
    the formats [fmts], the allocator has room, and fewer than 65536 of the
    formats are taken by the pipeline.  Then [create_supported_fmtlist] on a
    zeroed list comes to an end; it returns OK when the pipeline takes at
    least one format and [- EINVAL] when it takes none, and the list holds
    the formats it takes, in the sensor's order, numbered 0, 1, 2, ...
    whatever index the sensor knows them by.  [video_enum_fmt] on that list
    returns the format of every index below their number, with that index
    and the type of the list, and [- EINVAL], leaving the request alone, for
    the indices from there on. *)
Theorem supported_fmtlist_has_no_gaps :
  forall (heap : nat -> bool) (junk : v4l2_fmtdesc) (chk : Z -> Z -> Z)
         (fmts : list v4l2_fmtdesc) (fuel : nat) (p : type_inf_ptr)
         (other : video_fmtlist_t) (request : v4l2_fmtdesc),
    let type := match p with
                | PTR_VIDEO_INF => V4L2_BUF_TYPE_VIDEO_CAPTURE
                | PTR_STILL_INF => V4L2_BUF_TYPE_STILL_CAPTURE
                end in
    (forall n : nat, heap n = true) ->
    Z.of_nat (length (supported chk fmts)) < 65536 ->
    (length fmts < fuel)%nat ->
    fmt_type request = type ->
    0 <= fmt_index request ->
    let acc := renumber type 0 (supported chk fmts) in
    exists list : video_fmtlist_t,
      create_supported_fmtlist heap junk (Some (sensor_of_fmts fmts))
                               (Some chk) fuel type zeroed_fmtlist
      = Some (match acc with [] => - EINVAL | _ :: _ => OK end, list)
      /\ fmtlist_num list = Z.of_nat (length acc)
      /\ match p with
         | PTR_VIDEO_INF => video_enum_fmt list other request
         | PTR_STILL_INF => video_enum_fmt other list request
         end
         = match nth_error acc (Z.to_nat (fmt_index request)) with
           | Some f => Some (OK, f)
           | None => Some (- EINVAL, request)
           end
      /\ forall (i : nat) (f : v4l2_fmtdesc),
           nth_error acc i = Some f ->
           fmt_index f = Z.of_nat i /\ fmt_type f = type.
Proof.
  intros heap junk chk fmts fuel p other request type
         Hheap Hfits Hfuel Htype Hidx acc.
  pose proof (create_supported_fmtlist_loop_spec heap junk chk type fmts
                Hheap Hfits fmts [] fuel (mk_fmtdesc 0 type 0 0 0 [])
                eq_refl Hfuel eq_refl) as Hloop.
  cbn [supported filter renumber fmtlist_of fst snd] in Hloop.
  fold (supported chk fmts) in Hloop. fold acc in Hloop.
  exists (snd (fmtlist_of acc)).
  assert (Henum : forall list' : video_fmtlist_t,
             video_enum_fmt
               match p with PTR_VIDEO_INF => snd (fmtlist_of acc)
                          | PTR_STILL_INF => list' end
               match p with PTR_VIDEO_INF => list'
                          | PTR_STILL_INF => snd (fmtlist_of acc) end
               request
             = match nth_error acc (Z.to_nat (fmt_index request)) with
               | Some f => Some (OK, f)
               | None => Some (- EINVAL, request)
               end).
  { intros list'. unfold video_enum_fmt. rewrite Htype.
    assert (Hlist : match type with
                    | V4L2_BUF_TYPE_VIDEO_CAPTURE =>
                        Some match p with
                             | PTR_VIDEO_INF => snd (fmtlist_of acc)
                             | PTR_STILL_INF => list'
                             end
                    | V4L2_BUF_TYPE_STILL_CAPTURE =>
                        Some match p with
                             | PTR_VIDEO_INF => list'
                             | PTR_STILL_INF => snd (fmtlist_of acc)
                             end
                    | V4L2_BUF_TYPE_OTHER _ => None
                    end = Some (snd (fmtlist_of acc)))
      by (subst type; now destruct p).
    rewrite Hlist. clear Hlist.
    destruct acc as [| a acc'] eqn:Eacc.
    - cbn [fmtlist_of snd zeroed_fmtlist fmtlist_num].
      destruct (Z.leb_spec 0 (fmt_index request)); [| lia].
      now destruct (Z.to_nat (fmt_index request)).
    - cbn [fmtlist_of snd fmtlist_num fmtlist_fmt].
      destruct (Z.leb_spec (Z.of_nat (length (a :: acc')))
                           (fmt_index request)) as [Hge | Hlt].
      + rewrite (proj2 (nth_error_None (a :: acc')
                          (Z.to_nat (fmt_index request)))) by lia.
        reflexivity.
      + destruct (nth_error (a :: acc') (Z.to_nat (fmt_index request)))
          eqn:Hnth; [reflexivity |].
        apply nth_error_None in Hnth. lia. }
  split; [| split; [| split]].
  - unfold create_supported_fmtlist.
    rewrite Hloop. now destruct acc.
  - now destruct acc.
  - specialize (Henum other). now destruct p.
  - intros i f Hnth. subst acc.
    apply renumber_nth in Hnth. rewrite Z.add_0_l in Hnth. exact Hnth.
Qed.

Lemma supported_fmtlist_has_no_gaps_witness :
  exists list : video_fmtlist_t,
    create_supported_fmtlist (fun _ => true) (mk_fmtdesc 0 (V4L2_BUF_TYPE_OTHER 0) 0 0 0 [])
      (Some (sensor_of_fmts toy_fmts)) (Some toy_chk_pixelformat) 5
      V4L2_BUF_TYPE_STILL_CAPTURE zeroed_fmtlist
    = Some (OK, list)
    /\ fmtlist_num list = 2
    /\ video_enum_fmt zeroed_fmtlist list
         (mk_fmtdesc 1 V4L2_BUF_TYPE_STILL_CAPTURE 0 0 0 [])
       = Some (OK, mk_fmtdesc 1 V4L2_BUF_TYPE_STILL_CAPTURE 1 40 0 []).
Proof.
  destruct (supported_fmtlist_has_no_gaps
              (fun _ => true) (mk_fmtdesc 0 (V4L2_BUF_TYPE_OTHER 0) 0 0 0 [])
              toy_chk_pixelformat toy_fmts 5
              PTR_STILL_INF zeroed_fmtlist
              (mk_fmtdesc 1 V4L2_BUF_TYPE_STILL_CAPTURE 0 0 0 []))
    as (list & Hcreate & Hnum & Henum & _).
  - reflexivity.
  - vm_compute. reflexivity.
  - cbn [length toy_fmts]. lia.
  - reflexivity.
  - cbn. lia.
  - exists list. split; [exact Hcreate | split; [exact Hnum | exact Henum]].
Defined.

(** ** Registration *)

Lemma strnlen_string (path tail : list Z) (maxlen : nat) :
  Forall (fun c => c <> 0) path ->
  strnlen (path ++ 0 :: tail) maxlen = Some (Nat.min (length path) maxlen).
Proof.
  revert maxlen. induction path as [| c path IH]; intros maxlen Hpath.
  - destruct maxlen; reflexivity.
  - destruct maxlen as [| maxlen]; [reflexivity |].
    cbn [app strnlen length Nat.min].
    inversion Hpath as [| ? ? Hc Hrest]; subst.
    destruct (Z.eqb_spec c 0); [contradiction |].
    now rewrite IH.
Qed.

(** X19.  Which paths [video_register] takes.  The argument is a string
    [path] with its terminator and the bytes [tail] that follow it in the
    same object; the allocator has room and [register_driver] succeeds.  A
    path shorter than two characters, or one that does not start with a
    slash, or one longer than 32 characters, gives NULL.  A path of 2 to 30
    characters is registered as it is.  A path of 32 characters is
    registered too, but under its first 31 characters.  For a path of 31
    characters the test reads the byte behind the terminator: the path is
    registered when that byte is zero, refused when it is not, and read
    outside the object when the terminator is its last byte. *)
Theorem video_register_path :
  forall (register_driver : list Z -> Z) (path tail : list Z),
    Forall (fun c => c <> 0) path ->
    (forall p : list Z, 0 <= register_driver p) ->
    let handle p :=
      Some (Some (mk_handle p (mk_dev 1 registered)
                            zeroed_fmtlist zeroed_fmtlist)) in
    video_register true true register_driver (Some (path ++ 0 :: tail))
    = if (length path <? 2)%nat || negb (hd 0 path =? slash)
      then Some None
      else if (length path <=? 30)%nat then handle path
      else if (length path =? 31)%nat
      then match tail with
           | [] => None
           | c :: _ => if c =? 0 then handle path else Some None
           end
      else if (length path =? 32)%nat then handle (firstn 31 path)
      else Some None.
Proof.
  intros register_driver path tail Hpath Hreg handle.
  unfold video_register. rewrite strnlen_string by exact Hpath.
  change (MAX_VIDEO_FILE_PATH - 1)%nat with 31%nat.
  change MAX_VIDEO_FILE_PATH with 32%nat.
  assert (Hok : forall p, (register_driver p <? 0) = false)
    by (intros p; apply Z.ltb_ge, Hreg).
  destruct (Nat.ltb_spec (length path) 2) as [Hshort | Hlong].
  - replace (Nat.min (length path) 31) with (length path) by lia.
    destruct (Nat.ltb_spec (length path) 2); [reflexivity | lia].
  - destruct (Nat.ltb_spec (Nat.min (length path) 31) 2); [lia |].
    destruct path as [| c path']; [cbn [length] in Hlong; lia |].
    change (nth_error ((c :: path') ++ 0 :: tail) 0) with (Some c).
    cbn [hd orb].
    destruct (c =? slash); cbn [negb]; [| reflexivity].
    set (p := c :: path') in *.
    destruct (Nat.leb_spec (length p) 30) as [H30 | H30].
    + replace (Nat.min (length p) 31) with (length p) by lia.
      destruct (Nat.eqb_spec (length p) 31); [lia |].
      cbn [negb]. rewrite Hok.
      rewrite firstn_app, Nat.sub_diag, firstn_all, firstn_O, app_nil_r.
      reflexivity.
    + replace (Nat.min (length p) 31) with 31%nat by lia.
      cbn [Nat.eqb].
      destruct (Nat.eqb_spec (length p) 31) as [H31 | H31].
      * rewrite nth_error_app2 by lia.
        rewrite H31. change (32 - 31)%nat with 1%nat. cbn [nth_error].
        destruct tail as [| c' tail']; [reflexivity |].
        destruct (c' =? 0); [| reflexivity].
        cbn [negb]. rewrite Hok.
        rewrite firstn_app, <- H31, Nat.sub_diag, firstn_all, firstn_O,
          app_nil_r.
        reflexivity.
      * destruct (Nat.eqb_spec (length p) 32) as [H32 | H32].
        -- rewrite nth_error_app2 by lia.
           rewrite H32, Nat.sub_diag. cbn [nth_error Z.eqb negb]. rewrite Hok.
           rewrite firstn_app, H32. change (31 - 32)%nat with 0%nat.
           now rewrite firstn_O, app_nil_r.
        -- rewrite nth_error_app1 by lia.
           destruct (nth_error p 32) as [c' |] eqn:Hnth.
           ++ assert (Hc' : c' <> 0).
              { apply nth_error_In in Hnth.
                now apply (proj1 (Forall_forall _ _) Hpath). }
              destruct (Z.eqb_spec c' 0); [contradiction | reflexivity].
           ++ apply nth_error_None in Hnth. lia.
Qed.

Lemma video_register_path_witness :
  video_register true true (fun _ => OK)
    (Some (slash :: repeat 100 31 ++ [0]))
  = Some (Some (mk_handle (slash :: repeat 100 30) (mk_dev 1 registered)
                          zeroed_fmtlist zeroed_fmtlist)).
Proof.
  pose proof (video_register_path (fun _ => OK) (slash :: repeat 100 31) [])
    as W.
  cbv zeta in W. rewrite <- app_comm_cons in W. rewrite W.
  - reflexivity.
  - repeat constructor; discriminate.
  - intros p. discriminate.
Defined.

(** ** Initialisation *)

Lemma video_initialize_sets_flag (env : init_env) (devpath : option (list Z))
    (d d' : video_driver_t) (ret : Z) :
  video_initialize env devpath d = Some (ret, d') ->
  ret = OK /\ is_initialized d' = true
  /\ (is_initialized d = true -> d' = d)
  /\ (video_handler d <> HANDLER_FREED -> video_handler d' <> HANDLER_FREED).
Proof.
  unfold video_initialize. intros Hinit.
  destruct (is_initialized d) eqn:Hflag.
  - injection Hinit as <- <-. repeat split; auto.
  - destruct (video_register _ _ _ _) as [handler |]; [| discriminate].
    destruct (create_supported_fmtlist_at env V4L2_BUF_TYPE_VIDEO_CAPTURE _)
      as [[r1 v] |]; [| discriminate].
    destruct (create_supported_fmtlist_at env V4L2_BUF_TYPE_STILL_CAPTURE _)
      as [[r2 s] |]; [| discriminate].
    injection Hinit as <- <-. cbn [is_initialized video_handler].
    repeat split; try discriminate.
    intros _. destruct handler, v, s; discriminate.
Qed.

Lemma driver_calls_flag (calls : list driver_call) :
  forall d d' : video_driver_t,
    (is_initialized d = false -> video_handler d = HANDLER_NULL) ->
    driver_calls calls d = Some d' ->
    is_initialized d' = false -> d' = driver_at_boot.
Proof.
  induction calls as [| c calls IH]; intros d d' Hinv Hrun Hflag.
  - injection Hrun as <-. destruct d as [flag handler].
    cbn in *. subst flag. now rewrite (Hinv eq_refl).
  - cbn [driver_calls] in Hrun. destruct c as [env devpath |].
    + destruct (video_initialize env devpath d) as [[ret d1] |] eqn:Hinit;
        [| discriminate].
      apply video_initialize_sets_flag in Hinit.
      destruct Hinit as (_ & Hset & _).
      apply (IH d1 d'); [| exact Hrun | exact Hflag].
      rewrite Hset. discriminate.
    + unfold video_uninitialize in Hrun.
      destruct (is_initialized d) eqn:Hd.
      * apply (IH d d'); [rewrite Hd; discriminate | exact Hrun | exact Hflag].
      * rewrite (Hinv eq_refl) in Hrun. discriminate.
Qed.

(** X20.  [video_uninitialize] releases nothing.  In every state the driver
    can be in - reached from boot by calls of [video_initialize] and
    [video_uninitialize] that come back - it does one of two things: on an
    initialised driver it returns OK and leaves the driver as it is, still
    registered and still marked initialised; on a driver that was never
    initialised it reads through the NULL handler.  No call ever unregisters
    or frees the manager. *)
Theorem video_uninitialize_releases_nothing :
  forall (calls : list driver_call) (d : video_driver_t),
    driver_calls calls driver_at_boot = Some d ->
    video_handler d <> HANDLER_FREED
    /\ video_uninitialize d
       = (if is_initialized d then Some (OK, d) else None).
Proof.
  intros calls d Hrun.
  pose proof (driver_calls_flag calls driver_at_boot d
                (fun _ => eq_refl) Hrun) as Hboot.
  unfold video_uninitialize.
  destruct (is_initialized d) eqn:Hflag.
  - split; [| reflexivity].
    clear Hboot. revert Hrun.
    assert (Hgen : forall d0 : video_driver_t,
               video_handler d0 <> HANDLER_FREED ->
               (is_initialized d0 = false ->
                video_handler d0 = HANDLER_NULL) ->
               driver_calls calls d0 = Some d ->
               video_handler d <> HANDLER_FREED).
    { induction calls as [| c calls IH]; intros d0 Hlive Hinv Hrun.
      - injection Hrun as <-. exact Hlive.
      - cbn [driver_calls] in Hrun. destruct c as [env devpath |].
        + destruct (video_initialize env devpath d0) as [[ret d1] |] eqn:Hinit;
            [| discriminate].
          apply video_initialize_sets_flag in Hinit.
          destruct Hinit as (_ & Hset & _ & Hkeep).
          apply (IH d1); [auto | rewrite Hset; discriminate | exact Hrun].
        + unfold video_uninitialize in Hrun.
          destruct (is_initialized d0) eqn:Hd.
          * apply (IH d0);
              [exact Hlive | rewrite Hd; discriminate | exact Hrun].
          * rewrite (Hinv eq_refl) in Hrun. discriminate. }
    apply Hgen; [discriminate | reflexivity].
  - rewrite (Hboot eq_refl). split; [discriminate | reflexivity].
Qed.

Lemma video_uninitialize_releases_nothing_witness :
  exists d : video_driver_t,
    driver_calls [DRV_INITIALIZE bare_env (Some dev_v); DRV_UNINITIALIZE]
                 driver_at_boot = Some d
    /\ is_initialized d = true
    /\ (exists h : video_handle_t,
          video_handler d = HANDLER_LIVE h /\ handle_devpath h = [slash; 118])
    /\ video_uninitialize d = Some (OK, d).
Proof.
  eexists. split; [reflexivity |].
  split; [reflexivity |]. split; [eexists; split; reflexivity |].
  apply (proj2 (video_uninitialize_releases_nothing
                  [DRV_INITIALIZE bare_env (Some dev_v); DRV_UNINITIALIZE]
                  _ eq_refl)).
Defined.

(** X21.  A failed registration sticks.  When [video_register] gives NULL -
    here for a path that does not start with a slash - and the sensor has
    no [get_range_of_fmt] operation registered, [video_initialize] still
    returns OK and marks the driver initialised, with a NULL handler.  Every later
    [video_initialize], whatever its path, returns OK without registering
    anything; [video_uninitialize] returns OK as well. *)
Theorem failed_registration_sticks :
  forall (env env' : init_env) (c : Z) (path : list Z)
         (devpath' : option (list Z)),
    c <> slash ->
    c <> 0 ->
    env_get_range_of_fmt env = None ->
    let failed := mk_driver true HANDLER_NULL in
    video_initialize env (Some (c :: path ++ [0])) driver_at_boot
    = match strnlen (c :: path ++ [0]) (MAX_VIDEO_FILE_PATH - 1) with
      | Some _ => Some (OK, failed)
      | None => None
      end
    /\ strnlen (c :: path ++ [0]) (MAX_VIDEO_FILE_PATH - 1) <> None
    /\ video_initialize env' devpath' failed = Some (OK, failed)
    /\ video_uninitialize failed = Some (OK, failed).
Proof.
  intros env env' c path devpath' Hslash Hnul Hops failed.
  split; [| split; [| split; reflexivity]].
  - unfold video_initialize, driver_at_boot. cbn [is_initialized].
    unfold video_register.
    destruct (strnlen (c :: path ++ [0]) (MAX_VIDEO_FILE_PATH - 1))
      as [allocsize |]; [| reflexivity].
    cbn [nth_error].
    destruct (Z.eqb_spec c slash); [contradiction |]. cbn [negb].
    assert (Hnull : (if (allocsize <? 2)%nat then Some false else Some false)
                    = Some false) by now destruct (allocsize <? 2)%nat.
    rewrite Hnull. cbn [option_map].
    unfold create_supported_fmtlist_at, create_supported_fmtlist.
    rewrite Hops. reflexivity.
  - change (MAX_VIDEO_FILE_PATH - 1)%nat with 31%nat.
    cbn [strnlen]. destruct (Z.eqb_spec c 0); [contradiction |].
    clear. generalize 30%nat. induction path as [| a path IH]; intros n.
    + destruct n; cbn; discriminate.
    + destruct n as [| n]; [cbn; discriminate |].
      cbn [app strnlen]. destruct (a =? 0); [discriminate |].
      specialize (IH n). cbn [option_map] in *.
      destruct (strnlen (path ++ [0]) n); [discriminate | contradiction].
Qed.

Lemma failed_registration_sticks_witness :
  video_initialize bare_env (Some [118; 0]) driver_at_boot
  = Some (OK, mk_driver true HANDLER_NULL)
  /\ video_initialize bare_env (Some dev_v) (mk_driver true HANDLER_NULL)
     = Some (OK, mk_driver true HANDLER_NULL).
Proof.
  destruct (failed_registration_sticks bare_env bare_env 118 [] (Some dev_v))
    as (Hfirst & _ & Hnext & _).
  - discriminate.
  - discriminate.
  - reflexivity.
  - split; [exact Hfirst | exact Hnext].
Defined.
